(** * Crypto advisor: indicators, sustainability scorer and rules engine

    A shallow embedding of the scoring and decision engine of the advisor
    ([crypto_analyzer.py], [sustainability_scorer.py], [rules_engine.py]).

    Numbers.  Python's [int] is [Z].  For the laws of the indicators and of
    the sizing rules Python's [float] is modelled by the exact rationals
    [Q], compared with [==], and the one irrational operation, the square
    root inside [np.std], is the real square root of [Reals].  Where a
    statement depends on the rounding of binary floating point (the value
    that the position size takes at a given input, the integer that the
    portfolio scaling writes), the code is modelled on binary64 itself,
    with the kernel's primitive floats ([Binary64], [RulesEngine64]).

    Text.  Python's [str] is [string]; [str.lower] and [str.title] are
    modelled on the ASCII letters, which is all the keyword and alias tables
    contain. *)

From Stdlib Require Import Reals Lra.
From Stdlib Require Import ZArith QArith Qround Qminmax Qabs Qreals.
From Stdlib Require Import List Bool Ascii String Permutation Lia Lqa.
From Stdlib Require PrimFloat SpecFloat FloatOps.
Import ListNotations.

Local Open Scope Q_scope.

(** ** Python primitives *)

Module Py.

(** [d.get(key, default)] on a dict written as an association list. *)
Fixpoint dict_get {V : Type} (d : list (string * V)) (key : string) : option V :=
  match d with
  | [] => None
  | (k, v) :: rest => if String.eqb k key then Some v else dict_get rest key
  end.

Definition dict_get_or {V : Type} (d : list (string * V)) (key : string) (default : V) : V :=
  match dict_get d key with
  | Some v => v
  | None => default
  end.

(** [x in l] for a list of strings. *)
Definition str_in_list (x : string) (l : list string) : bool :=
  existsb (String.eqb x) l.

Definition is_upper (c : ascii) : bool :=
  (65 <=? nat_of_ascii c)%nat && (nat_of_ascii c <=? 90)%nat.

Definition is_lower (c : ascii) : bool :=
  (97 <=? nat_of_ascii c)%nat && (nat_of_ascii c <=? 122)%nat.

Definition to_lower (c : ascii) : ascii :=
  if is_upper c then ascii_of_nat (nat_of_ascii c + 32) else c.

Definition to_upper (c : ascii) : ascii :=
  if is_lower c then ascii_of_nat (nat_of_ascii c - 32) else c.

(** [s.lower()]. *)
Fixpoint lower (s : string) : string :=
  match s with
  | EmptyString => EmptyString
  | String c rest => String (to_lower c) (lower rest)
  end.

(** [s.title()]: a letter that follows a non-letter is upper-cased, every
    other letter is lower-cased. *)
Fixpoint title_from (prev_cased : bool) (s : string) : string :=
  match s with
  | EmptyString => EmptyString
  | String c rest =>
      let cased := is_upper c || is_lower c in
      String (if prev_cased then to_lower c else to_upper c) (title_from cased rest)
  end.

Definition title (s : string) : string := title_from false s.

(** [needle in haystack] for strings. *)
Fixpoint contains (needle haystack : string) : bool :=
  String.prefix needle haystack ||
  match haystack with
  | EmptyString => false
  | String _ rest => contains needle rest
  end.

(** [any(word in text for word in words)]. *)
Definition any_in (words : list string) (text : string) : bool :=
  existsb (fun word => contains word text) words.

(** [round(x)]: nearest integer, ties to the even one. *)
Definition round (x : Q) : Z :=
  let f := Qfloor x in
  let r := x - inject_Z f in
  match Qcompare r (1 # 2) with
  | Lt => f
  | Gt => (f + 1)%Z
  | Eq => if Z.even f then f else (f + 1)%Z
  end.

(** [round(x, 1)]: one decimal place. *)
Definition round1 (x : Q) : Q := inject_Z (round (x * 10)) / 10.

(** [sum(l)] and [np.mean(l)]; the mean of an empty list is [nan], which is
    [None] here. *)
Definition sum (l : list Q) : Q := fold_left Qplus l 0.

Definition np_mean (l : list Q) : option Q :=
  match l with
  | [] => None
  | _ => Some (sum l / inject_Z (Z.of_nat (List.length l)))
  end.

(** [l[-n:]]: the last [n] elements; [l[-0:]] is the whole list. *)
Definition last_n {A : Type} (n : nat) (l : list A) : list A :=
  match n with
  | O => l
  | _ => skipn (List.length l - n) l
  end.

End Py.

(** ** Binary64 numbers: Python's [float] bit for bit *)

Module Binary64.

Import PrimFloat.

(** [float(z)] for an [int]: the nearest binary64 value, ties to even.
    Infinity stands for the [OverflowError] of an int beyond the range. *)
Definition of_int (z : Z) : float :=
  FloatOps.SF2Prim (SpecFloat.binary_normalize FloatOps.prec FloatOps.emax z 0 false).

(** The rational number that a finite float is; [None] for nan and the
    infinities. *)
Definition exact (x : float) : option Q :=
  match FloatOps.Prim2SF x with
  | SpecFloat.S754_zero _ => Some 0
  | SpecFloat.S754_finite negative m e =>
      let magnitude :=
        match e with
        | Z0 => inject_Z (Zpos m)
        | Zpos k => inject_Z (Zpos m * 2 ^ Zpos k)
        | Zneg k => Zpos m # (2 ^ k)
        end in
      Some (if negative then - magnitude else magnitude)
  | _ => None
  end.

(** [round(x)] for a float: the nearest integer, ties to the even one.
    [None] stands for the [ValueError] on nan and the [OverflowError] on an
    infinity. *)
Definition round (x : float) : option Z := option_map Py.round (exact x).

End Binary64.

(** ** Sustainability scorer ([sustainability_scorer.py]) *)

Module SustainabilityScorer.

Record Profile := {
  consensus : string;
  energy_intensity : string;
  governance_model : string;
  environmental_initiatives : string;
  innovation_focus : string;
  transparency : string;
  carbon_neutral_goal : bool;
  renewable_energy_usage : string
}.

Definition mk (c e g i f t : string) (cn : bool) (r : string) : Profile :=
  {| consensus := c; energy_intensity := e; governance_model := g;
     environmental_initiatives := i; innovation_focus := f; transparency := t;
     carbon_neutral_goal := cn; renewable_energy_usage := r |}.

Definition w_energy_efficiency : Q := 40 # 100.
Definition w_governance : Q := 30 # 100.
Definition w_innovation : Q := 20 # 100.
Definition w_transparency : Q := 10 # 100.

Definition crypto_profiles : list (string * Profile) :=
  [ ("bitcoin",
     mk "proof_of_work" "very_high" "decentralized" "limited" "store_of_value" "high" false "medium");
    ("ethereum",
     mk "proof_of_stake" "low" "developer_led" "strong" "smart_contracts" "high" true "high");
    ("cardano",
     mk "proof_of_stake" "very_low" "democratic" "strong" "sustainability" "very_high" true "very_high");
    ("polkadot",
     mk "nominated_proof_of_stake" "very_low" "democratic" "strong" "interoperability" "high" true "high");
    ("solana",
     mk "proof_of_history" "low" "foundation_led" "medium" "performance" "medium" true "medium");
    ("chainlink",
     mk "proof_of_stake" "low" "decentralized" "medium" "oracles" "medium" false "medium");
    ("litecoin",
     mk "proof_of_work" "high" "decentralized" "limited" "payments" "medium" false "medium");
    ("dogecoin",
     mk "proof_of_work" "high" "community" "limited" "meme" "medium" false "low");
    ("algorand",
     mk "pure_proof_of_stake" "very_low" "democratic" "very_strong" "sustainability" "very_high" true "very_high");
    ("matic-network",
     mk "proof_of_stake" "low" "democratic" "strong" "scaling" "high" true "high") ]%string.

Definition energy_scores : list (string * Q) :=
  [ ("very_low", 95); ("low", 80); ("medium", 60); ("high", 30); ("very_high", 10) ]%string.

Definition governance_scores : list (string * Q) :=
  [ ("democratic", 90); ("decentralized", 80); ("developer_led", 70);
    ("foundation_led", 60); ("community", 75) ]%string.

Definition initiative_scores : list (string * Q) :=
  [ ("very_strong", 95); ("strong", 80); ("medium", 60); ("limited", 30); ("none", 10) ]%string.

Definition transparency_scores : list (string * Q) :=
  [ ("very_high", 95); ("high", 80); ("medium", 60); ("low", 30); ("very_low", 10) ]%string.

Definition renewable_energy_scores : list (string * Q) :=
  [ ("very_high", 95); ("high", 80); ("medium", 60); ("low", 30); ("very_low", 10) ]%string.

(** [min(100, max(0, total_score))]. *)
Definition clamp (total_score : Q) : Q := Qmin 100 (Qmax 0 total_score).

Definition _calculate_energy_efficiency_score (profile : Profile) : Q :=
  let base_score := Py.dict_get_or energy_scores (energy_intensity profile) 60 in
  let renewable_bonus :=
    Py.dict_get_or renewable_energy_scores (renewable_energy_usage profile) 60 * (2 # 10) in
  let carbon_bonus := if carbon_neutral_goal profile then 10 else 0 in
  let consensus_bonus :=
    if Py.str_in_list (consensus profile)
         [ "proof_of_stake"; "nominated_proof_of_stake"; "pure_proof_of_stake" ]%string
    then 15
    else if String.eqb (consensus profile) "proof_of_history" then 10
    else if String.eqb (consensus profile) "proof_of_work" then - (20)
    else 0 in
  let total_score := base_score + renewable_bonus + carbon_bonus + consensus_bonus in
  clamp total_score.

Definition _calculate_governance_score (profile : Profile) : Q :=
  let base_score := Py.dict_get_or governance_scores (governance_model profile) 70 in
  let transparency_bonus :=
    (Py.dict_get_or transparency_scores (transparency profile) 60 - 60) * (3 # 10) in
  let initiative_bonus :=
    (Py.dict_get_or initiative_scores (environmental_initiatives profile) 60 - 60) * (2 # 10) in
  let total_score := base_score + transparency_bonus + initiative_bonus in
  clamp total_score.

Definition innovation_base_scores : list (string * Q) :=
  [ ("sustainability", 90); ("smart_contracts", 85); ("interoperability", 80);
    ("scaling", 80); ("performance", 75); ("oracles", 75); ("store_of_value", 70);
    ("payments", 65); ("privacy", 75); ("meme", 30); ("general", 60) ]%string.

Definition _calculate_innovation_score (profile : Profile) : Q :=
  let base_score := Py.dict_get_or innovation_base_scores (innovation_focus profile) 60 in
  let environmental_bonus :=
    if Py.str_in_list (innovation_focus profile) [ "sustainability"; "scaling" ]%string
    then 10 else 0 in
  let carbon_bonus := if carbon_neutral_goal profile then 5 else 0 in
  let total_score := base_score + environmental_bonus + carbon_bonus in
  clamp total_score.

Definition _calculate_transparency_score (profile : Profile) : Q :=
  let base_score := Py.dict_get_or transparency_scores (transparency profile) 60 in
  let initiative_bonus :=
    if Py.str_in_list (environmental_initiatives profile) [ "strong"; "very_strong" ]%string
    then 10 else 0 in
  let governance_bonus :=
    if String.eqb (governance_model profile) "democratic" then 5 else 0 in
  let total_score := base_score + initiative_bonus + governance_bonus in
  clamp total_score.

Definition _get_default_profile : Profile :=
  mk "unknown" "medium" "decentralized" "limited" "general" "medium" false "medium".

(** The numeric part of the dict that [calculate_sustainability_score]
    returns, together with the id it was asked for. *)
Record Score := {
  crypto_id : string;
  total_score : Q;
  energy_efficiency : Q;
  governance : Q;
  innovation : Q;
  transparency_score : Q;
  score_carbon_neutral_goal : bool
}.

Definition calculate_sustainability_score (id : string) : Score :=
  let profile := Py.dict_get_or crypto_profiles (Py.lower id) _get_default_profile in
  let energy_score := _calculate_energy_efficiency_score profile in
  let governance_score := _calculate_governance_score profile in
  let innovation_score := _calculate_innovation_score profile in
  let transparency_score := _calculate_transparency_score profile in
  let total_score :=
    energy_score * w_energy_efficiency +
    governance_score * w_governance +
    innovation_score * w_innovation +
    transparency_score * w_transparency in
  {| crypto_id := id;
     total_score := Py.round1 total_score;
     energy_efficiency := Py.round1 energy_score;
     governance := Py.round1 governance_score;
     innovation := Py.round1 innovation_score;
     transparency_score := Py.round1 transparency_score;
     score_carbon_neutral_goal := carbon_neutral_goal profile |}.

(** Every profile the scorer can work on: the default one and the ten of
    the table. *)
Definition all_profiles : list Profile :=
  _get_default_profile :: map snd crypto_profiles.

(** The ten ids of [crypto_profiles]. *)
Definition known_ids : list string := map fst crypto_profiles.

(** What the claim asks of one returned score. *)
Definition in_range (x : Q) : Prop := 0 <= x /\ x <= 100.

Definition weighted_sum_ok (s : Score) : Prop :=
  total_score s ==
    (40 # 100) * energy_efficiency s + (30 # 100) * governance s +
    (20 # 100) * innovation s + (10 # 100) * transparency_score s.

Definition score_ok (s : Score) : Prop :=
  in_range (energy_efficiency s) /\ in_range (governance s) /\
  in_range (innovation s) /\ in_range (transparency_score s) /\
  weighted_sum_ok s.

(** The same, decided by computation. *)
Definition in_range_b (x : Q) : bool := Qle_bool 0 x && Qle_bool x 100.

Definition score_ok_b (s : Score) : bool :=
  in_range_b (energy_efficiency s) && in_range_b (governance s) &&
  in_range_b (innovation s) && in_range_b (transparency_score s) &&
  Qeq_bool (total_score s)
    ((40 # 100) * energy_efficiency s + (30 # 100) * governance s +
     (20 # 100) * innovation s + (10 # 100) * transparency_score s).

End SustainabilityScorer.


(** ** Technical indicators ([crypto_analyzer.py]) *)

Module CryptoAnalyzer.

(** One [timestamp, price] pair of a price series. *)
Definition PricePoint : Type := (Z * Q)%type.

(** [prices[i][1]]. *)
Definition price_at (prices : list PricePoint) (i : nat) : Q :=
  snd (nth i prices (0%Z, 0)).

(** [x > y] and [x != 0] on rationals, as booleans. *)
Definition Qgt_b (x y : Q) : bool := negb (Qle_bool x y).
Definition Qne_b (x y : Q) : bool := negb (Qeq_bool x y).

(** [sum(l) / len(l)]. *)
Definition mean_of (l : list Q) : Q := Py.sum l / inject_Z (Z.of_nat (List.length l)).

(** [np.std(l)], the population standard deviation
    [sqrt(mean(abs(x - mean(l)) ** 2))].  Its only caller passes a
    nonempty list. *)
Definition variance (l : list Q) : Q :=
  mean_of (map (fun x => Qabs (x - mean_of l) ^ 2) l).

Definition np_std (l : list Q) : R := sqrt (Q2R (variance l)).

(** Body of the loop of [calculate_volatility] at index [i]. *)
Definition volatility_step (prices : list PricePoint) (price_changes : list Q) (i : nat)
  : list Q :=
  if Qne_b (price_at prices (i - 1)) 0 then
    let change := (price_at prices i - price_at prices (i - 1)) / price_at prices (i - 1) in
    price_changes ++ [change]
  else price_changes.

Definition calculate_volatility (prices : list PricePoint) : R :=
  if (List.length prices <? 2)%nat then 0%R
  else
    let price_changes :=
      fold_left (volatility_step prices) (seq 1 (List.length prices - 1)) [] in
    match price_changes with
    | [] => 0%R
    | _ => (np_std price_changes * 100)%R
    end.

(** Body of the loop of [calculate_rsi] at index [i]; the state is the
    pair of lists [(gains, losses)]. *)
Definition rsi_step (price_values : list Q) (acc : list Q * list Q) (i : nat)
  : list Q * list Q :=
  let '(gains, losses) := acc in
  let change := nth i price_values 0 - nth (i - 1) price_values 0 in
  if Qgt_b change 0 then (gains ++ [change], losses ++ [0])
  else (gains ++ [0], losses ++ [Qabs change]).

(** The result is [None] where Python computes [nan] (the mean of an empty
    slice, which needs [period = 0]). *)
Definition calculate_rsi (prices : list PricePoint) (period : nat) : option Q :=
  if (List.length prices <? period + 1)%nat then Some 50
  else
    let price_values := map snd prices in
    let '(gains, losses) :=
      fold_left (rsi_step price_values) (seq 1 (List.length price_values - 1)) ([], []) in
    if (List.length gains <? period)%nat then Some 50
    else
      match Py.np_mean (Py.last_n period gains), Py.np_mean (Py.last_n period losses) with
      | Some avg_gain, Some avg_loss =>
          if Qeq_bool avg_loss 0 then Some 100
          else
            let rs := avg_gain / avg_loss in
            let rsi := 100 - 100 / (1 + rs) in
            Some rsi
      | _, _ => None
      end.

(** The JSON object of one market chart: its ['prices'] entry may be absent. *)
Record MarketChart := { prices : option (list PricePoint) }.

Section Momentum.

(** [get_historical_data(crypto_ids, days)]: a dict from each requested id
    to its market chart, or to [None] when the request failed. *)
Variable get_historical_data : list string -> Z -> list (string * option MarketChart).

Definition get_price_momentum (crypto_id : string) (days : Z) : Q :=
  let historical_data := get_historical_data [crypto_id] days in
  match Py.dict_get historical_data crypto_id with
  | None => 0
  | Some None => 0
  | Some (Some data) =>
      match prices data with
      | None => 0
      | Some prices =>
          if (List.length prices <? 2)%nat then 0
          else
            let start_price := snd (hd (0%Z, 0) prices) in
            let end_price := snd (last prices (0%Z, 0)) in
            if Qeq_bool start_price 0 then 0
            else
              let momentum := ((end_price - start_price) / start_price) * 100 in
              momentum
      end
  end.

End Momentum.

(** *** The indicators as the specification words them *)

(** Consecutive pairs [(p[i-1], p[i])] of a series. *)
Fixpoint adjacent_pairs {A : Type} (l : list A) : list (A * A) :=
  match l with
  | [] => []
  | a :: t =>
      match t with
      | [] => []
      | b :: _ => (a, b) :: adjacent_pairs t
      end
  end.

(** Per-step price deltas. *)
Definition deltas (price_values : list Q) : list Q :=
  map (fun p => snd p - fst p) (adjacent_pairs price_values).

(** A gain is a positive delta; a loss is the absolute value of a negative
    delta; each is 0 otherwise. *)
Definition gain (d : Q) : Q := if Qgt_b d 0 then d else 0.
Definition loss (d : Q) : Q := if Qgt_b 0 d then Qabs d else 0.

(** What the loop of [calculate_rsi] appends to [losses] for a delta. *)
Definition appended_loss (change : Q) : Q := if Qgt_b change 0 then 0 else Qabs change.

(** A series none of whose prices exceeds its predecessor. *)
Definition non_increasing (price_values : list Q) : Prop :=
  Forall (fun p => snd p <= fst p) (adjacent_pairs price_values).

(** Period-over-period returns, skipping a step whose previous price is 0. *)
Definition returns_spec (price_values : list Q) : list Q :=
  flat_map (fun p => if Qne_b (fst p) 0 then [(snd p - fst p) / fst p] else [])
           (adjacent_pairs price_values).

(** The population standard deviation of a list, through its variance
    [sum((x - mean) ** 2) / N]. *)
Definition population_variance (l : list Q) : Q :=
  Py.sum (map (fun x => (x - mean_of l) ^ 2) l) / inject_Z (Z.of_nat (List.length l)).

Definition population_std (l : list Q) : R := sqrt (Q2R (population_variance l)).

(** *** Sample series *)

(** Fifteen daily points at one price. *)
Definition flat_series : list PricePoint :=
  map (fun day => (Z.of_nat day, 100)) (seq 0 15).

(** Fifteen daily points falling from 15 to 1. *)
Definition falling_series : list PricePoint :=
  map (fun day => (Z.of_nat day, inject_Z (15 - Z.of_nat day))) (seq 0 15).

(** Fifteen daily points rising from 1 to 15. *)
Definition rising_series : list PricePoint :=
  map (fun day => (Z.of_nat day, inject_Z (1 + Z.of_nat day))) (seq 0 15).

End CryptoAnalyzer.

(** ** Rules engine ([rules_engine.py]) *)

Module RulesEngine.

(** The three keys of [risk_profiles]. *)
Inductive RiskTier := Conservative | Moderate | Aggressive.

Definition RiskTier_eqb (a b : RiskTier) : bool :=
  match a, b with
  | Conservative, Conservative | Moderate, Moderate | Aggressive, Aggressive => true
  | _, _ => false
  end.

(** *** Position sizing *)

Definition base_allocation (risk_tolerance : RiskTier) : Q :=
  match risk_tolerance with
  | Conservative => 5
  | Moderate => 10
  | Aggressive => 20
  end.

Definition max_allocation (risk_tolerance : RiskTier) : Q :=
  match risk_tolerance with
  | Conservative => 10
  | Moderate => 20
  | Aggressive => 30
  end.

Definition Qgt_b := CryptoAnalyzer.Qgt_b.
(** [x < y] and [x >= y] on rationals, as booleans. *)
Definition Qlt_b (x y : Q) : bool := negb (Qle_bool y x).
Definition Qge_b (x y : Q) : bool := Qle_bool y x.

Definition _calculate_position_size
    (volatility : Q) (market_cap_rank : Z) (sustainability_score : Q)
    (risk_tolerance : RiskTier) : Q :=
  let allocation := base_allocation risk_tolerance in
  (* Adjust for volatility *)
  let allocation :=
    if Qgt_b volatility 40 then allocation * (5 # 10)
    else if Qgt_b volatility 25 then allocation * (7 # 10)
    else if Qlt_b volatility 15 then allocation * (12 # 10)
    else allocation in
  (* Adjust for market cap rank *)
  let allocation :=
    if (market_cap_rank <=? 5)%Z then allocation * (13 # 10)
    else if (market_cap_rank <=? 20)%Z then allocation * (11 # 10)
    else if (market_cap_rank >? 50)%Z then allocation * (7 # 10)
    else allocation in
  (* Adjust for sustainability *)
  let allocation :=
    if Qge_b sustainability_score 80 then allocation * (11 # 10)
    else if Qlt_b sustainability_score 40 then allocation * (9 # 10)
    else allocation in
  (* Cap the allocation *)
  Qmin allocation (max_allocation risk_tolerance).

(** Position sizing as the specification words it: three factors and a cap. *)
Definition volatility_factor (volatility : Q) : Q :=
  if Qgt_b volatility 40 then 5 # 10
  else if Qgt_b volatility 25 then 7 # 10
  else if Qlt_b volatility 15 then 12 # 10
  else 1.

Definition rank_factor (market_cap_rank : Z) : Q :=
  if (market_cap_rank <=? 5)%Z then 13 # 10
  else if (market_cap_rank <=? 20)%Z then 11 # 10
  else if (market_cap_rank >? 50)%Z then 7 # 10
  else 1.

Definition sustainability_factor (sustainability_score : Q) : Q :=
  if Qge_b sustainability_score 80 then 11 # 10
  else if Qlt_b sustainability_score 40 then 9 # 10
  else 1.

Definition position_size_spec
    (volatility : Q) (market_cap_rank : Z) (sustainability_score : Q)
    (risk_tolerance : RiskTier) : Q :=
  Qmin (base_allocation risk_tolerance * volatility_factor volatility
        * rank_factor market_cap_rank * sustainability_factor sustainability_score)
       (max_allocation risk_tolerance).

(** *** Portfolio recommendation *)

(** One record of [get_top_cryptocurrencies]; [symbol] is [None] when the
    key is absent. *)
Record MarketRecord := {
  symbol : option string;
  price_change_percentage_24h : Q;
  market_cap_rank : Z
}.

(** One entry of the returned portfolio; the ['symbol'] key that the growth
    and speculative entries also carry is never read. *)
Record Holding := {
  name : string;
  allocation : Z;
  reasoning : string
}.

Definition with_allocation (crypto : Holding) (a : Z) : Holding :=
  {| name := name crypto; allocation := a; reasoning := reasoning crypto |}.

(** [crypto.get('symbol', '').lower() == sym]. *)
Definition has_symbol (sym : string) (crypto : MarketRecord) : bool :=
  String.eqb (Py.lower (match symbol crypto with Some s => s | None => EmptyString end)) sym.

Definition growth_cryptos : list Holding :=
  [ {| name := "Cardano (ADA)"; allocation := 10;
       reasoning := "Sustainable PoS blockchain with academic approach" |};
    {| name := "Polkadot (DOT)"; allocation := 8;
       reasoning := "Interoperability-focused with parachain technology" |};
    {| name := "Solana (SOL)"; allocation := 7;
       reasoning := "High-performance blockchain for DeFi and NFTs" |} ]%string.

Definition speculative_cryptos : list Holding :=
  [ {| name := "Chainlink (LINK)"; allocation := 5;
       reasoning := "Leading oracle network for smart contracts" |};
    {| name := "Polygon (MATIC)"; allocation := 5;
       reasoning := "Ethereum scaling solution with growing adoption" |} ]%string.

Definition max_crypto_allocation (risk_tolerance : RiskTier) : Z :=
  match risk_tolerance with
  | Conservative => 70
  | Moderate => 80
  | Aggressive => 90
  end.

(** The list [portfolio] as it stands when the cap check is reached. *)
Definition assemble_portfolio (risk_tolerance : RiskTier) (top_cryptos : list MarketRecord)
  : list Holding :=
  let portfolio := [] in
  (* Core holdings *)
  let portfolio :=
    if RiskTier_eqb risk_tolerance Conservative || RiskTier_eqb risk_tolerance Moderate then
      let portfolio :=
        match find (has_symbol "btc") top_cryptos with
        | Some _ =>
            let btc_allocation :=
              if RiskTier_eqb risk_tolerance Conservative then 40%Z else 30%Z in
            portfolio ++
              [ {| name := "Bitcoin (BTC)"; allocation := btc_allocation;
                   reasoning := "Digital gold, most established cryptocurrency with institutional adoption" |} ]
        | None => portfolio
        end in
      match find (has_symbol "eth") top_cryptos with
      | Some _ =>
          let eth_allocation :=
            if RiskTier_eqb risk_tolerance Conservative then 30%Z else 25%Z in
          portfolio ++
            [ {| name := "Ethereum (ETH)"; allocation := eth_allocation;
                 reasoning := "Leading smart contract platform with strong developer ecosystem" |} ]
      | None => portfolio
      end
    else portfolio in
  (* Growth holdings *)
  let portfolio :=
    if negb (RiskTier_eqb risk_tolerance Conservative) then
      fold_left
        (fun portfolio growth_crypto =>
           if RiskTier_eqb risk_tolerance Aggressive || (allocation growth_crypto <=? 10)%Z
           then portfolio ++ [growth_crypto] else portfolio)
        growth_cryptos portfolio
    else portfolio in
  (* Speculative holdings *)
  if RiskTier_eqb risk_tolerance Aggressive then
    fold_left (fun portfolio spec_crypto => portfolio ++ [spec_crypto])
              speculative_cryptos portfolio
  else portfolio.

(** [sum(crypto['allocation'] for crypto in portfolio)]. *)
Definition total_of (portfolio : list Holding) : Z :=
  fold_left Z.add (map allocation portfolio) 0%Z.

(** [max_crypto_allocation[risk_tolerance] / total_allocation]: the true
    division of two ints, which for ints below 2^53 (as all percentages
    are) is the binary64 quotient of their conversions. *)
Definition scale_factor_of (risk_tolerance : RiskTier) (total_allocation : Z)
  : PrimFloat.float :=
  PrimFloat.div (Binary64.of_int (max_crypto_allocation risk_tolerance))
                (Binary64.of_int total_allocation).

(** [round(crypto['allocation'] * scale_factor)]: the int is converted to
    binary64 for the product, and the float product is rounded. *)
Definition scaled_allocation (scale_factor : PrimFloat.float) (crypto : Holding)
  : option Z :=
  Binary64.round (PrimFloat.mul (Binary64.of_int (allocation crypto)) scale_factor).

(** The loop [for crypto in portfolio: crypto['allocation'] = round(...)];
    [None] when a [round] raises. *)
Fixpoint scale_entries (scale_factor : PrimFloat.float) (portfolio : list Holding)
  : option (list Holding) :=
  match portfolio with
  | [] => Some []
  | crypto :: rest =>
      match scaled_allocation scale_factor crypto with
      | None => None
      | Some a =>
          match scale_entries scale_factor rest with
          | None => None
          | Some scaled => Some (with_allocation crypto a :: scaled)
          end
      end
  end.

(** The cap check and the proportional scaling that ends the function; an
    exception raised by the scaling is caught by the function's
    [except Exception: return []]. *)
Definition cap_portfolio (risk_tolerance : RiskTier) (portfolio : list Holding)
  : list Holding :=
  let total_allocation := total_of portfolio in
  if (total_allocation >? max_crypto_allocation risk_tolerance)%Z then
    let scale_factor := scale_factor_of risk_tolerance total_allocation in
    match scale_entries scale_factor portfolio with
    | Some scaled => scaled
    | None => []
    end
  else portfolio.

(** The share that the specification words: the original allocation times
    cap/total, as an exact number. *)
Definition exact_share (tier : RiskTier) (total : Z) (crypto : Holding) : Q :=
  inject_Z (allocation crypto) * (inject_Z (max_crypto_allocation tier) / inject_Z total).

(** [after] is [before] with every allocation replaced by the code's
    [round(allocation * (cap / total))], an integer nearest to the exact
    share, and with names, reasons and order kept. *)
Definition scaled_from (tier : RiskTier) (before after : list Holding) : Prop :=
  map name after = map name before /\
  map reasoning after = map reasoning before /\
  Forall2 (fun old new =>
             scaled_allocation (scale_factor_of tier (total_of before)) old
             = Some (allocation new) /\
             Qabs (inject_Z (allocation new) - exact_share tier (total_of before) old)
             <= 1 # 2)
          before after.

(** The check behind the nearest-integer property, for one cap, total and
    allocation. *)
Definition scaling_is_nearest (cap total a : Z) : bool :=
  match Binary64.round (PrimFloat.mul (Binary64.of_int a)
                          (PrimFloat.div (Binary64.of_int cap) (Binary64.of_int total))) with
  | Some z => Qle_bool (Qabs (inject_Z z - inject_Z a * (inject_Z cap / inject_Z total))) (1 # 2)
  | None => false
  end.

(** The integers [lo], [lo + 1], ..., [lo + n - 1]. *)
Definition Z_range (lo : Z) (n : nat) : list Z := map (fun k => (lo + Z.of_nat k)%Z) (seq 0 n).

Section Portfolio.

(** [analyzer.get_top_cryptocurrencies(limit)]; an empty list stands for
    "no data". *)
Variable get_top_cryptocurrencies : Z -> list MarketRecord.

Definition generate_portfolio_recommendation
    (portfolio_size : Q) (risk_tolerance : RiskTier) (time_horizon : string)
  : list Holding :=
  let top_cryptos := get_top_cryptocurrencies 20 in
  match top_cryptos with
  | [] => []
  | _ => cap_portfolio risk_tolerance (assemble_portfolio risk_tolerance top_cryptos)
  end.

End Portfolio.

(** *** Query routing *)

Definition nl : string := String (ascii_of_nat 10) EmptyString.

Definition crypto_mappings : list (string * string) :=
  [ ("bitcoin", "bitcoin"); ("btc", "bitcoin");
    ("ethereum", "ethereum"); ("eth", "ethereum");
    ("cardano", "cardano"); ("ada", "cardano");
    ("polkadot", "polkadot"); ("dot", "polkadot");
    ("solana", "solana"); ("sol", "solana");
    ("chainlink", "chainlink"); ("link", "chainlink");
    ("litecoin", "litecoin"); ("ltc", "litecoin");
    ("dogecoin", "dogecoin"); ("doge", "dogecoin");
    ("polygon", "matic-network"); ("matic", "matic-network");
    ("avalanche", "avalanche-2"); ("avax", "avalanche-2") ]%string.

(** The aliases of [crypto_mappings] that occur in the lower-cased query, in
    the order of the table: the list [found_cryptos] before [list(set(...))]. *)
Definition found_cryptos (query : string) : list string :=
  let query_lower := Py.lower query in
  map fst (filter (fun entry => Py.contains (fst entry) query_lower) crypto_mappings).

Definition _get_crypto_id (crypto_name : string) : option string :=
  Py.dict_get crypto_mappings (Py.lower crypto_name).

Definition comparison_keywords : list string := [ "compare"; "vs"; "versus"; "between" ]%string.
Definition investment_keywords : list string := [ "should i invest"; "buy"; "recommend" ]%string.
Definition portfolio_keywords : list string := [ "portfolio"; "allocation"; "diversify" ]%string.
Definition sustainability_keywords : list string :=
  [ "sustainability"; "environment"; "green"; "energy" ]%string.
Definition price_keywords : list string := [ "price"; "trend"; "analysis"; "technical" ]%string.

Definition msg_two_to_compare : string :=
  "Please specify at least two cryptocurrencies to compare. For example: 'Compare Bitcoin vs Ethereum'".

Definition msg_specify_which : string :=
  "Please specify which cryptocurrency you're asking about. For example: 'Should I invest in Bitcoin?'".

(** The "couldn't find" message of the investment handler. *)
Definition msg_couldnt_find (crypto_name : string) : string :=
  "I couldn't find information about " ++ crypto_name ++
  ". Please check the spelling or try a different cryptocurrency.".

Definition comparison_heading : string := "## 🔍 Cryptocurrency Comparison" ++ nl ++ nl.

Definition investment_heading (crypto_name : string) : string :=
  "## 💰 Investment Analysis for " ++ Py.title crypto_name ++ nl ++ nl.

Section Router.

(** [list(set(l))]: the distinct elements of [l] in an order that the
    language does not fix. *)
Variable list_of_set : list string -> list string.

(** The parts of the engine that query the market-data provider and
    render text; the router only passes their results on. *)
Variable _analyze_single_crypto : string -> RiskTier -> string.
Variable _generate_comparison_summary : list string -> RiskTier -> string.
Variable _get_investment_recommendation : string -> Q -> RiskTier -> string -> string.
Variable _handle_portfolio_query : Q -> RiskTier -> string -> string.
Variable _handle_sustainability_query : string -> string.
Variable _handle_price_analysis_query : string -> string.
Variable _handle_general_query : string -> RiskTier -> string.

Definition _extract_crypto_names (query : string) : list string :=
  list_of_set (found_cryptos query).

Definition _handle_comparison_query (query : string) (risk_tolerance : RiskTier) : string :=
  let crypto_names := _extract_crypto_names query in
  if (List.length crypto_names <? 2)%nat then msg_two_to_compare
  else
    let comparison_result :=
      fold_left
        (fun comparison_result crypto_name =>
           match _get_crypto_id crypto_name with
           | Some crypto_id =>
               let analysis := _analyze_single_crypto crypto_id risk_tolerance in
               (comparison_result ++ "### " ++ Py.title crypto_name ++ nl ++ analysis
                  ++ nl ++ nl)%string
           | None => comparison_result
           end)
        (firstn 3 crypto_names) comparison_heading in
    (comparison_result ++ _generate_comparison_summary crypto_names risk_tolerance)%string.

Definition _handle_investment_query
    (query : string) (portfolio_size : Q) (risk_tolerance : RiskTier) (time_horizon : string)
  : string :=
  let crypto_names := _extract_crypto_names query in
  match crypto_names with
  | [] => msg_specify_which
  | crypto_name :: _ =>
      match _get_crypto_id crypto_name with
      | None => msg_couldnt_find crypto_name
      | Some crypto_id =>
          let analysis :=
            _get_investment_recommendation crypto_id portfolio_size risk_tolerance time_horizon in
          (investment_heading crypto_name ++ analysis)%string
      end
  end.

Definition process_query
    (query : string) (portfolio_size : Q) (risk_tolerance : RiskTier) (time_horizon : string)
  : string :=
  let query_lower := Py.lower query in
  if Py.any_in comparison_keywords query_lower then
    _handle_comparison_query query risk_tolerance
  else if Py.any_in investment_keywords query_lower then
    _handle_investment_query query portfolio_size risk_tolerance time_horizon
  else if Py.any_in portfolio_keywords query_lower then
    _handle_portfolio_query portfolio_size risk_tolerance time_horizon
  else if Py.any_in sustainability_keywords query_lower then
    _handle_sustainability_query query
  else if Py.any_in price_keywords query_lower then
    _handle_price_analysis_query query
  else
    _handle_general_query query risk_tolerance.

(** *** The router as the specification words it *)

Inductive Intent :=
| Comparison | Investment | PortfolioRequest | Sustainability | PriceTechnical | General.

(** The keyword sets in their fixed priority order. *)
Definition intent_rules : list (list string * Intent) :=
  [ (comparison_keywords, Comparison);
    (investment_keywords, Investment);
    (portfolio_keywords, PortfolioRequest);
    (sustainability_keywords, Sustainability);
    (price_keywords, PriceTechnical) ].

(** A single first-match scan over [intent_rules], else [General]. *)
Definition classify (query : string) : Intent :=
  match find (fun rule => Py.any_in (fst rule) (Py.lower query)) intent_rules with
  | Some rule => snd rule
  | None => General
  end.

Definition handler_of
    (intent : Intent) (query : string) (portfolio_size : Q) (risk_tolerance : RiskTier)
    (time_horizon : string) : string :=
  match intent with
  | Comparison => _handle_comparison_query query risk_tolerance
  | Investment => _handle_investment_query query portfolio_size risk_tolerance time_horizon
  | PortfolioRequest => _handle_portfolio_query portfolio_size risk_tolerance time_horizon
  | Sustainability => _handle_sustainability_query query
  | PriceTechnical => _handle_price_analysis_query query
  | General => _handle_general_query query risk_tolerance
  end.

End Router.

End RulesEngine.

(** ** Position sizing on binary64 ([rules_engine.py], [_calculate_position_size]) *)

Module RulesEngine64.

Import PrimFloat.
Import RulesEngine.

Local Set Warnings "-inexact-float".

(** A Python number: the allocation is an [int] until a float literal
    multiplies it. *)
Inductive Number :=
| Int (n : Z)
| Float (x : float).

Definition base_allocation (risk_tolerance : RiskTier) : Z :=
  match risk_tolerance with
  | Conservative => 5
  | Moderate => 10
  | Aggressive => 20
  end.

Definition max_allocation (risk_tolerance : RiskTier) : Z :=
  match risk_tolerance with
  | Conservative => 10
  | Moderate => 20
  | Aggressive => 30
  end.

(** [allocation *= k] for a float literal [k]. *)
Definition times (allocation : Number) (k : float) : Number :=
  match allocation with
  | Int n => Float (Binary64.of_int n * k)%float
  | Float x => Float (x * k)%float
  end.

(** [min(allocation, cap)] for an int [cap]: the first argument unless the
    second is smaller. *)
Definition min_with (allocation : Number) (cap : Z) : Number :=
  match allocation with
  | Int n => if (cap <? n)%Z then Int cap else Int n
  | Float x => if (Binary64.of_int cap <? x)%float then Int cap else Float x
  end.

Definition _calculate_position_size
    (volatility : float) (market_cap_rank : Z) (sustainability_score : float)
    (risk_tolerance : RiskTier) : Number :=
  let allocation := Int (base_allocation risk_tolerance) in
  (* Adjust for volatility *)
  let allocation :=
    if (40 <? volatility)%float then times allocation 0.5
    else if (25 <? volatility)%float then times allocation 0.7
    else if (volatility <? 15)%float then times allocation 1.2
    else allocation in
  (* Adjust for market cap rank *)
  let allocation :=
    if (market_cap_rank <=? 5)%Z then times allocation 1.3
    else if (market_cap_rank <=? 20)%Z then times allocation 1.1
    else if (market_cap_rank >? 50)%Z then times allocation 0.7
    else allocation in
  (* Adjust for sustainability *)
  let allocation :=
    if (80 <=? sustainability_score)%float then times allocation 1.1
    else if (sustainability_score <? 40)%float then times allocation 0.9
    else allocation in
  (* Cap the allocation *)
  min_with allocation (max_allocation risk_tolerance).

(** The three factors as the specification words them; [None] is the
    factor 1.0, for which the code does not multiply. *)
Definition volatility_factor (volatility : float) : option float :=
  if (40 <? volatility)%float then Some 0.5%float
  else if (25 <? volatility)%float then Some 0.7%float
  else if (volatility <? 15)%float then Some 1.2%float
  else None.

Definition rank_factor (market_cap_rank : Z) : option float :=
  if (market_cap_rank <=? 5)%Z then Some 1.3%float
  else if (market_cap_rank <=? 20)%Z then Some 1.1%float
  else if (market_cap_rank >? 50)%Z then Some 0.7%float
  else None.

Definition sustainability_factor (sustainability_score : float) : option float :=
  if (80 <=? sustainability_score)%float then Some 1.1%float
  else if (sustainability_score <? 40)%float then Some 0.9%float
  else None.

Definition scaled_by (factor : option float) (allocation : Number) : Number :=
  match factor with
  | Some k => times allocation k
  | None => allocation
  end.

(** The result at Conservative, volatility 10, rank 3, sustainability 85,
    which Python prints as 8.580000000000002, and the float that the
    literal 8.58 denotes. *)
Definition example_result : float := 0x1.128f5c28f5c2ap+3%float.
Definition literal_8_58 : float := 8.58%float.

End RulesEngine64.

(** ** Recommendation label ([rules_engine.py], [get_crypto_recommendation]) *)

Module Recommendation.

(** One numeric entry of a JSON object as the engine reads it: the key may
    be absent, or present with [null], or present with a number. *)
Inductive Field (A : Type) :=
| Missing
| Null
| Value (a : A).

Arguments Missing {A}.
Arguments Null {A}.
Arguments Value {A} a.

(** [d.get(key, default)]: the default for an absent key, Python's [None]
    (here [None]) for a null. *)
Definition get_field {A : Type} (f : Field A) (default : A) : option A :=
  match f with
  | Missing => Some default
  | Null => None
  | Value a => Some a
  end.

(** The two entries of [crypto_data] that the function reads. *)
Record CryptoData := {
  price_change_percentage_24h : Field Q;
  market_cap_rank : Field Z
}.

Definition label_strong_buy : string := "🟢 STRONG BUY - Top crypto with positive momentum".
Definition label_buy_top : string := "🟢 BUY - Stable top crypto showing growth".
Definition label_hold_top : string := "🟡 HOLD - Top crypto with minor decline".
Definition label_caution : string := "🟠 CAUTION - Top crypto showing weakness".
Definition label_buy_mid : string := "🟢 BUY - Strong momentum in established crypto".
Definition label_consider : string := "🟡 CONSIDER - Positive movement in mid-cap crypto".
Definition label_hold_mid : string := "🟠 HOLD - Established crypto under pressure".
Definition label_speculative : string := "🟡 SPECULATIVE BUY - High risk, high reward potential".
Definition label_avoid : string := "🔴 AVOID - High risk with limited upside".
Definition label_neutral : string := "🟡 NEUTRAL - Unable to determine recommendation".

(** The labels that advise buying. *)
Definition buy_labels : list string :=
  [ label_strong_buy; label_buy_top; label_buy_mid; label_consider; label_speculative ].

(** The body of the [try]: [None] where a comparison with Python's [None]
    raises [TypeError]. *)
Definition recommendation_of (crypto_data : CryptoData) : option string :=
  let price_change_24h := get_field (price_change_percentage_24h crypto_data) 0 in
  let market_cap_rank := get_field (market_cap_rank crypto_data) 100%Z in
  match market_cap_rank with
  | None => None
  | Some market_cap_rank =>
      if (market_cap_rank <=? 10)%Z then
        match price_change_24h with
        | None => None
        | Some price_change_24h =>
            if CryptoAnalyzer.Qgt_b price_change_24h 5 then Some label_strong_buy
            else if CryptoAnalyzer.Qgt_b price_change_24h 0 then Some label_buy_top
            else if CryptoAnalyzer.Qgt_b price_change_24h (- (5)) then Some label_hold_top
            else Some label_caution
        end
      else if (market_cap_rank <=? 25)%Z then
        match price_change_24h with
        | None => None
        | Some price_change_24h =>
            if CryptoAnalyzer.Qgt_b price_change_24h 10 then Some label_buy_mid
            else if CryptoAnalyzer.Qgt_b price_change_24h 0 then Some label_consider
            else Some label_hold_mid
        end
      else
        match price_change_24h with
        | None => None
        | Some price_change_24h =>
            if CryptoAnalyzer.Qgt_b price_change_24h 15 then Some label_speculative
            else Some label_avoid
        end
  end.

(** [except Exception: return "... NEUTRAL ..."]. *)
Definition get_crypto_recommendation
    (crypto_data : CryptoData) (risk_tolerance : RulesEngine.RiskTier) : string :=
  match recommendation_of crypto_data with
  | Some label => label
  | None => label_neutral
  end.

End Recommendation.

(** ** Scorer views ([sustainability_scorer.py]) *)

From Stdlib Require Import Sorted.

Module ScorerViews.

Import SustainabilityScorer.

(** [s.replace('_', ' ')]. *)
Fixpoint replace_underscores (s : string) : string :=
  match s with
  | EmptyString => EmptyString
  | String c rest =>
      String (if Ascii.eqb c "_" then " "%char else c) (replace_underscores rest)
  end.

(** [', '.join(l)]. *)
Fixpoint join_comma (l : list string) : string :=
  match l with
  | [] => EmptyString
  | x :: rest =>
      match rest with
      | [] => x
      | _ :: _ => (x ++ ", " ++ join_comma rest)%string
      end
  end.

Definition name_mappings : list (string * string) :=
  [ ("bitcoin", "Bitcoin"); ("ethereum", "Ethereum"); ("cardano", "Cardano");
    ("polkadot", "Polkadot"); ("solana", "Solana"); ("chainlink", "Chainlink");
    ("litecoin", "Litecoin"); ("dogecoin", "Dogecoin"); ("algorand", "Algorand");
    ("matic-network", "Polygon") ]%string.

Definition _get_crypto_display_name (crypto_id : string) : string :=
  Py.dict_get_or name_mappings (Py.lower crypto_id) (Py.title crypto_id).

Definition standard_features : string := "Standard cryptocurrency features".

Definition _get_key_features (profile : Profile) : string :=
  let features := [] in
  let features :=
    if negb (String.eqb (consensus profile) "unknown")
    then features ++ [ (Py.title (replace_underscores (consensus profile)) ++ " consensus")%string ]
    else features in
  let features :=
    if Py.str_in_list (energy_intensity profile) [ "very_low"; "low" ]%string
    then features ++ [ "Energy efficient"%string ] else features in
  let features :=
    if carbon_neutral_goal profile
    then features ++ [ "Carbon neutral goal"%string ] else features in
  let features :=
    if Py.str_in_list (renewable_energy_usage profile) [ "high"; "very_high" ]%string
    then features ++ [ "High renewable energy usage"%string ] else features in
  let features :=
    if Py.str_in_list (environmental_initiatives profile) [ "strong"; "very_strong" ]%string
    then features ++ [ "Strong environmental initiatives"%string ] else features in
  let features :=
    if String.eqb (governance_model profile) "democratic"
    then features ++ [ "Democratic governance"%string ] else features in
  match features with
  | [] => standard_features
  | _ :: _ => join_comma features
  end.

(** The textual entries ['name'], ['key_features'] and
    ['consensus_mechanism'] of the dict that
    [calculate_sustainability_score] returns. *)
Record ScoreText := {
  name : string;
  key_features : string;
  consensus_mechanism : string
}.

Definition score_text (id : string) : ScoreText :=
  let profile := Py.dict_get_or crypto_profiles (Py.lower id) _get_default_profile in
  {| name := _get_crypto_display_name id;
     key_features := _get_key_features profile;
     consensus_mechanism := Py.title (replace_underscores (consensus profile)) |}.

(** [l.sort(key=..., reverse=True)] and [sorted(l, key=..., reverse=True)]:
    descending by key, entries with equal keys keeping their order. *)
Fixpoint insert_desc {A : Type} (key : A -> Q) (x : A) (l : list A) : list A :=
  match l with
  | [] => [x]
  | y :: rest =>
      if CryptoAnalyzer.Qgt_b (key y) (key x) then y :: insert_desc key x rest
      else x :: y :: rest
  end.

Definition sort_desc {A : Type} (key : A -> Q) (l : list A) : list A :=
  fold_right (insert_desc key) [] l.

Definition compare_sustainability_scores (crypto_ids : list string) : list Score :=
  let comparisons := map calculate_sustainability_score crypto_ids in
  sort_desc total_score comparisons.

Definition conservative_filter (crypto : Score) : bool :=
  Qle_bool 70 (total_score crypto) &&
  Py.str_in_list (crypto_id crypto) [ "bitcoin"; "ethereum"; "cardano" ]%string.

Definition moderate_filter (crypto : Score) : bool := Qle_bool 60 (total_score crypto).

Definition get_sustainability_recommendations (risk_tolerance : string) : list Score :=
  let all_cryptos := map fst crypto_profiles in
  let scored_cryptos :=
    sort_desc total_score (map calculate_sustainability_score all_cryptos) in
  let recommendations :=
    if String.eqb risk_tolerance "Conservative" then filter conservative_filter scored_cryptos
    else if String.eqb risk_tolerance "Moderate" then filter moderate_filter scored_cryptos
    else scored_cryptos in
  firstn 8 recommendations.

(** Descending order of the totals. *)
Definition descending (l : list Score) : Prop :=
  StronglySorted (fun a b => total_score b <= total_score a) l.

End ScorerViews.

(** ** Price-analysis handler ([rules_engine.py], [_handle_price_analysis_query]) *)

Module PriceQuery.

Import RulesEngine.

Definition msg_specify_analyze : string :=
  "Please specify which cryptocurrency you'd like me to analyze. For example: 'Analyze Bitcoin price trends'".

Definition msg_no_price_data (crypto_name : string) : string :=
  "I couldn't find price data for " ++ crypto_name ++ ". Please check the spelling.".

Definition technical_heading (crypto_name : string) : string :=
  "## 📈 Technical Analysis for " ++ Py.title crypto_name ++ nl ++ nl.

Section Handler.

Variable list_of_set : list string -> list string.

(** The part that queries the market-data provider and renders the
    indicators. *)
Variable _get_technical_analysis : string -> string.

(** [if not crypto_id]: true for [None] and for the empty string. *)
Definition _handle_price_analysis_query (query : string) : string :=
  let crypto_names := _extract_crypto_names list_of_set query in
  match crypto_names with
  | [] => msg_specify_analyze
  | crypto_name :: _ =>
      match _get_crypto_id crypto_name with
      | None => msg_no_price_data crypto_name
      | Some crypto_id =>
          if String.eqb crypto_id EmptyString then msg_no_price_data crypto_name
          else
            let analysis := _get_technical_analysis crypto_id in
            (technical_heading crypto_name ++ analysis)%string
      end
  end.

End Handler.

End PriceQuery.

(** ** Caches ([data_fetcher.py], [crypto_analyzer.py]) *)

From Stdlib Require Import DecimalString.

Module PyDict.

(** [d[key] = v] on a dict written as an association list: an existing key
    keeps its place, a new key goes last. *)
Fixpoint dict_set {V : Type} (d : list (string * V)) (key : string) (v : V)
  : list (string * V) :=
  match d with
  | [] => [(key, v)]
  | (k, w) :: rest =>
      if String.eqb k key then (k, v) :: rest else (k, w) :: dict_set rest key v
  end.

(** [key in d]. *)
Definition dict_mem {V : Type} (d : list (string * V)) (key : string) : bool :=
  match Py.dict_get d key with
  | Some _ => true
  | None => false
  end.

(** [str(n)] for an [int]. *)
Definition str_of_int (n : Z) : string := NilZero.string_of_int (Z.to_int n).

End PyDict.

(** *** The fetcher's cache and rate limit.  A reading of [time.time()] is
    an argument of the function that takes it. *)

Module DataFetcher.

Import PyDict.

Section Fetcher.

(** A decoded JSON body other than [null]; a cached value is [None] for
    Python's [None]. *)
Variable Json : Type.

Record State := {
  cache : list (string * option Json);
  cache_expiry : list (string * Q);
  last_request_time : Q
}.

Definition min_request_interval : Q := 1.
Definition default_cache_duration : Q := 300.

Definition init : State :=
  {| cache := []; cache_expiry := []; last_request_time := 0 |}.

(** The argument of [time.sleep], if it is called. *)
Definition sleep_time (self : State) (current_time : Q) : option Q :=
  let time_since_last := current_time - last_request_time self in
  if RulesEngine.Qlt_b time_since_last min_request_interval
  then Some (min_request_interval - time_since_last)
  else None.

(** [current_time] is the reading before the sleep and [resumed] the one
    after it; the result is the sleep asked for and the new state. *)
Definition _respect_rate_limit (self : State) (current_time resumed : Q)
  : option Q * State :=
  (sleep_time self current_time,
   {| cache := cache self; cache_expiry := cache_expiry self;
      last_request_time := resumed |}).

Definition _is_cache_valid (self : State) (cache_key : string) (now : Q) : bool :=
  if negb (dict_mem (cache self) cache_key) then false
  else
    match Py.dict_get (cache_expiry self) cache_key with
    | None => false
    | Some expiry => RulesEngine.Qlt_b now expiry
    end.

Definition _get_from_cache (self : State) (cache_key : string) (now : Q) : option Json :=
  if _is_cache_valid self cache_key now then
    match Py.dict_get (cache self) cache_key with
    | Some data => data
    | None => None
    end
  else None.

Definition _store_in_cache
    (self : State) (cache_key : string) (data : option Json) (cache_duration : option Q)
    (now : Q) : State :=
  let cache_duration :=
    match cache_duration with
    | None => default_cache_duration
    | Some d => d
    end in
  {| cache := dict_set (cache self) cache_key data;
     cache_expiry := dict_set (cache_expiry self) cache_key (now + cache_duration);
     last_request_time := last_request_time self |}.

(** What the HTTP exchange comes to: a decoded body, or one of the
    failures (status 429, an error status, a timeout, a connection or
    decoding error) after which [None] is returned. *)
Inductive Response :=
| Body (data : option Json)
| Failure.

(** The readings of [time.time()] that one [_make_request] can take: in the
    cache lookup, before and after the rate-limit sleep, and when storing. *)
Record Readings := {
  at_lookup : Q;
  at_limit : Q;
  at_resume : Q;
  at_store : Q
}.

(** [if cache_key]: neither [None] nor the empty string. *)
Definition usable_key (cache_key : option string) : option string :=
  match cache_key with
  | Some key => if String.eqb key EmptyString then None else Some key
  | None => None
  end.

Definition _make_request
    (self : State) (cache_key : option string) (cache_duration : option Q)
    (clock : Readings) (response : Response) : option Json * State :=
  let cached_data :=
    match usable_key cache_key with
    | Some key => _get_from_cache self key (at_lookup clock)
    | None => None
    end in
  match cached_data with
  | Some data => (Some data, self)
  | None =>
      let self := snd (_respect_rate_limit self (at_limit clock) (at_resume clock)) in
      match response with
      | Failure => (None, self)
      | Body data =>
          let self :=
            match usable_key cache_key with
            | Some key => _store_in_cache self key data cache_duration (at_store clock)
            | None => self
            end in
          (data, self)
      end
  end.

Definition clear_cache (self : State) : State :=
  {| cache := []; cache_expiry := []; last_request_time := last_request_time self |}.

Record CacheStats := {
  total_items : Z;
  valid_items : Z;
  expired_items : Z
}.

(** [sum(1 for key in self.cache if self._is_cache_valid(key))], the check
    of the [i]-th key reading the time [clock i]. *)
Fixpoint count_valid (self : State) (clock : nat -> Q) (i : nat) (keys : list string) : Z :=
  match keys with
  | [] => 0%Z
  | key :: rest =>
      ((if _is_cache_valid self key (clock i) then 1 else 0)
       + count_valid self clock (S i) rest)%Z
  end.

Definition get_cache_stats (self : State) (clock : nat -> Q) : CacheStats :=
  let total_items := Z.of_nat (List.length (cache self)) in
  let valid_items := count_valid self clock 0 (map fst (cache self)) in
  let expired_items := (total_items - valid_items)%Z in
  {| total_items := total_items; valid_items := valid_items;
     expired_items := expired_items |}.

End Fetcher.

Arguments cache {Json} _.
Arguments cache_expiry {Json} _.
Arguments last_request_time {Json} _.
Arguments init {Json}.
Arguments sleep_time {Json} _ _.
Arguments _respect_rate_limit {Json} _ _ _.
Arguments _is_cache_valid {Json} _ _ _.
Arguments _get_from_cache {Json} _ _ _.
Arguments _store_in_cache {Json} _ _ _ _ _.
Arguments Body {Json} _.
Arguments Failure {Json}.
Arguments _make_request {Json} _ _ _ _ _.
Arguments clear_cache {Json} _.
Arguments count_valid {Json} _ _ _ _.
Arguments get_cache_stats {Json} _ _.

End DataFetcher.

(** *** The analyzer's cache and the two getters the engine calls *)

Module AnalyzerCache.

Import PyDict.

Section Analyzer.

(** A decoded JSON body other than [null], with its Python truth value
    (false for an empty object or list). *)
Variable Data : Type.
Variable truthy : Data -> bool.

Record State := {
  cache : list (string * option Data);
  last_cache_time : list (string * Q)
}.

Definition cache_duration : Q := 300.

(** [if x] for a value that may be [None]. *)
Definition is_true (x : option Data) : bool :=
  match x with
  | Some data => truthy data
  | None => false
  end.

Definition _get_cached_data (self : State) (cache_key : string) (now : Q) : option Data :=
  if dict_mem (cache self) cache_key && dict_mem (last_cache_time self) cache_key then
    match Py.dict_get (cache self) cache_key, Py.dict_get (last_cache_time self) cache_key with
    | Some data, Some cached_at =>
        if RulesEngine.Qlt_b (now - cached_at) cache_duration then data else None
    | _, _ => None
    end
  else None.

Definition _set_cached_data
    (self : State) (cache_key : string) (data : option Data) (now : Q) : State :=
  {| cache := dict_set (cache self) cache_key data;
     last_cache_time := dict_set (last_cache_time self) cache_key now |}.

(** What one getter call meets: the reading of [time.time()] in the cache
    lookup, the result of [_make_request] ([None] after a failure), and the
    reading when the result is cached. *)
Record Step := {
  t_get : Q;
  response : option Data;
  t_set : Q
}.

Definition crypto_data_key (crypto_id : string) : string :=
  "crypto_data_" ++ crypto_id.

Definition get_cryptocurrency_data (self : State) (step : Step) (crypto_id : string)
  : option Data * State :=
  let cache_key := crypto_data_key crypto_id in
  let cached_data := _get_cached_data self cache_key (t_get step) in
  if is_true cached_data then (cached_data, self)
  else
    let data := response step in
    if is_true data then (data, _set_cached_data self cache_key data (t_set step))
    else (None, self).

Definition historical_key (crypto_id : string) (days : Z) : string :=
  "historical_" ++ crypto_id ++ "_" ++ str_of_int days.

(** The loop over [crypto_ids]; the [i]-th id meets [env i]. *)
Fixpoint historical_loop
    (env : nat -> Step) (days : Z) (i : nat) (crypto_ids : list string)
    (self : State) (historical_data : list (string * option Data))
  : list (string * option Data) * State :=
  match crypto_ids with
  | [] => (historical_data, self)
  | crypto_id :: rest =>
      let cache_key := historical_key crypto_id days in
      let cached_data := _get_cached_data self cache_key (t_get (env i)) in
      if is_true cached_data then
        historical_loop env days (S i) rest self
          (dict_set historical_data crypto_id cached_data)
      else
        let data := response (env i) in
        if is_true data then
          historical_loop env days (S i) rest
            (_set_cached_data self cache_key data (t_set (env i)))
            (dict_set historical_data crypto_id data)
        else
          historical_loop env days (S i) rest self
            (dict_set historical_data crypto_id None)
  end.

Definition get_historical_data
    (self : State) (env : nat -> Step) (crypto_ids : list string) (days : Z)
  : list (string * option Data) * State :=
  historical_loop env days 0 crypto_ids self [].

End Analyzer.

Arguments cache {Data} _.
Arguments last_cache_time {Data} _.
Arguments is_true {Data} _ _.
Arguments _get_cached_data {Data} _ _ _.
Arguments _set_cached_data {Data} _ _ _ _.
Arguments t_get {Data} _.
Arguments response {Data} _.
Arguments t_set {Data} _.
Arguments get_cryptocurrency_data {Data} _ _ _ _.
Arguments historical_loop {Data} _ _ _ _ _ _ _.
Arguments get_historical_data {Data} _ _ _ _ _.

End AnalyzerCache.

(** ** Technical analysis ([rules_engine.py], [_get_technical_analysis]) *)

Module TechnicalAnalysis.

Import CryptoAnalyzer.

Definition nl : string := RulesEngine.nl.

Definition msg_unable_to_fetch : string :=
  "Unable to fetch price data for technical analysis.".

Definition msg_insufficient_data : string :=
  "Insufficient price data for technical analysis.".

Definition msg_error (text : string) : string :=
  "Error performing technical analysis: " ++ text.

Definition price_analysis_heading : string := "**📊 Price Analysis (30 days):**" ++ nl.

Definition disclaimer : string :=
  nl ++ "**⚠️ Technical Analysis Disclaimer:** Technical analysis is not predictive and should be combined with fundamental analysis. Past performance does not guarantee future results.".

(** [max(l)] and [min(l)] on a non-empty list: the running extremum is
    replaced by a strictly larger (smaller) item. *)
Definition py_max (l : list Q) : Q :=
  match l with
  | [] => 0
  | x :: rest => fold_left (fun m y => if Qgt_b y m then y else m) rest x
  end.

Definition py_min (l : list Q) : Q :=
  match l with
  | [] => 0
  | x :: rest => fold_left (fun m y => if Qgt_b m y then y else m) rest x
  end.

(** Comparisons with an RSI that may be [nan] ([None]): false on [nan]. *)
Definition rsi_below (rsi : option Q) (bound : Q) : bool :=
  match rsi with
  | Some r => Qgt_b bound r
  | None => false
  end.

Definition rsi_above (rsi : option Q) (bound : Q) : bool :=
  match rsi with
  | Some r => Qgt_b r bound
  | None => false
  end.

Section Analysis.

Variable get_historical_data : list string -> Z -> list (string * option MarketChart).

(** The truth value of a chart object: false for an object without
    entries. *)
Variable chart_truthy : MarketChart -> bool.

(** The number formats [:,.2f], [:+.2f] and [:.1f], and the text of the
    [ZeroDivisionError]. *)
Variable fmt_money : Q -> string.
Variable fmt_signed : Q -> string.
Variable fmt_one : Q -> string.
Variable fmt_one_real : R -> string.
Variable fmt_rsi : option Q -> string.
Variable zero_division_text : string.

Definition signals_of (rsi : option Q) (momentum_7d : Q) (volatility : R) : list string :=
  let signals := [] in
  let signals :=
    if rsi_below rsi 30 then signals ++ [ "Oversold condition (bullish)"%string ]
    else if rsi_above rsi 70 then signals ++ [ "Overbought condition (bearish)"%string ]
    else signals in
  let signals :=
    if Qgt_b momentum_7d 5 then signals ++ [ "Strong short-term momentum (bullish)"%string ]
    else if Qgt_b (- (5)) momentum_7d
    then signals ++ [ "Weak short-term momentum (bearish)"%string ]
    else signals in
  if Rlt_dec 30 volatility then signals ++ [ "High volatility (increased risk)"%string ]
  else if Rlt_dec volatility 15 then signals ++ [ "Low volatility (stable conditions)"%string ]
  else signals.

Definition _get_technical_analysis (crypto_id : string) : string :=
  let historical_data := get_historical_data [crypto_id] 30 in
  match Py.dict_get historical_data crypto_id with
  | None => msg_unable_to_fetch
  | Some None => msg_unable_to_fetch
  | Some (Some chart) =>
      if negb (chart_truthy chart) then msg_unable_to_fetch
      else
        let prices_data := match prices chart with Some l => l | None => [] end in
        match prices_data with
        | [] => msg_insufficient_data
        | _ :: _ =>
            let volatility := calculate_volatility prices_data in
            let rsi := calculate_rsi prices_data 14 in
            let momentum_7d := get_price_momentum get_historical_data crypto_id 7 in
            let momentum_30d := get_price_momentum get_historical_data crypto_id 30 in
            let current_price := snd (last prices_data (0%Z, 0)) in
            let prices := map snd prices_data in
            let high_30d := py_max prices in
            let low_30d := py_min prices in
            if Qeq_bool (high_30d - low_30d) 0 then msg_error zero_division_text
            else
              let analysis := price_analysis_heading in
              let analysis :=
                analysis ++ "- Current Price: $" ++ fmt_money current_price ++ nl in
              let analysis := analysis ++ "- 30-day High: $" ++ fmt_money high_30d ++ nl in
              let analysis := analysis ++ "- 30-day Low: $" ++ fmt_money low_30d ++ nl in
              let analysis :=
                analysis ++ "- Price Range: "
                  ++ fmt_one ((current_price - low_30d) / (high_30d - low_30d) * 100)
                  ++ "% of range" ++ nl ++ nl in
              let analysis := analysis ++ "**📈 Momentum Indicators:**" ++ nl in
              let analysis :=
                analysis ++ "- 7-day Momentum: " ++ fmt_signed momentum_7d ++ "%" ++ nl in
              let analysis :=
                analysis ++ "- 30-day Momentum: " ++ fmt_signed momentum_30d ++ "%" ++ nl in
              let analysis :=
                analysis ++ "- 30-day Volatility: " ++ fmt_one_real volatility ++ "%"
                  ++ nl ++ nl in
              let analysis := analysis ++ "**⚖️ RSI Analysis:**" ++ nl in
              let analysis := analysis ++ "- Current RSI: " ++ fmt_rsi rsi ++ nl in
              let analysis :=
                if rsi_below rsi 30
                then analysis ++ "- Signal: **OVERSOLD** - Potential buying opportunity" ++ nl
                else if rsi_above rsi 70
                then analysis ++ "- Signal: **OVERBOUGHT** - Consider taking profits" ++ nl
                else analysis ++ "- Signal: **NEUTRAL** - No extreme conditions" ++ nl in
              let analysis := analysis ++ nl ++ "**🎯 Technical Signals:**" ++ nl in
              let resistance := high_30d * (95 # 100) in
              let support := low_30d * (105 # 100) in
              let analysis :=
                analysis ++ "- **Resistance Level:** $" ++ fmt_money resistance ++ nl in
              let analysis :=
                analysis ++ "- **Support Level:** $" ++ fmt_money support ++ nl in
              let signals := signals_of rsi momentum_7d volatility in
              let analysis :=
                match signals with
                | [] => analysis
                | _ :: _ =>
                    fold_left (fun analysis signal => analysis ++ "- " ++ signal ++ nl)
                      signals (analysis ++ nl ++ "**Key Signals:**" ++ nl)
                end in
              analysis ++ disclaimer
        end
  end%string.

End Analysis.

End TechnicalAnalysis.

(** * Properties *)

(** ** Python primitives *)

Lemma dict_get_In {V : Type} (d : list (string * V)) (key : string) (v : V) :
  Py.dict_get d key = Some v -> In (key, v) d.
Proof.
  induction d as [| [k w] rest IH]; simpl; [discriminate |].
  destruct (String.eqb k key) eqn:E.
  - intros [= ->]. apply String.eqb_eq in E. subst. now left.
  - intros H. right. now apply IH.
Qed.

Lemma Qgt_b_true (x y : Q) : CryptoAnalyzer.Qgt_b x y = true <-> y < x.
Proof.
  unfold CryptoAnalyzer.Qgt_b. rewrite negb_true_iff.
  destruct (Qle_bool x y) eqn:E.
  - apply Qle_bool_iff in E. split; [discriminate | intros H; exfalso; exact (Qlt_not_le _ _ H E)].
  - split; [intros _ | reflexivity].
    apply Qnot_le_lt. intros H. apply Qle_bool_iff in H. congruence.
Qed.

Lemma Qgt_b_false (x y : Q) : CryptoAnalyzer.Qgt_b x y = false <-> x <= y.
Proof.
  unfold CryptoAnalyzer.Qgt_b. rewrite negb_false_iff. apply Qle_bool_iff.
Qed.

(** ** Sustainability scorer *)

Section ScorerFacts.

Import SustainabilityScorer.

Lemma profile_lookup (id : string) :
  In (Py.dict_get_or crypto_profiles (Py.lower id) _get_default_profile) all_profiles.
Proof.
  unfold Py.dict_get_or.
  destruct (Py.dict_get crypto_profiles (Py.lower id)) as [p |] eqn:E.
  - right. apply dict_get_In in E. now apply (in_map snd) in E.
  - now left.
Qed.

Lemma in_range_b_sound (x : Q) : in_range_b x = true -> in_range x.
Proof.
  unfold in_range_b, in_range. rewrite andb_true_iff, !Qle_bool_iff. tauto.
Qed.

Lemma score_ok_b_sound (s : Score) : score_ok_b s = true -> score_ok s.
Proof.
  unfold score_ok_b, score_ok, weighted_sum_ok.
  rewrite !andb_true_iff, Qeq_bool_iff.
  intros [[[[He Hg] Hi] Ht] Hs].
  repeat split; try (now apply in_range_b_sound); exact Hs.
Qed.

(** The numeric fields of a score depend on the profile alone. *)
Lemma score_ok_of_profile (id : string) (profile : Profile) :
  In profile all_profiles ->
  score_ok_b
    {| crypto_id := id;
       total_score :=
         Py.round1
           (_calculate_energy_efficiency_score profile * w_energy_efficiency +
            _calculate_governance_score profile * w_governance +
            _calculate_innovation_score profile * w_innovation +
            _calculate_transparency_score profile * w_transparency);
       energy_efficiency := Py.round1 (_calculate_energy_efficiency_score profile);
       governance := Py.round1 (_calculate_governance_score profile);
       innovation := Py.round1 (_calculate_innovation_score profile);
       transparency_score := Py.round1 (_calculate_transparency_score profile);
       score_carbon_neutral_goal := carbon_neutral_goal profile |} = true.
Proof.
  intros H. unfold all_profiles in H. simpl in H.
  repeat (destruct H as [<- | H]; [vm_compute; reflexivity |]).
  contradiction.
Qed.

(** C1.  For every asset identifier, known or not, the four sub-scores
    returned by [calculate_sustainability_score] lie in [0,100] and the
    returned total equals 0.40*energy + 0.30*governance + 0.20*innovation
    + 0.10*transparency of those sub-scores; in particular this holds for
    the ten ids of the profile table.  An id is looked up lower-cased and
    one that is not in the table gets the default profile, whose total is
    69. *)
Theorem sustainability_score_weighted_sum :
  (forall id : string, score_ok (calculate_sustainability_score id)) /\
  List.length known_ids = 10%nat /\
  Forall (fun id => score_ok (calculate_sustainability_score id)) known_ids /\
  (forall id : string,
      Py.dict_get crypto_profiles (Py.lower id) = None \/
      In (Py.lower id) known_ids) /\
  total_score (calculate_sustainability_score "Dogecoin2") == 69 /\
  total_score (calculate_sustainability_score "BitCoin") == 468 # 10.
Proof.
  assert (H : forall id : string, score_ok (calculate_sustainability_score id)).
  { intros id. apply score_ok_b_sound. unfold calculate_sustainability_score.
    apply score_ok_of_profile, profile_lookup. }
  split; [exact H |]. split; [reflexivity |].
  split; [apply Forall_forall; intros id _; apply H |].
  split; [| split; vm_compute; reflexivity].
  intros id. destruct (Py.dict_get crypto_profiles (Py.lower id)) as [p |] eqn:E; [| now left].
  right. apply dict_get_In in E. now apply (in_map fst) in E.
Qed.

End ScorerFacts.

(** ** Position sizing *)

Section PositionSizeFacts.

Import RulesEngine.

(** C2, as amended.  The position size is the tier base times the
    volatility factor, the rank factor and the sustainability factor,
    capped at the tier maximum.  On binary64 the factors multiply in this
    order, each product rounded, and a factor 1.0 leaves the number as it
    is.  For Conservative, volatility 10, rank 3, sustainability 85 the
    result is the float 8.580000000000002: it lies above 8.58 by less
    than 1e-14 and is not rounded. *)
Theorem position_size_formula :
  (forall (volatility : Q) (rank : Z) (score : Q) (tier : RiskTier),
      _calculate_position_size volatility rank score tier
      == Qmin (base_allocation tier * volatility_factor volatility
               * rank_factor rank * sustainability_factor score)
              (max_allocation tier)) /\
  (forall (volatility : PrimFloat.float) (rank : Z) (score : PrimFloat.float)
          (tier : RiskTier),
      RulesEngine64._calculate_position_size volatility rank score tier
      = RulesEngine64.min_with
          (RulesEngine64.scaled_by (RulesEngine64.sustainability_factor score)
             (RulesEngine64.scaled_by (RulesEngine64.rank_factor rank)
                (RulesEngine64.scaled_by (RulesEngine64.volatility_factor volatility)
                   (RulesEngine64.Int (RulesEngine64.base_allocation tier)))))
          (RulesEngine64.max_allocation tier)) /\
  RulesEngine64._calculate_position_size
    (Binary64.of_int 10) 3 (Binary64.of_int 85) Conservative
  = RulesEngine64.Float RulesEngine64.example_result /\
  (exists value : Q,
      Binary64.exact RulesEngine64.example_result = Some value /\
      858 # 100 < value /\ value - (858 # 100) < 1 # 100000000000000).
Proof.
  split; [| split; [| split]].
  - intros volatility rank score tier.
    unfold _calculate_position_size, volatility_factor, rank_factor, sustainability_factor.
    apply Q.min_compat; [| reflexivity].
    destruct (Qgt_b volatility 40), (Qgt_b volatility 25), (Qlt_b volatility 15),
      (rank <=? 5)%Z, (rank <=? 20)%Z, (rank >? 50)%Z,
      (Qge_b score 80), (Qlt_b score 40); ring.
  - intros volatility rank score tier.
    unfold RulesEngine64._calculate_position_size, RulesEngine64.volatility_factor,
      RulesEngine64.rank_factor, RulesEngine64.sustainability_factor.
    cbv zeta.
    repeat match goal with
           | |- context [if ?test then _ else _] => destruct test
           end;
      reflexivity.
  - vm_compute. reflexivity.
  - eexists. split; [vm_compute; reflexivity |]. split; reflexivity.
Qed.

(** The claim's value at its own input: the result is not the float
    that 8.58 denotes. *)
Lemma position_size_example_counterexample :
  RulesEngine64._calculate_position_size
    (Binary64.of_int 10) 3 (Binary64.of_int 85) Conservative
  <> RulesEngine64.Float RulesEngine64.literal_8_58.
Proof.
  intros H.
  assert (E : match RulesEngine64._calculate_position_size
                      (Binary64.of_int 10) 3 (Binary64.of_int 85) Conservative with
              | RulesEngine64.Float x => PrimFloat.eqb x RulesEngine64.literal_8_58
              | RulesEngine64.Int _ => false
              end = true).
  { rewrite H. vm_compute. reflexivity. }
  vm_compute in E. discriminate.
Qed.

End PositionSizeFacts.

(** ** Portfolio recommendation *)

Section PortfolioFacts.

Import RulesEngine.

(** The holdings assembled for a tier depend on the provider's list only
    through the presence of a BTC and of an ETH record. *)
Lemma assemble_total_le_cap (tier : RiskTier) (top_cryptos : list MarketRecord) :
  (total_of (assemble_portfolio tier top_cryptos) <= max_crypto_allocation tier)%Z.
Proof.
  unfold assemble_portfolio.
  destruct tier, (find (has_symbol "btc") top_cryptos), (find (has_symbol "eth") top_cryptos);
    vm_compute; discriminate.
Qed.

Lemma cap_portfolio_below (tier : RiskTier) (portfolio : list Holding) :
  (total_of portfolio <= max_crypto_allocation tier)%Z ->
  cap_portfolio tier portfolio = portfolio.
Proof.
  intros H. unfold cap_portfolio.
  destruct (total_of portfolio >? max_crypto_allocation tier)%Z eqn:E; [| reflexivity].
  apply Z.gtb_lt in E. lia.
Qed.

Lemma generate_unfold (provider : Z -> list MarketRecord) (size : Q) (tier : RiskTier)
    (horizon : string) :
  generate_portfolio_recommendation provider size tier horizon =
  match provider 20%Z with
  | [] => []
  | _ :: _ => assemble_portfolio tier (provider 20%Z)
  end.
Proof.
  unfold generate_portfolio_recommendation.
  destruct (provider 20%Z) as [| c rest] eqn:E; [reflexivity |].
  apply cap_portfolio_below, assemble_total_le_cap.
Qed.

Lemma assemble_percentages (tier : RiskTier) (top_cryptos : list MarketRecord) :
  Forall (fun crypto => (0 <= allocation crypto <= 100)%Z)
         (assemble_portfolio tier top_cryptos).
Proof.
  unfold assemble_portfolio.
  destruct tier, (find (has_symbol "btc") top_cryptos), (find (has_symbol "eth") top_cryptos);
    cbn; repeat constructor; cbn; lia.
Qed.

Lemma Z_range_In (lo z : Z) (n : nat) :
  (lo <= z < lo + Z.of_nat n)%Z -> In z (Z_range lo n).
Proof.
  intros H. unfold Z_range. apply in_map_iff.
  exists (Z.to_nat (z - lo)). split; [lia |]. apply in_seq. lia.
Qed.

(** Every cap, every total above it up to 200 and every allocation from 0
    to 100, evaluated on binary64. *)
Lemma scaling_checked :
  forallb (fun cap =>
             forallb (fun total => forallb (scaling_is_nearest cap total) (Z_range 0 101))
                     (Z_range (cap + 1) (Z.to_nat (200 - cap))))
          [70; 80; 90]%Z
  = true.
Proof. vm_compute. reflexivity. Qed.

Lemma scaling_nearest (tier : RiskTier) (total a : Z) :
  (max_crypto_allocation tier < total <= 200)%Z -> (0 <= a <= 100)%Z ->
  scaling_is_nearest (max_crypto_allocation tier) total a = true.
Proof.
  intros Ht Ha. pose proof scaling_checked as C.
  rewrite forallb_forall in C.
  assert (I : In (max_crypto_allocation tier) [70; 80; 90]%Z)
    by (destruct tier; cbn; tauto).
  specialize (C _ I). rewrite forallb_forall in C.
  assert (R : (70 <= max_crypto_allocation tier <= 90)%Z) by (destruct tier; cbn; lia).
  assert (T : In total (Z_range (max_crypto_allocation tier + 1)
                                (Z.to_nat (200 - max_crypto_allocation tier))))
    by (apply Z_range_In; lia).
  specialize (C total T).
  rewrite forallb_forall in C. apply C, Z_range_In. lia.
Qed.

Lemma scale_entries_nearest (tier : RiskTier) (total : Z) (portfolio : list Holding) :
  (max_crypto_allocation tier < total <= 200)%Z ->
  Forall (fun crypto => (0 <= allocation crypto <= 100)%Z) portfolio ->
  exists scaled : list Holding,
    scale_entries (scale_factor_of tier total) portfolio = Some scaled /\
    map name scaled = map name portfolio /\
    map reasoning scaled = map reasoning portfolio /\
    Forall2 (fun old new =>
               scaled_allocation (scale_factor_of tier total) old = Some (allocation new) /\
               Qabs (inject_Z (allocation new) - exact_share tier total old) <= 1 # 2)
            portfolio scaled.
Proof.
  intros Ht. induction 1 as [| crypto rest Ha _ IH].
  - exists []. repeat split. constructor.
  - destruct IH as [scaled [E [N [R F]]]].
    pose proof (scaling_nearest tier total (allocation crypto) Ht Ha) as C.
    unfold scaling_is_nearest in C.
    cbn [scale_entries]. unfold scaled_allocation at 1, scale_factor_of at 1.
    destruct (Binary64.round _) as [z |] eqn:Z; [| discriminate].
    apply Qle_bool_iff in C. rewrite E.
    exists (with_allocation crypto z :: scaled). split; [reflexivity |].
    cbn [map name reasoning with_allocation]. rewrite N, R.
    split; [reflexivity |]. split; [reflexivity |].
    constructor; [| exact F].
    cbn [allocation with_allocation]. split; [exact Z | exact C].
Qed.

Lemma cap_portfolio_above (tier : RiskTier) (portfolio : list Holding) :
  (max_crypto_allocation tier < total_of portfolio <= 200)%Z ->
  Forall (fun crypto => (0 <= allocation crypto <= 100)%Z) portfolio ->
  scaled_from tier portfolio (cap_portfolio tier portfolio).
Proof.
  intros Ht Ha. unfold cap_portfolio, scaled_from. cbv zeta.
  destruct (total_of portfolio >? max_crypto_allocation tier)%Z eqn:G;
    [| rewrite Z.gtb_ltb in G; apply Z.ltb_ge in G; lia].
  destruct (scale_entries_nearest tier (total_of portfolio) portfolio Ht Ha)
    as [scaled [E [N [R F]]]].
  rewrite E. split; [exact N |]. split; [exact R | exact F].
Qed.

(** C3.  The returned portfolio never sums to more than the tier's maximum
    total allocation (70, 80, 90).  Whenever the total assembled before the
    cap check exceeds that maximum, the function returns the list with
    every allocation replaced by [round(allocation * (cap / total))],
    computed on binary64: an integer nearest to the original allocation
    times cap/total, names, reasons and order kept.  The cap step does this
    on every list of percentages that it is given (allocations from 0 to
    100, total up to 200), and it leaves the rounded sum as it comes out:
    three holdings of 25 under the Conservative cap become three of 23,
    which sum to 69; holdings of 15 and 85 become 10 and 59, the float
    product for 85 lying just below the exact share 59.5. *)
Theorem portfolio_within_cap_and_scaling :
  (forall (provider : Z -> list MarketRecord) (size : Q) (tier : RiskTier) (horizon : string),
      let pre_cap := assemble_portfolio tier (provider 20%Z) in
      let result := generate_portfolio_recommendation provider size tier horizon in
      (total_of result <= max_crypto_allocation tier)%Z /\
      (provider 20%Z <> [] ->
       (max_crypto_allocation tier < total_of pre_cap)%Z ->
       scaled_from tier pre_cap result)) /\
  (max_crypto_allocation Conservative = 70%Z /\ max_crypto_allocation Moderate = 80%Z /\
   max_crypto_allocation Aggressive = 90%Z) /\
  (forall (tier : RiskTier) (portfolio : list Holding),
      (max_crypto_allocation tier < total_of portfolio <= 200)%Z ->
      Forall (fun crypto => (0 <= allocation crypto <= 100)%Z) portfolio ->
      scaled_from tier portfolio (cap_portfolio tier portfolio)) /\
  (let h := {| name := "A"; allocation := 25; reasoning := "" |} in
   map allocation (cap_portfolio Conservative [h; h; h]) = [23; 23; 23]%Z /\
   total_of (cap_portfolio Conservative [h; h; h]) = 69%Z) /\
  (let small := {| name := "A"; allocation := 15; reasoning := "" |} in
   let large := {| name := "B"; allocation := 85; reasoning := "" |} in
   map allocation (cap_portfolio Conservative [small; large]) = [10; 59]%Z /\
   exact_share Conservative 100 large == 595 # 10).
Proof.
  split; [| split; [| split; [| split]]].
  - intros provider size tier horizon pre_cap result. split.
    + unfold result. rewrite generate_unfold.
      destruct (provider 20%Z) as [| c rest] eqn:E.
      * destruct tier; vm_compute; discriminate.
      * rewrite <- E. apply assemble_total_le_cap.
    + intros Hdata Hover.
      assert (U : result = cap_portfolio tier pre_cap).
      { unfold result, pre_cap, generate_portfolio_recommendation.
        destruct (provider 20%Z); [congruence | reflexivity]. }
      rewrite U. apply cap_portfolio_above; [| apply assemble_percentages].
      pose proof (assemble_total_le_cap tier (provider 20%Z)) as L.
      fold pre_cap in L.
      assert (R : (max_crypto_allocation tier <= 90)%Z) by (destruct tier; cbn; lia).
      lia.
  - repeat split.
  - exact cap_portfolio_above.
  - vm_compute. split; reflexivity.
  - vm_compute. split; reflexivity.
Qed.

(** A total above the cap, scaled. *)
Lemma portfolio_within_cap_and_scaling_witness :
  let h := {| name := "Bitcoin (BTC)"; allocation := 40; reasoning := "" |} in
  let portfolio := [h; h] in
  (max_crypto_allocation Conservative < total_of portfolio <= 200)%Z /\
  Forall (fun crypto => (0 <= allocation crypto <= 100)%Z) portfolio /\
  scaled_from Conservative portfolio (cap_portfolio Conservative portfolio).
Proof.
  intros h portfolio.
  assert (H1 : (max_crypto_allocation Conservative < total_of portfolio <= 200)%Z)
    by (vm_compute; split; [reflexivity | discriminate]).
  assert (H2 : Forall (fun crypto => (0 <= allocation crypto <= 100)%Z) portfolio).
  { repeat constructor; cbn; lia. }
  split; [exact H1 |]. split; [exact H2 |].
  exact (proj1 (proj2 (proj2 portfolio_within_cap_and_scaling)) Conservative portfolio H1 H2).
Defined.

(** C10.  The allocations assembled before the cap check never sum to more
    than the tier's cap: at most 70 for Conservative and 80 for Moderate
    (both reached when BTC and ETH are listed) and exactly 35 for
    Aggressive, whose portfolio has no Bitcoin or Ethereum entry.  So the
    cap step changes nothing and the returned entries carry their table
    allocations. *)
Theorem portfolio_scaling_unreachable :
  (forall (tier : RiskTier) (top_cryptos : list MarketRecord),
      (total_of (assemble_portfolio tier top_cryptos) <= max_crypto_allocation tier)%Z) /\
  (forall top_cryptos : list MarketRecord,
      (total_of (assemble_portfolio Conservative top_cryptos) <= 70)%Z /\
      (total_of (assemble_portfolio Moderate top_cryptos) <= 80)%Z /\
      assemble_portfolio Aggressive top_cryptos = growth_cryptos ++ speculative_cryptos /\
      total_of (assemble_portfolio Aggressive top_cryptos) = 35%Z) /\
  (exists top_cryptos : list MarketRecord,
      total_of (assemble_portfolio Conservative top_cryptos) = 70%Z /\
      total_of (assemble_portfolio Moderate top_cryptos) = 80%Z) /\
  (forall (tier : RiskTier) (top_cryptos : list MarketRecord),
      (total_of (assemble_portfolio tier top_cryptos) >? max_crypto_allocation tier)%Z = false /\
      cap_portfolio tier (assemble_portfolio tier top_cryptos)
      = assemble_portfolio tier top_cryptos) /\
  (forall (provider : Z -> list MarketRecord) (size : Q) (tier : RiskTier) (horizon : string),
      generate_portfolio_recommendation provider size tier horizon =
      match provider 20%Z with
      | [] => []
      | _ :: _ => assemble_portfolio tier (provider 20%Z)
      end).
Proof.
  split; [exact assemble_total_le_cap |].
  split.
  { intros top. split; [apply (assemble_total_le_cap Conservative) |].
    split; [apply (assemble_total_le_cap Moderate) |].
    split; reflexivity. }
  split.
  { exists [ {| symbol := Some "BTC"%string; price_change_percentage_24h := 0;
                market_cap_rank := 1 |};
             {| symbol := Some "eth"%string; price_change_percentage_24h := 0;
                market_cap_rank := 2 |} ].
    split; reflexivity. }
  split.
  { intros tier top. pose proof (assemble_total_le_cap tier top) as H. split.
    - rewrite Z.gtb_ltb. apply Z.ltb_ge. exact H.
    - now apply cap_portfolio_below. }
  exact generate_unfold.
Qed.

End PortfolioFacts.

(** ** Query routing *)

Section RouterFacts.

Import RulesEngine.

Variable list_of_set : list string -> list string.
Hypothesis list_of_set_perm :
  forall l : list string, Permutation (list_of_set l) (nodup string_dec l).

Variable _analyze_single_crypto : string -> RiskTier -> string.
Variable _generate_comparison_summary : list string -> RiskTier -> string.
Variable _get_investment_recommendation : string -> Q -> RiskTier -> string -> string.
Variable _handle_portfolio_query : Q -> RiskTier -> string -> string.
Variable _handle_sustainability_query : string -> string.
Variable _handle_price_analysis_query : string -> string.
Variable _handle_general_query : string -> RiskTier -> string.

Local Abbreviation extract := (_extract_crypto_names list_of_set).
Local Abbreviation compare :=
  (_handle_comparison_query list_of_set _analyze_single_crypto _generate_comparison_summary).
Local Abbreviation invest :=
  (_handle_investment_query list_of_set _get_investment_recommendation).
Local Abbreviation process :=
  (process_query list_of_set _analyze_single_crypto _generate_comparison_summary
     _get_investment_recommendation _handle_portfolio_query _handle_sustainability_query
     _handle_price_analysis_query _handle_general_query).
Local Abbreviation dispatch :=
  (handler_of list_of_set _analyze_single_crypto _generate_comparison_summary
     _get_investment_recommendation _handle_portfolio_query _handle_sustainability_query
     _handle_price_analysis_query _handle_general_query).

(** Every extracted name is an alias of the table. *)
Lemma found_cryptos_alias (query name : string) :
  In name (found_cryptos query) -> In name (map fst crypto_mappings).
Proof.
  unfold found_cryptos. intros H.
  apply in_map_iff in H. destruct H as [entry [<- H]].
  apply filter_In in H. apply in_map. exact (proj1 H).
Qed.

Lemma extract_found (query name : string) :
  In name (extract query) -> In name (found_cryptos query).
Proof.
  unfold _extract_crypto_names. intros H.
  apply (Permutation_in _ (list_of_set_perm _)) in H.
  now apply nodup_In in H.
Qed.

(** Every alias resolves: the extraction and the resolution read the same
    table, and its keys are lower-case already. *)
Lemma alias_resolves (name : string) :
  In name (map fst crypto_mappings) ->
  exists crypto_id : string,
    _get_crypto_id name = Some crypto_id /\ In (name, crypto_id) crypto_mappings.
Proof.
  intros H.
  assert (A : forallb (fun entry =>
                         match _get_crypto_id (fst entry) with
                         | Some crypto_id => String.eqb crypto_id (snd entry)
                         | None => false
                         end) crypto_mappings = true) by (vm_compute; reflexivity).
  apply in_map_iff in H. destruct H as [[alias crypto_id] [<- H]].
  rewrite forallb_forall in A. specialize (A _ H). simpl in A. simpl.
  destruct (_get_crypto_id alias) as [found |]; [| discriminate].
  apply String.eqb_eq in A. subst found. now exists crypto_id.
Qed.

Lemma extract_nil_iff (query : string) :
  extract query = [] <-> found_cryptos query = [].
Proof.
  unfold _extract_crypto_names. split; intros H.
  - pose proof (list_of_set_perm (found_cryptos query)) as P. rewrite H in P.
    apply Permutation_nil in P.
    destruct (found_cryptos query) as [| a l]; [reflexivity |].
    exfalso. assert (I : In a (nodup string_dec (a :: l))) by (apply nodup_In; now left).
    rewrite P in I. exact I.
  - rewrite H. pose proof (list_of_set_perm []) as P.
    simpl in P. apply Permutation_sym, Permutation_nil in P. exact P.
Qed.

(** The two headings and the two hints differ in their first character. *)
Lemma analysis_is_not_couldnt_find (crypto_name analysis other : string) :
  (investment_heading crypto_name ++ analysis)%string <> msg_couldnt_find other.
Proof.
  unfold investment_heading, msg_couldnt_find. simpl. discriminate.
Qed.

Lemma specify_is_not_couldnt_find (other : string) :
  msg_specify_which <> msg_couldnt_find other.
Proof.
  unfold msg_specify_which, msg_couldnt_find. simpl. discriminate.
Qed.

(** C4, as amended.  An investment query in which no alias occurs gets the
    "Please specify which cryptocurrency" hint; one in which an alias occurs
    by substring containment gets the investment analysis of that alias; the
    "couldn't find" message is never returned.  "Should I invest in
    Dogecoin2?" contains the aliases "dogecoin" and "doge" and is answered
    with the investment analysis of dogecoin. *)
Theorem investment_query_resolution :
  (forall (query : string) (size : Q) (tier : RiskTier) (horizon : string),
      (found_cryptos query = [] /\ invest query size tier horizon = msg_specify_which) \/
      (exists crypto_name crypto_id : string,
          In crypto_name (found_cryptos query) /\
          In (crypto_name, crypto_id) crypto_mappings /\
          invest query size tier horizon =
          (investment_heading crypto_name
           ++ _get_investment_recommendation crypto_id size tier horizon)%string)) /\
  (forall (query : string) (size : Q) (tier : RiskTier) (horizon other : string),
      invest query size tier horizon <> msg_couldnt_find other) /\
  (forall (size : Q) (tier : RiskTier) (horizon : string),
      found_cryptos "Should I invest in Dogecoin2?" = [ "dogecoin"; "doge" ]%string /\
      exists crypto_name : string,
        (crypto_name = "dogecoin" \/ crypto_name = "doge")%string /\
        process "Should I invest in Dogecoin2?"%string size tier horizon =
        (investment_heading crypto_name
         ++ _get_investment_recommendation "dogecoin" size tier horizon)%string).
Proof.
  assert (Cases : forall (query : string) (size : Q) (tier : RiskTier) (horizon : string),
      (found_cryptos query = [] /\ invest query size tier horizon = msg_specify_which) \/
      (exists crypto_name crypto_id : string,
          In crypto_name (found_cryptos query) /\
          In (crypto_name, crypto_id) crypto_mappings /\
          invest query size tier horizon =
          (investment_heading crypto_name
           ++ _get_investment_recommendation crypto_id size tier horizon)%string)).
  { intros query size tier horizon. unfold _handle_investment_query.
    destruct (extract query) as [| crypto_name rest] eqn:E.
    - left. split; [now apply extract_nil_iff | reflexivity].
    - right.
      assert (I : In crypto_name (found_cryptos query)).
      { apply extract_found. rewrite E. now left. }
      destruct (alias_resolves crypto_name (found_cryptos_alias _ _ I)) as [crypto_id [R M]].
      exists crypto_name, crypto_id. rewrite R. repeat split; assumption. }
  split; [exact Cases |]. split.
  - intros query size tier horizon other.
    destruct (Cases query size tier horizon) as [[_ ->] | [n [i [_ [_ ->]]]]].
    + apply specify_is_not_couldnt_find.
    + apply analysis_is_not_couldnt_find.
  - intros size tier horizon.
    assert (F : found_cryptos "Should I invest in Dogecoin2?" = [ "dogecoin"; "doge" ]%string)
      by (vm_compute; reflexivity).
    split; [exact F |].
    assert (C : Py.any_in comparison_keywords (Py.lower "Should I invest in Dogecoin2?") = false)
      by (vm_compute; reflexivity).
    assert (I : Py.any_in investment_keywords (Py.lower "Should I invest in Dogecoin2?") = true)
      by (vm_compute; reflexivity).
    unfold process_query. cbv zeta. rewrite C, I.
    unfold _handle_investment_query, _extract_crypto_names. rewrite F.
    pose proof (list_of_set_perm [ "dogecoin"; "doge" ]%string) as P.
    change (nodup string_dec [ "dogecoin"; "doge" ]%string)
      with [ "dogecoin"; "doge" ]%string in P.
    apply Permutation_sym, Permutation_length_2_inv in P.
    destruct P as [-> | ->].
    + exists "dogecoin"%string. split; [now left | reflexivity].
    + exists "doge"%string. split; [now right | reflexivity].
Qed.

(** C6.  [process_query] hands the query to the handler of the first
    keyword set, in the order comparison, investment, portfolio,
    sustainability, price/technical, that has a keyword in the lower-cased
    query, and to the general handler when none has; so a query with a
    comparison keyword goes to the comparison handler whatever else it
    contains. *)
Theorem process_query_first_match :
  (forall (query : string) (size : Q) (tier : RiskTier) (horizon : string),
      process query size tier horizon = dispatch (classify query) query size tier horizon) /\
  (forall (query : string) (size : Q) (tier : RiskTier) (horizon : string),
      (exists word : string,
          In word comparison_keywords /\ Py.contains word (Py.lower query) = true) ->
      classify query = Comparison /\
      process query size tier horizon = compare query tier) /\
  (forall (size : Q) (tier : RiskTier) (horizon : string),
      process "Compare Bitcoin vs Ethereum"%string size tier horizon
      = compare "Compare Bitcoin vs Ethereum"%string tier /\
      process "Should I buy Bitcoin versus Ethereum for my portfolio?"%string size tier horizon
      = compare "Should I buy Bitcoin versus Ethereum for my portfolio?"%string tier).
Proof.
  assert (D : forall (query : string) (size : Q) (tier : RiskTier) (horizon : string),
      process query size tier horizon = dispatch (classify query) query size tier horizon).
  { intros query size tier horizon.
    unfold process_query, classify, intent_rules. cbv zeta. cbn [find fst snd].
    destruct (Py.any_in comparison_keywords (Py.lower query)); [reflexivity |].
    destruct (Py.any_in investment_keywords (Py.lower query)); [reflexivity |].
    destruct (Py.any_in portfolio_keywords (Py.lower query)); [reflexivity |].
    destruct (Py.any_in sustainability_keywords (Py.lower query)); [reflexivity |].
    destruct (Py.any_in price_keywords (Py.lower query)); reflexivity. }
  assert (K : forall query : string,
      (exists word : string,
          In word comparison_keywords /\ Py.contains word (Py.lower query) = true) ->
      classify query = Comparison).
  { intros query [word [Hin Hc]].
    unfold classify, intent_rules. cbn [find fst snd].
    replace (Py.any_in comparison_keywords (Py.lower query)) with true; [reflexivity |].
    symmetry. unfold Py.any_in. apply existsb_exists. now exists word. }
  split; [exact D |]. split.
  - intros query size tier horizon H. split; [now apply K |].
    rewrite D, (K query H). reflexivity.
  - intros size tier horizon. split.
    + rewrite D. replace (classify "Compare Bitcoin vs Ethereum") with Comparison
        by (vm_compute; reflexivity). reflexivity.
    + rewrite D.
      replace (classify "Should I buy Bitcoin versus Ethereum for my portfolio?")
        with Comparison by (vm_compute; reflexivity).
      reflexivity.
Qed.

End RouterFacts.

Section RouterExamples.

Import RulesEngine.

(** C4 fails as stated: with the aliases enumerated in table order and the
    analysis collaborator echoing the id it is given, "Should I invest in
    Dogecoin2?" is answered with the investment analysis of dogecoin, which
    is not the "couldn't find" message for any name. *)
Lemma dogecoin2_query_counterexample :
  let answer :=
    process_query (nodup string_dec)
      (fun _ _ => EmptyString) (fun _ _ => EmptyString)
      (fun crypto_id _ _ _ => crypto_id)
      (fun _ _ _ => EmptyString) (fun _ => EmptyString) (fun _ => EmptyString)
      (fun _ _ => EmptyString)
      "Should I invest in Dogecoin2?"%string 10000 Moderate "Medium-term (1-3 years)"%string in
  answer = (investment_heading "dogecoin" ++ "dogecoin")%string /\
  forall crypto_name : string, answer <> msg_couldnt_find crypto_name.
Proof.
  assert (E : process_query (nodup string_dec)
      (fun _ _ => EmptyString) (fun _ _ => EmptyString)
      (fun crypto_id _ _ _ => crypto_id)
      (fun _ _ _ => EmptyString) (fun _ => EmptyString) (fun _ => EmptyString)
      (fun _ _ => EmptyString)
      "Should I invest in Dogecoin2?"%string 10000 Moderate "Medium-term (1-3 years)"%string
      = (investment_heading "dogecoin" ++ "dogecoin")%string) by (vm_compute; reflexivity).
  cbv zeta. split; [exact E |].
  intros crypto_name. rewrite E. apply analysis_is_not_couldnt_find.
Qed.

Lemma investment_query_resolution_witness :
  (forall l : list string, Permutation (nodup string_dec l) (nodup string_dec l)) /\
  forall other : string,
    _handle_investment_query (nodup string_dec) (fun crypto_id _ _ _ => crypto_id)
      "Should I invest in Dogecoin2?"%string 10000 Moderate "Medium-term (1-3 years)"%string
    <> msg_couldnt_find other.
Proof.
  split.
  - intros l. apply Permutation_refl.
  - intros other.
    apply (proj1 (proj2
             (investment_query_resolution (nodup string_dec)
                (fun l => Permutation_refl _)
                (fun _ _ => EmptyString) (fun _ _ => EmptyString)
                (fun crypto_id _ _ _ => crypto_id)
                (fun _ _ _ => EmptyString) (fun _ => EmptyString) (fun _ => EmptyString)
                (fun _ _ => EmptyString)))).
Defined.

Lemma process_query_first_match_witness :
  (exists word : string,
      In word comparison_keywords /\
      Py.contains word (Py.lower "Compare Bitcoin vs Ethereum") = true) /\
  process_query (nodup string_dec)
    (fun _ _ => "analysis"%string) (fun _ _ => "summary"%string)
    (fun crypto_id _ _ _ => crypto_id)
    (fun _ _ _ => EmptyString) (fun _ => EmptyString) (fun _ => EmptyString)
    (fun _ _ => EmptyString)
    "Compare Bitcoin vs Ethereum"%string 10000 Moderate "Medium-term (1-3 years)"%string
  = _handle_comparison_query (nodup string_dec)
      (fun _ _ => "analysis"%string) (fun _ _ => "summary"%string)
      "Compare Bitcoin vs Ethereum"%string Moderate.
Proof.
  assert (H : exists word : string,
             In word comparison_keywords /\
             Py.contains word (Py.lower "Compare Bitcoin vs Ethereum") = true).
  { exists "compare"%string. split; [now left | vm_compute; reflexivity]. }
  split; [exact H |].
  apply (proj1 (proj2
           (process_query_first_match (nodup string_dec)
              (fun _ _ => "analysis"%string) (fun _ _ => "summary"%string)
              (fun crypto_id _ _ _ => crypto_id)
              (fun _ _ _ => EmptyString) (fun _ => EmptyString) (fun _ => EmptyString)
              (fun _ _ => EmptyString)))
           "Compare Bitcoin vs Ethereum"%string 10000 Moderate
           "Medium-term (1-3 years)"%string H).
Defined.

End RouterExamples.

(** ** Technical indicators *)

Section IndicatorFacts.

Import CryptoAnalyzer.

(** *** Index loops over consecutive prices *)

Lemma skipn_cons_nth {A : Type} (l : list A) (d : A) :
  forall (k : nat) (a : A) (r : list A),
    skipn k l = a :: r -> nth k l d = a /\ skipn (S k) l = r.
Proof.
  induction l as [| x l IH]; intros k a r H.
  - destruct k; discriminate.
  - destruct k as [| k].
    + simpl in H. injection H as -> ->. split; reflexivity.
    + simpl in H. destruct (IH k a r H) as [H1 H2]. split; assumption.
Qed.

(** A loop [for i in range(1, len(l))] whose body reads [l[i-1]] and [l[i]]
    is a fold over the consecutive pairs of [l]. *)
Lemma index_loop_pairs {A B : Type} (l : list A) (d : A)
    (step : B -> nat -> B) (f : B -> A -> A -> B) :
  (forall (acc : B) (i : nat), step acc i = f acc (nth (i - 1) l d) (nth i l d)) ->
  forall (rest : list A) (k : nat) (acc : B),
    skipn k l = rest ->
    fold_left step (seq (S k) (List.length rest - 1)) acc
    = fold_left (fun acc p => f acc (fst p) (snd p)) (adjacent_pairs rest) acc.
Proof.
  intros Hstep rest.
  induction rest as [| a rest IH]; intros k acc H; [reflexivity |].
  destruct rest as [| b t]; [reflexivity |].
  destruct (skipn_cons_nth l d k a (b :: t) H) as [Ha Hk].
  destruct (skipn_cons_nth l d (S k) b t Hk) as [Hb _].
  change (List.length (a :: b :: t) - 1)%nat with (S (List.length t)).
  cbn [seq fold_left adjacent_pairs].
  rewrite Hstep. replace (S k - 1)%nat with k by lia. rewrite Ha, Hb.
  specialize (IH (S k) (f acc a b) Hk).
  change (List.length (b :: t) - 1)%nat with (List.length t - 0)%nat in IH.
  rewrite Nat.sub_0_r in IH. exact IH.
Qed.

Lemma adjacent_pairs_length {A : Type} (l : list A) :
  List.length (adjacent_pairs l) = (List.length l - 1)%nat.
Proof.
  induction l as [| a l IH]; [reflexivity |].
  destruct l as [| b t]; [reflexivity |].
  cbn [adjacent_pairs List.length] in *. lia.
Qed.

Lemma adjacent_pairs_map {A B : Type} (g : A -> B) (l : list A) :
  adjacent_pairs (map g l) = map (fun p => (g (fst p), g (snd p))) (adjacent_pairs l).
Proof.
  induction l as [| a l IH]; [reflexivity |].
  destruct l as [| b t]; [reflexivity |].
  cbn [adjacent_pairs map] in *. now rewrite IH.
Qed.

(** *** Sums and means *)

Lemma sum_from (l : list Q) (a : Q) : fold_left Qplus l a == a + Py.sum l.
Proof.
  unfold Py.sum. revert a.
  induction l as [| x l IH]; intros a; simpl.
  - ring.
  - rewrite IH, (IH (0 + x)). ring.
Qed.

Lemma sum_cons (x : Q) (l : list Q) : Py.sum (x :: l) == x + Py.sum l.
Proof.
  unfold Py.sum at 1. simpl. rewrite sum_from. ring.
Qed.

Lemma sum_zero (l : list Q) : Forall (fun x => x == 0) l -> Py.sum l == 0.
Proof.
  induction 1 as [| x l Hx _ IH]; [reflexivity |].
  rewrite sum_cons, Hx, IH. reflexivity.
Qed.

Lemma sum_nonneg (l : list Q) : Forall (fun x => 0 <= x) l -> 0 <= Py.sum l.
Proof.
  induction 1 as [| x l Hx _ IH]; [unfold Py.sum; simpl; lra |].
  rewrite sum_cons. lra.
Qed.

Lemma sum_pos (l : list Q) :
  Forall (fun x => 0 <= x) l -> Exists (fun x => 0 < x) l -> 0 < Py.sum l.
Proof.
  intros Hall Hex. induction Hex as [x l Hx | x l _ IH].
  - rewrite sum_cons. apply Forall_inv_tail in Hall. apply sum_nonneg in Hall. lra.
  - rewrite sum_cons. pose proof (Forall_inv Hall) as Hx. cbv beta in Hx.
    apply Forall_inv_tail in Hall. specialize (IH Hall). lra.
Qed.

Lemma sum_Qeq (l l' : list Q) : Forall2 Qeq l l' -> Py.sum l == Py.sum l'.
Proof.
  induction 1 as [| x y l l' Hxy _ IH]; [reflexivity |].
  rewrite !sum_cons, Hxy, IH. reflexivity.
Qed.

Lemma mean_Qeq (l l' : list Q) : Forall2 Qeq l l' -> mean_of l == mean_of l'.
Proof.
  intros H. unfold mean_of.
  rewrite (sum_Qeq _ _ H), (Forall2_length H). reflexivity.
Qed.

Lemma np_mean_nonempty (l : list Q) : l <> [] -> Py.np_mean l = Some (mean_of l).
Proof.
  destruct l; [congruence | reflexivity].
Qed.

Lemma last_n_length {A : Type} (n : nat) (l : list A) :
  (0 < n)%nat -> (n <= List.length l)%nat -> List.length (Py.last_n n l) = n.
Proof.
  intros Hn Hl. unfold Py.last_n. destruct n; [lia |].
  rewrite length_skipn. lia.
Qed.

Lemma last_n_map {A B : Type} (g : A -> B) (n : nat) (l : list A) :
  Py.last_n n (map g l) = map g (Py.last_n n l).
Proof.
  unfold Py.last_n. destruct n; [reflexivity |].
  now rewrite length_map, skipn_map.
Qed.

Lemma last_n_incl {A : Type} (n : nat) (l : list A) (x : A) :
  In x (Py.last_n n l) -> In x l.
Proof.
  unfold Py.last_n. destruct n; [tauto |].
  intros H. rewrite <- (firstn_skipn (List.length l - S n) l). apply in_or_app. now right.
Qed.

Lemma mean_pos_den (l : list Q) : l <> [] -> 0 < inject_Z (Z.of_nat (List.length l)).
Proof.
  intros H. destruct l; [congruence |].
  change 0 with (inject_Z 0). rewrite <- Zlt_Qlt. simpl List.length. lia.
Qed.

End IndicatorFacts.

Section RsiFacts.

Import CryptoAnalyzer.

(** *** RSI *)

(** The two lists that the loop of [calculate_rsi] builds. *)
Lemma rsi_loop (price_values : list Q) :
  fold_left (rsi_step price_values) (seq 1 (List.length price_values - 1)) ([], [])
  = (map gain (deltas price_values), map appended_loss (deltas price_values)).
Proof.
  rewrite (index_loop_pairs price_values 0 (rsi_step price_values)
             (fun acc a b =>
                (fst acc ++ [gain (b - a)], snd acc ++ [appended_loss (b - a)]))
             ltac:(intros [g l] i; unfold rsi_step, gain, appended_loss; cbn [fst snd];
                   destruct (Qgt_b _ 0); reflexivity)
             price_values 0 ([], []) eq_refl).
  unfold deltas.
  enough (G : forall (ps : list (Q * Q)) (g l : list Q),
             fold_left (fun acc p =>
                          (fst acc ++ [gain (snd p - fst p)],
                           snd acc ++ [appended_loss (snd p - fst p)])) ps (g, l)
             = (g ++ map gain (map (fun p => snd p - fst p) ps),
                l ++ map appended_loss (map (fun p => snd p - fst p) ps)))
    by (rewrite G; reflexivity).
  induction ps as [| p ps IH]; intros g l; cbn [fold_left map fst snd].
  - now rewrite !app_nil_r.
  - rewrite IH, <- !app_assoc. reflexivity.
Qed.

Lemma deltas_length (price_values : list Q) :
  List.length (deltas price_values) = (List.length price_values - 1)%nat.
Proof.
  unfold deltas. now rewrite length_map, adjacent_pairs_length.
Qed.

(** [calculate_rsi] past its guards. *)
Lemma calculate_rsi_unfold (prices : list PricePoint) (period : nat) :
  (0 < period)%nat -> (period + 1 <= List.length prices)%nat ->
  let ds := deltas (map snd prices) in
  let avg_gain := mean_of (Py.last_n period (map gain ds)) in
  let avg_loss := mean_of (Py.last_n period (map appended_loss ds)) in
  calculate_rsi prices period =
  Some (if Qeq_bool avg_loss 0 then 100 else 100 - 100 / (1 + avg_gain / avg_loss)).
Proof.
  intros Hp Hl ds avg_gain avg_loss. unfold calculate_rsi.
  assert (Hd : List.length ds = (List.length prices - 1)%nat)
    by (unfold ds; now rewrite deltas_length, length_map).
  destruct (List.length prices <? period + 1)%nat eqn:E; [apply Nat.ltb_lt in E; lia |].
  rewrite rsi_loop. fold ds.
  destruct (List.length (map gain ds) <? period)%nat eqn:E2;
    [apply Nat.ltb_lt in E2; rewrite length_map in E2; lia |].
  assert (N : forall g : Q -> Q, Py.last_n period (map g ds) <> []).
  { intros g H. apply (f_equal (@List.length Q)) in H.
    rewrite last_n_length in H; [simpl in H | | rewrite length_map]; lia. }
  rewrite !np_mean_nonempty by apply N.
  fold avg_gain avg_loss. destruct (Qeq_bool avg_loss 0); reflexivity.
Qed.

Lemma appended_loss_spec (d : Q) : appended_loss d == loss d.
Proof.
  unfold appended_loss, loss.
  destruct (Qgt_b d 0) eqn:E1, (Qgt_b 0 d) eqn:E2; try reflexivity.
  - apply Qgt_b_true in E1, E2. lra.
  - apply Qgt_b_false in E1, E2. rewrite Qabs_pos by lra. lra.
Qed.

Lemma avg_loss_spec (n : nat) (ds : list Q) :
  mean_of (Py.last_n n (map appended_loss ds)) == mean_of (Py.last_n n (map loss ds)).
Proof.
  apply mean_Qeq. rewrite !last_n_map.
  induction (Py.last_n n ds) as [| d l IH]; simpl; constructor;
    [apply appended_loss_spec | exact IH].
Qed.

(** C7.  With period 14, [calculate_rsi] returns 50 for fewer than 15
    points; otherwise, with gains the positive deltas and losses the
    absolute values of the negative deltas (0 otherwise) over the whole
    series, it averages the last 14 of each and returns 100 when the average
    loss is 0 and 100 - 100/(1 + avg_gain/avg_loss) otherwise; a series of
    at least 15 points whose deltas are all gains gets 100. *)
Theorem calculate_rsi_formula :
  forall prices : list PricePoint,
    let ds := deltas (map snd prices) in
    let avg_gain := mean_of (Py.last_n 14 (map gain ds)) in
    let avg_loss := mean_of (Py.last_n 14 (map loss ds)) in
    ((List.length prices < 15)%nat -> calculate_rsi prices 14 = Some 50) /\
    ((15 <= List.length prices)%nat ->
     exists rsi : Q,
       calculate_rsi prices 14 = Some rsi /\
       (avg_loss == 0 -> rsi = 100) /\
       (~ avg_loss == 0 -> rsi == 100 - 100 / (1 + avg_gain / avg_loss))) /\
    ((15 <= List.length prices)%nat -> Forall (fun d => 0 < d) ds ->
     calculate_rsi prices 14 = Some 100).
Proof.
  intros prices ds avg_gain avg_loss.
  assert (U : (15 <= List.length prices)%nat ->
              calculate_rsi prices 14 =
              Some (if Qeq_bool (mean_of (Py.last_n 14 (map appended_loss ds))) 0
                    then 100
                    else 100 - 100 / (1 + avg_gain
                                          / mean_of (Py.last_n 14 (map appended_loss ds))))).
  { intros H. apply (calculate_rsi_unfold prices 14); lia. }
  pose proof (avg_loss_spec 14 ds) as L. fold avg_loss in L.
  split; [| split].
  - intros H. unfold calculate_rsi.
    destruct (List.length prices <? 14 + 1)%nat eqn:E; [reflexivity |].
    apply Nat.ltb_ge in E. lia.
  - intros H. rewrite (U H).
    destruct (Qeq_bool (mean_of (Py.last_n 14 (map appended_loss ds))) 0) eqn:E.
    + exists 100. split; [reflexivity |]. split; [reflexivity |].
      intros N. exfalso. apply N. rewrite <- L. now apply Qeq_bool_iff.
    + eexists. split; [reflexivity |]. split.
      * intros Z. rewrite <- L in Z. apply Qeq_bool_iff in Z. congruence.
      * intros _. rewrite L. reflexivity.
  - intros H G. rewrite (U H).
    replace (Qeq_bool (mean_of (Py.last_n 14 (map appended_loss ds))) 0) with true;
      [reflexivity |].
    symmetry. apply Qeq_bool_iff. unfold mean_of.
    rewrite sum_zero; [unfold Qdiv; ring |].
    rewrite last_n_map. apply Forall_forall. intros x Hx.
    apply in_map_iff in Hx. destruct Hx as [d [<- Hd]].
    apply last_n_incl in Hd. rewrite Forall_forall in G. specialize (G d Hd).
    unfold appended_loss. apply Qgt_b_true in G. rewrite G. reflexivity.
Qed.

End RsiFacts.

Section RsiMonotoneFacts.

Import CryptoAnalyzer.

Lemma non_increasing_deltas (price_values : list Q) :
  non_increasing price_values -> Forall (fun d => d <= 0) (deltas price_values).
Proof.
  unfold non_increasing, deltas. intros H.
  apply Forall_forall. intros d Hd. apply in_map_iff in Hd.
  destruct Hd as [p [<- Hp]]. rewrite Forall_forall in H. specialize (H p Hp).
  cbv beta in H. lra.
Qed.

Lemma last_n_Forall {A : Type} (P : A -> Prop) (n : nat) (l : list A) :
  Forall P l -> Forall P (Py.last_n n l).
Proof.
  rewrite !Forall_forall. intros H x Hx. apply H. exact (last_n_incl n l x Hx).
Qed.

(** C5, as amended.  For a non-increasing series of at least period+1
    points (period at least 1), [calculate_rsi] returns 0, hence less than
    50, when one of the last [period] steps is a strict decrease; when the
    last [period] steps are all flat the average loss is 0 and it returns
    100. *)
Theorem rsi_non_increasing :
  forall (prices : list PricePoint) (period : nat),
    (0 < period)%nat -> (period + 1 <= List.length prices)%nat ->
    non_increasing (map snd prices) ->
    let recent := Py.last_n period (deltas (map snd prices)) in
    (Exists (fun d => d < 0) recent ->
     exists rsi : Q, calculate_rsi prices period = Some rsi /\ rsi == 0 /\ rsi < 50) /\
    (Forall (fun d => d == 0) recent -> calculate_rsi prices period = Some 100).
Proof.
  intros prices period Hp Hl Hmono recent.
  pose proof (calculate_rsi_unfold prices period Hp Hl) as U. cbv zeta in U.
  rewrite !last_n_map in U. fold recent in U.
  assert (Hle : Forall (fun d => d <= 0) recent)
    by (apply last_n_Forall, non_increasing_deltas, Hmono).
  assert (Hne : map appended_loss recent <> []).
  { intros H. apply (f_equal (@List.length Q)) in H. rewrite length_map in H.
    unfold recent in H. rewrite last_n_length in H; [simpl in H; lia | lia |].
    rewrite deltas_length, length_map. unfold PricePoint in *. lia. }
  split.
  - intros Hex.
    assert (Hg : mean_of (map gain recent) == 0).
    { unfold mean_of. rewrite sum_zero; [unfold Qdiv; ring |].
      apply Forall_forall. intros x Hx. apply in_map_iff in Hx.
      destruct Hx as [d [<- Hd]]. rewrite Forall_forall in Hle. specialize (Hle d Hd).
      cbv beta in Hle. apply Qgt_b_false in Hle. unfold gain. rewrite Hle. reflexivity. }
    assert (Hl0 : 0 < mean_of (map appended_loss recent)).
    { unfold mean_of, Qdiv. apply Qmult_lt_0_compat.
      - apply sum_pos.
        + apply Forall_forall. intros x Hx. apply in_map_iff in Hx.
          destruct Hx as [d [<- _]]. unfold appended_loss.
          destruct (Qgt_b d 0); [lra | apply Qabs_nonneg].
        + apply Exists_exists in Hex. destruct Hex as [d [Hd Hneg]].
          apply Exists_exists. exists (appended_loss d). split; [now apply in_map |].
          unfold appended_loss.
          destruct (Qgt_b d 0) eqn:E; [apply Qgt_b_true in E; lra |].
          rewrite Qabs_neg by lra. lra.
      - apply Qinv_lt_0_compat, mean_pos_den, Hne. }
    rewrite U.
    destruct (Qeq_bool (mean_of (map appended_loss recent)) 0) eqn:E.
    { apply Qeq_bool_iff in E. lra. }
    eexists. split; [reflexivity |].
    assert (Z : mean_of (map gain recent) / mean_of (map appended_loss recent) == 0)
      by (rewrite Hg; unfold Qdiv; ring).
    rewrite Z. split; [reflexivity | reflexivity].
  - intros Hflat. rewrite U.
    replace (Qeq_bool (mean_of (map appended_loss recent)) 0) with true; [reflexivity |].
    symmetry. apply Qeq_bool_iff. unfold mean_of.
    rewrite sum_zero; [unfold Qdiv; ring |].
    apply Forall_forall. intros x Hx. apply in_map_iff in Hx.
    destruct Hx as [d [<- Hd]]. rewrite Forall_forall in Hflat. specialize (Hflat d Hd).
    cbv beta in Hflat. unfold appended_loss.
    destruct (Qgt_b d 0); [reflexivity |]. rewrite Hflat. reflexivity.
Qed.

End RsiMonotoneFacts.

Section RsiExamples.

Import CryptoAnalyzer.

(** C5 fails as stated: a flat series of 15 points is non-increasing and
    has period+1 points, yet its RSI is 100. *)
Lemma rsi_flat_series_counterexample :
  non_increasing (map snd flat_series) /\
  (14 + 1 <= List.length flat_series)%nat /\
  calculate_rsi flat_series 14 = Some 100 /\
  ~ 100 < 50.
Proof.
  split; [| split; [| split]].
  - unfold non_increasing. simpl. repeat (constructor; [apply Qle_refl |]). constructor.
  - simpl. lia.
  - vm_compute. reflexivity.
  - intros H. discriminate H.
Qed.

Lemma rsi_non_increasing_witness :
  (0 < 14)%nat /\ (14 + 1 <= List.length falling_series)%nat /\
  non_increasing (map snd falling_series) /\
  Exists (fun d => d < 0) (Py.last_n 14 (deltas (map snd falling_series))) /\
  exists rsi : Q, calculate_rsi falling_series 14 = Some rsi /\ rsi == 0 /\ rsi < 50.
Proof.
  assert (H1 : (0 < 14)%nat) by lia.
  assert (H2 : (14 + 1 <= List.length falling_series)%nat) by (simpl; lia).
  assert (H3 : non_increasing (map snd falling_series)).
  { unfold non_increasing. simpl. repeat (constructor; [discriminate |]). constructor. }
  assert (H4 : Exists (fun d => d < 0) (Py.last_n 14 (deltas (map snd falling_series)))).
  { simpl. left. reflexivity. }
  split; [exact H1 |]. split; [exact H2 |]. split; [exact H3 |]. split; [exact H4 |].
  exact (proj1 (rsi_non_increasing falling_series 14 H1 H2 H3) H4).
Defined.

Lemma calculate_rsi_formula_witness :
  (15 <= List.length rising_series)%nat /\
  Forall (fun d => 0 < d) (deltas (map snd rising_series)) /\
  calculate_rsi rising_series 14 = Some 100.
Proof.
  assert (H1 : (15 <= List.length rising_series)%nat) by (simpl; lia).
  assert (H2 : Forall (fun d => 0 < d) (deltas (map snd rising_series))).
  { simpl. repeat (constructor; [reflexivity |]). constructor. }
  split; [exact H1 |]. split; [exact H2 |].
  exact (proj2 (proj2 (calculate_rsi_formula rising_series)) H1 H2).
Defined.

End RsiExamples.

Section VolatilityFacts.

Import CryptoAnalyzer.

(** *** Volatility *)

(** The list [price_changes] that the loop of [calculate_volatility]
    builds. *)
Lemma volatility_loop (prices : list PricePoint) :
  fold_left (volatility_step prices) (seq 1 (List.length prices - 1)) []
  = returns_spec (map snd prices).
Proof.
  rewrite (index_loop_pairs prices (0%Z, 0) (volatility_step prices)
             (fun acc a b =>
                if Qne_b (snd a) 0 then acc ++ [(snd b - snd a) / snd a] else acc)
             ltac:(intros acc i; reflexivity)
             prices 0 [] eq_refl).
  unfold returns_spec. rewrite adjacent_pairs_map.
  enough (G : forall (ps : list (PricePoint * PricePoint)) (acc : list Q),
             fold_left (fun acc p =>
                          if Qne_b (snd (fst p)) 0
                          then acc ++ [(snd (snd p) - snd (fst p)) / snd (fst p)]
                          else acc) ps acc
             = acc ++ flat_map (fun p => if Qne_b (fst p) 0
                                         then [(snd p - fst p) / fst p] else [])
                        (map (fun p => (snd (fst p), snd (snd p))) ps))
    by (rewrite G; reflexivity).
  induction ps as [| p ps IH]; intros acc; cbn [fold_left map flat_map fst snd].
  - now rewrite app_nil_r.
  - rewrite IH. destruct (Qne_b _ 0); [| reflexivity].
    now rewrite <- app_assoc.
Qed.

(** [np.std] is the population standard deviation. *)
Lemma np_std_population (l : list Q) : np_std l = population_std l.
Proof.
  unfold np_std, population_std. f_equal. apply Qeq_eqR.
  unfold variance, population_variance, mean_of. rewrite length_map.
  apply Qmult_comp; [| reflexivity].
  apply sum_Qeq. generalize (Py.sum l / inject_Z (Z.of_nat (List.length l))). intros m.
  induction l as [| x l IH]; cbn [map]; constructor; [| exact IH].
  apply Qabs_case; intros _; ring.
Qed.

Lemma population_variance_zero (l : list Q) :
  Forall (fun x => x == 0) l -> population_variance l == 0.
Proof.
  intros H. unfold population_variance.
  assert (M : mean_of l == 0) by (unfold mean_of; rewrite (sum_zero l H); unfold Qdiv; ring).
  rewrite sum_zero; [unfold Qdiv; ring |].
  apply Forall_forall. intros y Hy. apply in_map_iff in Hy. destruct Hy as [x [<- Hx]].
  rewrite Forall_forall in H. rewrite (H x Hx), M. reflexivity.
Qed.

(** The returns of a series at one price are all 0. *)
Lemma returns_constant (c : Q) (price_values : list Q) :
  Forall (fun p => p == c) price_values ->
  Forall (fun x => x == 0) (returns_spec price_values).
Proof.
  intros H. unfold returns_spec.
  induction price_values as [| a t IH]; [constructor |].
  destruct t as [| b t']; [constructor |].
  pose proof (Forall_inv H) as Ha. apply Forall_inv_tail in H.
  pose proof (Forall_inv H) as Hb. cbv beta in Ha, Hb.
  specialize (IH H).
  cbn [adjacent_pairs flat_map fst snd] in *.
  destruct (Qne_b a 0) eqn:E; [| exact IH].
  constructor; [| exact IH].
  unfold Qne_b in E. apply negb_true_iff in E.
  assert (N : ~ a == 0) by (intros Z; apply Qeq_bool_iff in Z; congruence).
  rewrite Hb, <- Ha. field. exact N.
Qed.

(** C8.  [calculate_volatility] returns 0 for fewer than 2 points and when
    no return could be computed; otherwise 100 times the population standard
    deviation of the returns (p[i]-p[i-1])/p[i-1], taken over the steps
    whose previous price is not 0.  A series at one price gets 0. *)
Theorem calculate_volatility_formula :
  forall prices : list PricePoint,
    let returns := returns_spec (map snd prices) in
    ((List.length prices < 2)%nat -> calculate_volatility prices = 0%R) /\
    ((2 <= List.length prices)%nat -> returns = [] -> calculate_volatility prices = 0%R) /\
    ((2 <= List.length prices)%nat -> returns <> [] ->
     calculate_volatility prices = (population_std returns * 100)%R) /\
    (forall c : Q, Forall (fun point => snd point == c) prices ->
                   calculate_volatility prices = 0%R).
Proof.
  intros prices returns.
  assert (U : (2 <= List.length prices)%nat ->
              calculate_volatility prices =
              match returns with
              | [] => 0%R
              | _ :: _ => (population_std returns * 100)%R
              end).
  { intros H. unfold calculate_volatility.
    destruct (List.length prices <? 2)%nat eqn:E; [apply Nat.ltb_lt in E; lia |].
    rewrite volatility_loop. fold returns.
    destruct returns; [reflexivity | now rewrite np_std_population]. }
  assert (S : (List.length prices < 2)%nat -> calculate_volatility prices = 0%R).
  { intros H. unfold calculate_volatility.
    destruct (List.length prices <? 2)%nat eqn:E; [reflexivity |].
    apply Nat.ltb_ge in E. lia. }
  split; [exact S |]. split; [| split].
  - intros H E. rewrite (U H), E. reflexivity.
  - intros H N. rewrite (U H). destruct returns; [congruence | reflexivity].
  - intros c H.
    destruct (Nat.lt_ge_cases (List.length prices) 2) as [Hs | Hl]; [now apply S |].
    rewrite (U Hl). destruct returns as [| r rs] eqn:E; [reflexivity |].
    assert (Z : Forall (fun x => x == 0) returns).
    { apply (returns_constant c). apply Forall_forall. intros p Hp.
      apply in_map_iff in Hp. destruct Hp as [point [<- Hpoint]].
      rewrite Forall_forall in H. exact (H point Hpoint). }
    rewrite <- E. unfold population_std.
    rewrite (Qeq_eqR _ _ (population_variance_zero returns Z)).
    rewrite RMicromega.Q2R_0, sqrt_0. Lra.lra.
Qed.

Lemma calculate_volatility_formula_witness :
  Forall (fun point => snd point == 100) flat_series /\
  calculate_volatility flat_series = 0%R.
Proof.
  assert (H : Forall (fun point => snd point == 100) flat_series).
  { unfold flat_series. simpl. repeat (constructor; [reflexivity |]). constructor. }
  split; [exact H |].
  exact (proj2 (proj2 (proj2 (calculate_volatility_formula flat_series))) 100 H).
Defined.

End VolatilityFacts.

Section MomentumFacts.

Import CryptoAnalyzer.

Variable get_historical_data : list string -> Z -> list (string * option MarketChart).

(** C9.  On a fetched series, [get_price_momentum] returns 0 when the
    series has fewer than 2 points or starts at price 0, and otherwise
    (last - first) / first * 100; when the last price is twice a nonzero
    first price this is 100. *)
Theorem momentum_formula :
  forall (crypto_id : string) (days : Z) (series : list PricePoint),
    Py.dict_get (get_historical_data [crypto_id] days) crypto_id
    = Some (Some {| prices := Some series |}) ->
    let first_price := snd (hd (0%Z, 0) series) in
    let last_price := snd (last series (0%Z, 0)) in
    let momentum := get_price_momentum get_historical_data crypto_id days in
    ((List.length series < 2)%nat \/ first_price == 0 -> momentum = 0) /\
    ((2 <= List.length series)%nat -> ~ first_price == 0 ->
     momentum = (last_price - first_price) / first_price * 100) /\
    ((2 <= List.length series)%nat -> ~ first_price == 0 ->
     last_price == 2 * first_price -> momentum == 100).
Proof.
  intros crypto_id days series Hfetch first_price last_price momentum.
  assert (U : (2 <= List.length series)%nat -> ~ first_price == 0 ->
              momentum = (last_price - first_price) / first_price * 100).
  { intros Hl Hn. unfold momentum, get_price_momentum. rewrite Hfetch. cbn [prices].
    destruct (List.length series <? 2)%nat eqn:E; [apply Nat.ltb_lt in E; lia |].
    fold first_price last_price.
    destruct (Qeq_bool first_price 0) eqn:E0; [| reflexivity].
    apply Qeq_bool_iff in E0. contradiction. }
  split; [| split].
  - intros H. unfold momentum, get_price_momentum. rewrite Hfetch. cbn [prices].
    destruct (List.length series <? 2)%nat eqn:E; [reflexivity |].
    fold first_price.
    destruct (Qeq_bool first_price 0) eqn:E0; [reflexivity |].
    exfalso. destruct H as [H | H].
    + apply Nat.ltb_ge in E. lia.
    + apply Qeq_bool_iff in H. congruence.
  - exact U.
  - intros Hl Hn Hd. rewrite (U Hl Hn), Hd. field. exact Hn.
Qed.

End MomentumFacts.

Section MomentumExamples.

Import CryptoAnalyzer.

Lemma momentum_formula_witness :
  let provider := fun (ids : list string) (_ : Z) =>
    map (fun id => (id, Some {| prices := Some [ (0%Z, 50); (1%Z, 70); (2%Z, 100) ] |})) ids in
  Py.dict_get (provider [ "bitcoin"%string ] 7%Z) "bitcoin"
  = Some (Some {| prices := Some [ (0%Z, 50); (1%Z, 70); (2%Z, 100) ] |}) /\
  get_price_momentum provider "bitcoin" 7 == 100.
Proof.
  intros provider.
  assert (H : Py.dict_get (provider [ "bitcoin"%string ] 7%Z) "bitcoin"
              = Some (Some {| prices := Some [ (0%Z, 50); (1%Z, 70); (2%Z, 100) ] |}))
    by reflexivity.
  split; [exact H |].
  apply (proj2 (proj2 (momentum_formula provider "bitcoin" 7%Z _ H))).
  - simpl. lia.
  - discriminate.
  - reflexivity.
Defined.

End MomentumExamples.

(** ** Recommendation label *)

Section RecommendationFacts.

Import Recommendation.

Lemma in_str_in_list (x : string) (l : list string) :
  In x l -> Py.str_in_list x l = true.
Proof.
  intros H. unfold Py.str_in_list. apply existsb_exists.
  exists x. split; [exact H | apply String.eqb_refl].
Qed.

(** X1.  [get_crypto_recommendation] advises buying (STRONG BUY, BUY,
    CONSIDER, SPECULATIVE BUY) only for a record whose 24h change is present
    and strictly positive: a missing, null, zero or negative change never
    gets a buy label, whatever the rank. *)
Theorem recommendation_buy_needs_gain :
  forall (crypto_data : CryptoData) (risk_tolerance : RulesEngine.RiskTier),
    In (get_crypto_recommendation crypto_data risk_tolerance) buy_labels ->
    exists change : Q,
      price_change_percentage_24h crypto_data = Value change /\ 0 < change.
Proof.
  intros [change rank] risk H. apply in_str_in_list in H.
  unfold get_crypto_recommendation, recommendation_of in H.
  cbn [get_field Recommendation.price_change_percentage_24h
         Recommendation.market_cap_rank] in *.
  destruct change as [| | c].
  - exfalso. destruct rank as [| | r]; cbn [get_field] in H.
    + vm_compute in H. discriminate H.
    + vm_compute in H. discriminate H.
    + destruct (r <=? 10)%Z, (r <=? 25)%Z; vm_compute in H; discriminate H.
  - exfalso. destruct rank as [| | r]; cbn [get_field] in H.
    + vm_compute in H. discriminate H.
    + vm_compute in H. discriminate H.
    + destruct (r <=? 10)%Z, (r <=? 25)%Z; vm_compute in H; discriminate H.
  - exists c. split; [reflexivity |].
    destruct (CryptoAnalyzer.Qgt_b c 0) eqn:P; [now apply Qgt_b_true in P |].
    exfalso. apply Qgt_b_false in P.
    assert (N : forall k : Q, 0 <= k -> CryptoAnalyzer.Qgt_b c k = false)
      by (intros k Hk; apply Qgt_b_false; lra).
    destruct rank as [| | r]; cbn [get_field] in H.
    + rewrite (N 15) in H by lra. vm_compute in H. discriminate H.
    + vm_compute in H. discriminate H.
    + rewrite (N 5), (N 0), (N 10), (N 15) in H by lra.
      destruct (CryptoAnalyzer.Qgt_b c (- (5))), (r <=? 10)%Z, (r <=? 25)%Z;
        vm_compute in H; discriminate H.
Qed.

Lemma recommendation_buy_needs_gain_witness :
  let crypto_data := {| price_change_percentage_24h := Value 6; market_cap_rank := Value 1%Z |} in
  In (get_crypto_recommendation crypto_data RulesEngine.Moderate) buy_labels /\
  exists change : Q,
    price_change_percentage_24h crypto_data = Value change /\ 0 < change.
Proof.
  intros crypto_data.
  assert (H : In (get_crypto_recommendation crypto_data RulesEngine.Moderate) buy_labels)
    by (left; reflexivity).
  split; [exact H |].
  exact (recommendation_buy_needs_gain crypto_data RulesEngine.Moderate H).
Defined.

(** X2.  The NEUTRAL label is the answer exactly when the rank or the 24h
    change is present but null (the comparison with [None] raises and is
    caught); absent keys do not raise, they default to rank 100 and change
    0, which is labelled AVOID. *)
Theorem recommendation_neutral_iff_null :
  (forall (crypto_data : CryptoData) (risk_tolerance : RulesEngine.RiskTier),
      get_crypto_recommendation crypto_data risk_tolerance = label_neutral <->
      (market_cap_rank crypto_data = Null \/ price_change_percentage_24h crypto_data = Null)) /\
  (forall risk_tolerance : RulesEngine.RiskTier,
      get_crypto_recommendation
        {| price_change_percentage_24h := Missing; market_cap_rank := Missing |}
        risk_tolerance = label_avoid).
Proof.
  split; [| reflexivity].
  intros [change rank] risk.
  unfold get_crypto_recommendation, recommendation_of. cbn [get_field
    Recommendation.price_change_percentage_24h Recommendation.market_cap_rank].
  split.
  - intros H.
    destruct rank as [| | r]; [| now left |];
      (destruct change as [| | c]; [| now right |]); exfalso; cbn [get_field] in H.
    + vm_compute in H. discriminate H.
    + destruct (CryptoAnalyzer.Qgt_b c 5), (CryptoAnalyzer.Qgt_b c 0),
        (CryptoAnalyzer.Qgt_b c (- (5))), (CryptoAnalyzer.Qgt_b c 10),
        (CryptoAnalyzer.Qgt_b c 15); vm_compute in H; discriminate H.
    + destruct (r <=? 10)%Z, (r <=? 25)%Z; vm_compute in H; discriminate H.
    + destruct (r <=? 10)%Z, (r <=? 25)%Z, (CryptoAnalyzer.Qgt_b c 5),
        (CryptoAnalyzer.Qgt_b c 0), (CryptoAnalyzer.Qgt_b c (- (5))),
        (CryptoAnalyzer.Qgt_b c 10), (CryptoAnalyzer.Qgt_b c 15);
        vm_compute in H; discriminate H.
  - intros [H | H]; cbn in H; subst.
    + reflexivity.
    + destruct rank as [| | r]; cbn [get_field]; try reflexivity.
      destruct (r <=? 10)%Z, (r <=? 25)%Z; reflexivity.
Qed.

Ltac label_cases change :=
  repeat match goal with
         | |- context [CryptoAnalyzer.Qgt_b change ?k] =>
             let E := fresh "E" in
             destruct (CryptoAnalyzer.Qgt_b change k) eqn:E;
             [apply Qgt_b_true in E | apply Qgt_b_false in E]
         end;
  (split;
   (split;
    [ intros H; try (vm_compute in H; discriminate H); split; (lia || lra)
    | intros [H1 H2]; try reflexivity; exfalso; (lia || lra) ])).

(** X3.  With both numbers present, STRONG BUY is given exactly to a rank of
    at most 10 with a change above 5, and AVOID exactly to a rank beyond 25
    with a change of at most 15. *)
Theorem recommendation_strong_buy_and_avoid :
  forall (rank : Z) (change : Q) (risk_tolerance : RulesEngine.RiskTier),
    let label :=
      get_crypto_recommendation
        {| price_change_percentage_24h := Value change; market_cap_rank := Value rank |}
        risk_tolerance in
    (label = label_strong_buy <-> (rank <= 10)%Z /\ 5 < change) /\
    (label = label_avoid <-> (25 < rank)%Z /\ change <= 15).
Proof.
  intros rank change risk label. subst label.
  unfold get_crypto_recommendation, recommendation_of. cbn [get_field
    Recommendation.price_change_percentage_24h Recommendation.market_cap_rank].
  destruct (rank <=? 10)%Z eqn:R10.
  - apply Z.leb_le in R10. label_cases change.
  - apply Z.leb_gt in R10. destruct (rank <=? 25)%Z eqn:R25.
    + apply Z.leb_le in R25. label_cases change.
    + apply Z.leb_gt in R25. label_cases change.
Qed.

End RecommendationFacts.

(** ** Position sizing: bounds and monotonicity *)

Section PositionSizeBounds.

Import RulesEngine.

Lemma Qlt_b_true (x y : Q) : Qlt_b x y = true <-> x < y.
Proof. apply (Qgt_b_true y x). Qed.

Lemma Qlt_b_false (x y : Q) : Qlt_b x y = false <-> y <= x.
Proof. apply (Qgt_b_false y x). Qed.

Lemma Qge_b_true (x y : Q) : Qge_b x y = true <-> y <= x.
Proof. apply Qle_bool_iff. Qed.

Lemma Qge_b_false (x y : Q) : Qge_b x y = false <-> x < y.
Proof.
  unfold Qge_b. split; intros H.
  - apply Qnot_le_lt. intros L. apply Qle_bool_iff in L. congruence.
  - destruct (Qle_bool y x) eqn:E; [| reflexivity].
    apply Qle_bool_iff in E. lra.
Qed.

(** Replace every threshold test on rationals by the inequality it decides. *)
Ltac thresholds :=
  repeat match goal with
         | |- context [Qgt_b ?a ?b] =>
             let E := fresh "E" in
             destruct (Qgt_b a b) eqn:E;
             [apply Qgt_b_true in E | apply Qgt_b_false in E]
         | |- context [Qlt_b ?a ?b] =>
             let E := fresh "E" in
             destruct (Qlt_b a b) eqn:E;
             [apply Qlt_b_true in E | apply Qlt_b_false in E]
         | |- context [Qge_b ?a ?b] =>
             let E := fresh "E" in
             destruct (Qge_b a b) eqn:E;
             [apply Qge_b_true in E | apply Qge_b_false in E]
         | |- context [(?a <=? ?b)%Z] =>
             let E := fresh "E" in
             destruct (a <=? b)%Z eqn:E;
             [apply Z.leb_le in E | apply Z.leb_gt in E]
         | |- context [(?a >? ?b)%Z] =>
             let E := fresh "E" in
             destruct (a >? b)%Z eqn:E;
             [apply Z.gtb_lt in E | rewrite Z.gtb_ltb in E; apply Z.ltb_ge in E]
         end.

Lemma position_size_product
    (volatility : Q) (rank : Z) (score : Q) (tier : RiskTier) :
  _calculate_position_size volatility rank score tier
  == Qmin (base_allocation tier * volatility_factor volatility
           * rank_factor rank * sustainability_factor score)
          (max_allocation tier).
Proof.
  unfold _calculate_position_size, volatility_factor, rank_factor, sustainability_factor.
  apply Q.min_compat; [| reflexivity].
  destruct (Qgt_b volatility 40), (Qgt_b volatility 25), (Qlt_b volatility 15),
    (rank <=? 5)%Z, (rank <=? 20)%Z, (rank >? 50)%Z,
    (Qge_b score 80), (Qlt_b score 40); ring.
Qed.

Lemma volatility_factor_range (volatility : Q) :
  5 # 10 <= volatility_factor volatility <= 12 # 10.
Proof. unfold volatility_factor. thresholds; split; lra. Qed.

Lemma rank_factor_range (rank : Z) : 7 # 10 <= rank_factor rank <= 13 # 10.
Proof. unfold rank_factor. thresholds; split; lra. Qed.

Lemma sustainability_factor_range (score : Q) :
  9 # 10 <= sustainability_factor score <= 11 # 10.
Proof. unfold sustainability_factor. thresholds; split; lra. Qed.

Lemma volatility_factor_antitone (v v' : Q) :
  v <= v' -> volatility_factor v' <= volatility_factor v.
Proof. intros H. unfold volatility_factor. thresholds; lra. Qed.

Lemma rank_factor_antitone (r r' : Z) :
  (r <= r')%Z -> rank_factor r' <= rank_factor r.
Proof. intros H. unfold rank_factor. thresholds; try lra; lia. Qed.

Lemma sustainability_factor_monotone (s s' : Q) :
  s <= s' -> sustainability_factor s <= sustainability_factor s'.
Proof. intros H. unfold sustainability_factor. thresholds; lra. Qed.

Lemma Qmult_le_mono (a a' c c' : Q) :
  0 <= a -> a <= a' -> 0 <= c -> c <= c' -> a * c <= a' * c'.
Proof.
  intros Ha Haa Hc Hcc. apply Qle_trans with (a' * c).
  - apply Qmult_le_compat_r; assumption.
  - rewrite (Qmult_comm a' c), (Qmult_comm a' c').
    apply Qmult_le_compat_r; [assumption | lra].
Qed.

Lemma base_allocation_pos (tier : RiskTier) : 0 < base_allocation tier.
Proof. destruct tier; reflexivity. Qed.

(** X4.  The suggested position size is always positive, at least 31.5% of
    the tier's base allocation (all three factors at their lowest) and at
    most the tier maximum.  The cap is never the binding term for the
    Conservative and Moderate tiers, whose largest product is 8.58 and
    17.16; it binds for Aggressive, where the largest product 34.32 is cut
    to 30. *)
Theorem position_size_bounds :
  (forall (volatility : Q) (rank : Z) (score : Q) (tier : RiskTier),
      let size := _calculate_position_size volatility rank score tier in
      0 < size /\ base_allocation tier * (315 # 1000) <= size /\ size <= max_allocation tier) /\
  (forall (volatility : Q) (rank : Z) (score : Q) (tier : RiskTier),
      tier <> Aggressive ->
      _calculate_position_size volatility rank score tier
      == base_allocation tier * volatility_factor volatility
         * rank_factor rank * sustainability_factor score) /\
  _calculate_position_size 10 1 90 Aggressive == 30.
Proof.
  split; [| split; [| vm_compute; reflexivity]].
  - intros volatility rank score tier size. subst size.
    rewrite position_size_product.
    pose proof (volatility_factor_range volatility) as [V1 V2].
    pose proof (rank_factor_range rank) as [R1 R2].
    pose proof (sustainability_factor_range score) as [S1 S2].
    pose proof (base_allocation_pos tier) as B.
    set (b := base_allocation tier) in *.
    set (fv := volatility_factor volatility) in *.
    set (fr := rank_factor rank) in *.
    set (fs := sustainability_factor score) in *.
    assert (P1 : b * (5 # 10) <= b * fv) by nra.
    assert (P2 : b * (5 # 10) * (7 # 10) <= b * fv * fr) by nra.
    assert (P3 : b * (5 # 10) * (7 # 10) * (9 # 10) <= b * fv * fr * fs) by nra.
    assert (M : b * (315 # 1000) <= max_allocation tier)
      by (subst b; destruct tier; vm_compute; discriminate).
    destruct (Q.min_spec_le (b * fv * fr * fs) (max_allocation tier)) as [[L E] | [L E]];
      rewrite E; repeat split; try lra; apply Q.le_min_r || idtac.
  - intros volatility rank score tier T.
    rewrite position_size_product.
    pose proof (volatility_factor_range volatility) as [V1 V2].
    pose proof (rank_factor_range rank) as [R1 R2].
    pose proof (sustainability_factor_range score) as [S1 S2].
    set (fv := volatility_factor volatility) in *.
    set (fr := rank_factor rank) in *.
    set (fs := sustainability_factor score) in *.
    apply Q.min_l.
    assert (P1 : fv * fr <= (12 # 10) * (13 # 10)) by nra.
    assert (P2 : fv * fr * fs <= (12 # 10) * (13 # 10) * (11 # 10)) by nra.
    destruct tier; [| | congruence]; cbn [base_allocation max_allocation]; nra.
Qed.

Lemma position_size_bounds_witness :
  Moderate <> Aggressive /\
  _calculate_position_size 10 3 85 Moderate
  == base_allocation Moderate * volatility_factor 10 * rank_factor 3 * sustainability_factor 85.
Proof.
  assert (H : Moderate <> Aggressive) by discriminate.
  split; [exact H |].
  exact (proj1 (proj2 position_size_bounds) 10 3%Z 85 Moderate H).
Defined.

(** X5.  The suggested position size never grows when volatility rises or
    when the market-cap rank gets worse (larger), and never shrinks when the
    sustainability score rises. *)
Theorem position_size_monotone :
  forall (volatility volatility' : Q) (rank rank' : Z) (score score' : Q) (tier : RiskTier),
    volatility <= volatility' -> (rank <= rank')%Z -> score' <= score ->
    _calculate_position_size volatility' rank' score' tier
    <= _calculate_position_size volatility rank score tier.
Proof.
  intros v v' r r' s s' tier Hv Hr Hs.
  rewrite !position_size_product.
  apply Q.min_le_compat_r.
  pose proof (volatility_factor_antitone v v' Hv) as A.
  pose proof (rank_factor_antitone r r' Hr) as B.
  pose proof (sustainability_factor_monotone s' s Hs) as C.
  pose proof (volatility_factor_range v') as [V1 _].
  pose proof (rank_factor_range r') as [R1 _].
  pose proof (sustainability_factor_range s') as [S1 _].
  pose proof (volatility_factor_range v) as [V2 _].
  pose proof (rank_factor_range r) as [R2 _].
  pose proof (base_allocation_pos tier) as P.
  set (b := base_allocation tier) in *.
  set (fv := volatility_factor v) in *. set (fv' := volatility_factor v') in *.
  set (fr := rank_factor r) in *. set (fr' := rank_factor r') in *.
  set (fs := sustainability_factor s) in *. set (fs' := sustainability_factor s') in *.
  assert (P1 : b * fv' <= b * fv) by (apply Qmult_le_mono; lra).
  assert (P2 : b * fv' * fr' <= b * fv * fr)
    by (apply Qmult_le_mono; try lra; apply Qmult_le_0_compat; lra).
  apply Qmult_le_mono; try lra.
  repeat apply Qmult_le_0_compat; lra.
Qed.

Lemma position_size_monotone_witness :
  10 <= 45 /\ (3 <= 60)%Z /\ 30 <= 85 /\
  _calculate_position_size 45 60 30 Aggressive <= _calculate_position_size 10 3 85 Aggressive.
Proof.
  assert (H1 : 10 <= 45) by discriminate.
  assert (H2 : (3 <= 60)%Z) by lia.
  assert (H3 : 30 <= 85) by discriminate.
  split; [exact H1 |]. split; [exact H2 |]. split; [exact H3 |].
  exact (position_size_monotone 10 45 3%Z 60%Z 85 30 Aggressive H1 H2 H3).
Defined.

End PositionSizeBounds.

(** ** Indicators: range, locality and scale *)

Section IndicatorBounds.

Import CryptoAnalyzer.

Lemma gain_nonneg (d : Q) : 0 <= gain d.
Proof.
  unfold gain. destruct (Qgt_b d 0) eqn:E; [apply Qgt_b_true in E |]; lra.
Qed.

Lemma appended_loss_nonneg (d : Q) : 0 <= appended_loss d.
Proof.
  unfold appended_loss. destruct (Qgt_b d 0); [lra | apply Qabs_nonneg].
Qed.

Lemma mean_nonneg (l : list Q) : Forall (fun x => 0 <= x) l -> 0 <= mean_of l.
Proof.
  intros H. unfold mean_of, Qdiv.
  apply Qmult_le_0_compat; [now apply sum_nonneg |].
  apply Qinv_le_0_compat. change 0 with (inject_Z 0). rewrite <- Zle_Qle. lia.
Qed.

Lemma mean_map_nonneg (f : Q -> Q) (n : nat) (l : list Q) :
  (forall d, 0 <= f d) -> 0 <= mean_of (Py.last_n n (map f l)).
Proof.
  intros H. apply mean_nonneg, last_n_Forall, Forall_forall.
  intros x Hx. apply in_map_iff in Hx. destruct Hx as [d [<- _]]. apply H.
Qed.

(** X6.  For every series and every period of at least 1, [calculate_rsi]
    returns a number (never [nan]) and that number lies between 0 and
    100. *)
Theorem rsi_range :
  forall (prices : list PricePoint) (period : nat),
    (0 < period)%nat ->
    exists rsi : Q, calculate_rsi prices period = Some rsi /\ 0 <= rsi /\ rsi <= 100.
Proof.
  intros prices period Hp.
  destruct (Nat.lt_ge_cases (List.length prices) (period + 1)) as [Hs | Hl].
  - exists 50. unfold calculate_rsi.
    apply Nat.ltb_lt in Hs. rewrite Hs. repeat split; discriminate.
  - pose proof (calculate_rsi_unfold prices period Hp Hl) as U. cbv zeta in U.
    rewrite U. clear U.
    set (ds := deltas (map snd prices)).
    pose proof (mean_map_nonneg gain period ds gain_nonneg) as G.
    pose proof (mean_map_nonneg appended_loss period ds appended_loss_nonneg) as L.
    set (avg_gain := mean_of (Py.last_n period (map gain ds))) in *.
    set (avg_loss := mean_of (Py.last_n period (map appended_loss ds))) in *.
    destruct (Qeq_bool avg_loss 0) eqn:E.
    + exists 100. repeat split; discriminate.
    + assert (N : ~ avg_loss == 0) by (intros Z; apply Qeq_bool_iff in Z; congruence).
      assert (P : 0 < avg_loss) by lra.
      assert (RS : 0 <= avg_gain / avg_loss).
      { apply Qle_shift_div_l; [exact P | lra]. }
      assert (D1 : 0 < 100 / (1 + avg_gain / avg_loss)).
      { apply Qlt_shift_div_l; lra. }
      assert (D2 : 100 / (1 + avg_gain / avg_loss) <= 100).
      { apply Qle_shift_div_r; lra. }
      eexists. split; [reflexivity |]. split; lra.
Qed.

Lemma rsi_range_witness :
  (0 < 14)%nat /\
  exists rsi : Q, calculate_rsi falling_series 14 = Some rsi /\ 0 <= rsi /\ rsi <= 100.
Proof.
  assert (H : (0 < 14)%nat) by lia.
  split; [exact H |].
  exact (rsi_range falling_series 14 H).
Defined.

Lemma adjacent_pairs_skipn {A : Type} (l : list A) :
  forall k : nat, adjacent_pairs (skipn k l) = skipn k (adjacent_pairs l).
Proof.
  induction l as [| a l IH]; intros k.
  - destruct k; reflexivity.
  - destruct k as [| k]; [reflexivity |].
    destruct l as [| b t].
    + destruct k; reflexivity.
    + change (skipn (S k) (a :: b :: t)) with (skipn k (b :: t)).
      change (adjacent_pairs (a :: b :: t)) with ((a, b) :: adjacent_pairs (b :: t)).
      change (skipn (S k) ((a, b) :: adjacent_pairs (b :: t)))
        with (skipn k (adjacent_pairs (b :: t))).
      apply IH.
Qed.

Lemma deltas_last_n (n : nat) (price_values : list Q) :
  (0 < n)%nat ->
  deltas (Py.last_n (n + 1) price_values) = Py.last_n n (deltas price_values).
Proof.
  intros H. destruct n as [| n]; [lia |].
  replace (S n + 1)%nat with (S (S n)) by lia.
  unfold Py.last_n, deltas.
  rewrite adjacent_pairs_skipn, skipn_map, length_map, adjacent_pairs_length.
  do 2 f_equal. lia.
Qed.

(** X7.  With a period of at least 1, [calculate_rsi] depends only on the
    last period+1 points of the series: dropping the older points leaves
    the result unchanged. *)
Theorem rsi_uses_last_points :
  forall (prices : list PricePoint) (period : nat),
    (0 < period)%nat -> (period + 1 <= List.length prices)%nat ->
    calculate_rsi (Py.last_n (period + 1) prices) period = calculate_rsi prices period.
Proof.
  intros prices period Hp Hl.
  assert (L : List.length (Py.last_n (period + 1) prices) = (period + 1)%nat)
    by (apply last_n_length; lia).
  rewrite (calculate_rsi_unfold prices period Hp Hl).
  rewrite (calculate_rsi_unfold (Py.last_n (period + 1) prices) period Hp); [| lia].
  cbv zeta.
  assert (M : map snd (Py.last_n (period + 1) prices)
              = Py.last_n (period + 1) (map snd prices))
    by (symmetry; apply last_n_map).
  rewrite M, (deltas_last_n period (map snd prices) Hp).
  assert (W : forall f : Q -> Q,
             Py.last_n period (map f (Py.last_n period (deltas (map snd prices))))
             = Py.last_n period (map f (deltas (map snd prices)))).
  { intros f. rewrite !last_n_map. f_equal.
    set (ds := deltas (map snd prices)).
    assert (Ld : List.length (Py.last_n period ds) = period).
    { apply last_n_length; [exact Hp |].
      unfold ds. rewrite deltas_length, length_map. unfold PricePoint in *. lia. }
    unfold Py.last_n at 1. destruct period as [| p]; [lia |].
    rewrite Ld, Nat.sub_diag. reflexivity. }
  rewrite !W. reflexivity.
Qed.

Lemma rsi_uses_last_points_witness :
  (0 < 3)%nat /\ (3 + 1 <= List.length rising_series)%nat /\
  calculate_rsi (Py.last_n (3 + 1) rising_series) 3 = calculate_rsi rising_series 3.
Proof.
  assert (H1 : (0 < 3)%nat) by lia.
  assert (H2 : (3 + 1 <= List.length rising_series)%nat) by (simpl; lia).
  split; [exact H1 |]. split; [exact H2 |].
  exact (rsi_uses_last_points rising_series 3 H1 H2).
Defined.

End IndicatorBounds.

(** ** Volatility and momentum: sign and inputs *)

Section VolatilityInputs.

Import CryptoAnalyzer.

(** X8.  [calculate_volatility] is never negative, and it reads the prices
    only: two series with the same prices in the same order have the same
    volatility whatever their timestamps, so the spacing of the points in
    time plays no part. *)
Theorem volatility_ignores_timestamps :
  (forall prices : list PricePoint, (0 <= calculate_volatility prices)%R) /\
  (forall prices prices' : list PricePoint,
      map snd prices = map snd prices' ->
      calculate_volatility prices = calculate_volatility prices').
Proof.
  split.
  - intros prices. unfold calculate_volatility.
    destruct (List.length prices <? 2)%nat; [Lra.lra |].
    destruct (fold_left _ _ _); [Lra.lra |].
    unfold np_std. apply Rmult_le_pos; [apply sqrt_pos | Lra.lra].
  - intros prices prices' H.
    assert (L : List.length prices = List.length prices').
    { pose proof (f_equal (@List.length Q) H) as E. rewrite !length_map in E. exact E. }
    unfold calculate_volatility.
    rewrite (volatility_loop prices), (volatility_loop prices'), L, H. reflexivity.
Qed.

Lemma volatility_ignores_timestamps_witness :
  let daily : list PricePoint := [ (0%Z, 100); (86400000%Z, 110); (172800000%Z, 99) ] in
  let uneven : list PricePoint := [ (5%Z, 100); (6%Z, 110); (900000000%Z, 99) ] in
  map snd daily = map snd uneven /\
  calculate_volatility daily = calculate_volatility uneven.
Proof.
  intros daily uneven.
  assert (H : map snd daily = map snd uneven) by reflexivity.
  split; [exact H |].
  exact (proj2 volatility_ignores_timestamps daily uneven H).
Defined.

End VolatilityInputs.

Section MomentumSign.

Import CryptoAnalyzer.

Variable get_historical_data : list string -> Z -> list (string * option MarketChart).

(** X9.  On a fetched series of at least 2 points that starts at a positive
    price, the momentum is positive exactly when the last price exceeds the
    first, is 0 exactly when they are equal, and is never below -100 as long
    as the last price is not negative. *)
Theorem momentum_sign :
  forall (crypto_id : string) (days : Z) (series : list PricePoint),
    Py.dict_get (get_historical_data [crypto_id] days) crypto_id
    = Some (Some {| prices := Some series |}) ->
    (2 <= List.length series)%nat ->
    let first_price := snd (hd (0%Z, 0) series) in
    let last_price := snd (last series (0%Z, 0)) in
    let momentum := get_price_momentum get_historical_data crypto_id days in
    0 < first_price ->
    (0 < momentum <-> first_price < last_price) /\
    (momentum == 0 <-> last_price == first_price) /\
    (0 <= last_price -> - (100) <= momentum).
Proof.
  intros crypto_id days series Hfetch Hlen first_price last_price momentum Hpos.
  assert (U : momentum = (last_price - first_price) / first_price * 100).
  { unfold momentum, get_price_momentum. rewrite Hfetch. cbn [prices].
    destruct (List.length series <? 2)%nat eqn:E; [apply Nat.ltb_lt in E; lia |].
    fold first_price last_price.
    destruct (Qeq_bool first_price 0) eqn:E0; [| reflexivity].
    apply Qeq_bool_iff in E0. lra. }
  rewrite U. clear U.
  set (d := (last_price - first_price) / first_price).
  assert (D : d * first_price == last_price - first_price)
    by (unfold d; field; lra).
  assert (I : 0 < / first_price) by (apply Qinv_lt_0_compat; exact Hpos).
  assert (Dp : 0 < d <-> first_price < last_price).
  { split; intros H.
    - assert (0 < d * first_price) by (apply Qmult_lt_0_compat; assumption). lra.
    - unfold d, Qdiv. apply Qmult_lt_0_compat; lra. }
  assert (Dz : d == 0 <-> last_price == first_price).
  { split; intros H.
    - rewrite H in D. lra.
    - unfold d, Qdiv. rewrite H. ring. }
  assert (Dl : 0 <= last_price -> - (1) <= d).
  { intros H. unfold d.
    apply Qle_shift_div_l; [exact Hpos | lra]. }
  split; [| split].
  - rewrite <- Dp. split; intros H; lra.
  - rewrite <- Dz. split; intros H; [lra | rewrite H; ring].
  - intros H. specialize (Dl H). lra.
Qed.

End MomentumSign.

Section MomentumSignExample.

Import CryptoAnalyzer.

Lemma momentum_sign_witness :
  let series : list PricePoint := [ (0%Z, 50); (1%Z, 70); (2%Z, 40) ] in
  let provider := fun (ids : list string) (_ : Z) =>
    map (fun id => (id, Some {| prices := Some series |})) ids in
  Py.dict_get (provider [ "bitcoin"%string ] 7%Z) "bitcoin"
  = Some (Some {| prices := Some series |}) /\
  (2 <= List.length series)%nat /\
  0 < snd (hd (0%Z, 0) series) /\
  - (100) <= get_price_momentum provider "bitcoin" 7.
Proof.
  intros series provider.
  assert (H1 : Py.dict_get (provider [ "bitcoin"%string ] 7%Z) "bitcoin"
               = Some (Some {| prices := Some series |})) by reflexivity.
  assert (H2 : (2 <= List.length series)%nat) by (simpl; lia).
  assert (H3 : 0 < snd (hd (0%Z, 0) series)) by reflexivity.
  split; [exact H1 |]. split; [exact H2 |]. split; [exact H3 |].
  apply (proj2 (proj2 (momentum_sign provider "bitcoin" 7%Z series H1 H2 H3))).
  discriminate.
Defined.

End MomentumSignExample.

(** ** Scorer views: ranking and recommendations *)

Section SortFacts.

Context {A : Type} (key : A -> Q).

Lemma insert_desc_perm (x : A) (l : list A) :
  Permutation (ScorerViews.insert_desc key x l) (x :: l).
Proof.
  induction l as [| y rest IH]; cbn [ScorerViews.insert_desc]; [reflexivity |].
  destruct (CryptoAnalyzer.Qgt_b (key y) (key x)); [| reflexivity].
  rewrite IH. apply perm_swap.
Qed.

Lemma sort_desc_perm (l : list A) : Permutation (ScorerViews.sort_desc key l) l.
Proof.
  induction l as [| x rest IH]; cbn [ScorerViews.sort_desc fold_right]; [reflexivity |].
  rewrite insert_desc_perm. constructor. exact IH.
Qed.

Lemma insert_desc_sorted (x : A) (l : list A) :
  StronglySorted (fun a b => key b <= key a) l ->
  StronglySorted (fun a b => key b <= key a) (ScorerViews.insert_desc key x l).
Proof.
  induction 1 as [| y rest S IH F]; cbn [ScorerViews.insert_desc].
  - constructor; constructor.
  - destruct (CryptoAnalyzer.Qgt_b (key y) (key x)) eqn:E.
    + apply Qgt_b_true in E. constructor; [exact IH |].
      apply Forall_forall. intros z Hz.
      apply (Permutation_in _ (insert_desc_perm x rest)) in Hz.
      destruct Hz as [<- | Hz]; [lra |].
      rewrite Forall_forall in F. now apply F.
    + apply Qgt_b_false in E. constructor; [constructor; assumption |].
      constructor; [exact E |].
      apply Forall_forall. intros z Hz. rewrite Forall_forall in F.
      specialize (F z Hz). lra.
Qed.

Lemma sort_desc_sorted (l : list A) :
  StronglySorted (fun a b => key b <= key a) (ScorerViews.sort_desc key l).
Proof.
  induction l as [| x rest IH]; cbn [ScorerViews.sort_desc fold_right]; [constructor |].
  apply insert_desc_sorted. exact IH.
Qed.

Lemma insert_desc_stable (k : Q) (x : A) (l : list A) :
  filter (fun y => Qeq_bool (key y) k) (ScorerViews.insert_desc key x l)
  = filter (fun y => Qeq_bool (key y) k) (x :: l).
Proof.
  induction l as [| y rest IH]; cbn [ScorerViews.insert_desc]; [reflexivity |].
  destruct (CryptoAnalyzer.Qgt_b (key y) (key x)) eqn:E; [| reflexivity].
  apply Qgt_b_true in E.
  cbn [filter] in *. rewrite IH.
  destruct (Qeq_bool (key x) k) eqn:Ex; [| reflexivity].
  destruct (Qeq_bool (key y) k) eqn:Ey; [| reflexivity].
  apply Qeq_bool_iff in Ex, Ey. lra.
Qed.

Lemma sort_desc_stable (k : Q) (l : list A) :
  filter (fun y => Qeq_bool (key y) k) (ScorerViews.sort_desc key l)
  = filter (fun y => Qeq_bool (key y) k) l.
Proof.
  induction l as [| x rest IH]; cbn [ScorerViews.sort_desc fold_right]; [reflexivity |].
  rewrite insert_desc_stable. cbn [filter]. fold (ScorerViews.sort_desc key rest).
  rewrite IH. reflexivity.
Qed.

Lemma sorted_filter (f : A -> bool) (l : list A) :
  StronglySorted (fun a b => key b <= key a) l ->
  StronglySorted (fun a b => key b <= key a) (filter f l).
Proof.
  induction 1 as [| y rest S IH F]; cbn [filter]; [constructor |].
  destruct (f y); [| exact IH].
  constructor; [exact IH |].
  apply Forall_forall. intros z Hz. apply filter_In in Hz.
  rewrite Forall_forall in F. now apply F.
Qed.

Lemma sorted_firstn (n : nat) (l : list A) :
  StronglySorted (fun a b => key b <= key a) l ->
  StronglySorted (fun a b => key b <= key a) (firstn n l).
Proof.
  intros S. revert n.
  induction S as [| y rest S IH F]; intros [| n]; cbn [firstn]; try constructor.
  - apply IH.
  - apply Forall_forall. intros z Hz. rewrite Forall_forall in F.
    apply F. rewrite <- (firstn_skipn n rest). apply in_or_app. now left.
Qed.

End SortFacts.

Section ScorerViewFacts.

Import SustainabilityScorer ScorerViews.

Lemma str_in_list_In (x : string) (l : list string) :
  Py.str_in_list x l = true -> In x l.
Proof.
  unfold Py.str_in_list. intros H. apply existsb_exists in H.
  destruct H as [y [I E]]. apply String.eqb_eq in E. now subst.
Qed.

(** X10.  [compare_sustainability_scores] returns exactly the scores of the
    ids it was given (duplicates included), ordered by total score from the
    highest down, and scores with the same total stay in the order in which
    their ids were given. *)
Theorem compare_scores_ranked :
  forall crypto_ids : list string,
    let result := compare_sustainability_scores crypto_ids in
    let scores := map calculate_sustainability_score crypto_ids in
    Permutation result scores /\
    descending result /\
    (forall total : Q,
        filter (fun s => Qeq_bool (total_score s) total) result
        = filter (fun s => Qeq_bool (total_score s) total) scores).
Proof.
  intros crypto_ids result scores. unfold result, compare_sustainability_scores.
  fold scores. split; [apply sort_desc_perm |].
  split; [apply sort_desc_sorted |].
  intros total. apply sort_desc_stable.
Qed.

Lemma recommendations_cases (risk_tolerance : string) :
  get_sustainability_recommendations risk_tolerance
  = get_sustainability_recommendations "Conservative" \/
  get_sustainability_recommendations risk_tolerance
  = get_sustainability_recommendations "Moderate" \/
  get_sustainability_recommendations risk_tolerance
  = get_sustainability_recommendations "Aggressive".
Proof.
  unfold get_sustainability_recommendations.
  destruct (String.eqb risk_tolerance "Conservative") eqn:E1; [now left |].
  destruct (String.eqb risk_tolerance "Moderate") eqn:E2; [right; now left |].
  right; right. reflexivity.
Qed.

Lemma recommendations_sorted (risk_tolerance : string) :
  descending (get_sustainability_recommendations risk_tolerance).
Proof.
  unfold get_sustainability_recommendations, descending.
  apply sorted_firstn.
  destruct (String.eqb risk_tolerance "Conservative");
    [apply sorted_filter, sort_desc_sorted |].
  destruct (String.eqb risk_tolerance "Moderate");
    [apply sorted_filter, sort_desc_sorted | apply sort_desc_sorted].
Qed.

Lemma recommendations_from_table (risk_tolerance : string) (s : Score) :
  In s (get_sustainability_recommendations risk_tolerance) ->
  exists id, In id known_ids /\ s = calculate_sustainability_score id.
Proof.
  unfold get_sustainability_recommendations. intros H.
  assert (S : In s (sort_desc total_score
                      (map calculate_sustainability_score (map fst crypto_profiles)))).
  { assert (F : In s (if String.eqb risk_tolerance "Conservative"
                      then filter conservative_filter
                             (sort_desc total_score
                                (map calculate_sustainability_score (map fst crypto_profiles)))
                      else if String.eqb risk_tolerance "Moderate"
                      then filter moderate_filter
                             (sort_desc total_score
                                (map calculate_sustainability_score (map fst crypto_profiles)))
                      else sort_desc total_score
                             (map calculate_sustainability_score (map fst crypto_profiles)))).
    { rewrite <- (firstn_skipn 8 (if String.eqb risk_tolerance "Conservative" then _ else _)).
      apply in_or_app. left. exact H. }
    destruct (String.eqb risk_tolerance "Conservative");
      [exact (proj1 (proj1 (filter_In _ _ _) F)) |].
    destruct (String.eqb risk_tolerance "Moderate");
      [exact (proj1 (proj1 (filter_In _ _ _) F)) | exact F]. }
  apply (Permutation_in _ (sort_desc_perm total_score _)) in S.
  apply in_map_iff in S. destruct S as [id [E I]].
  exists id. split; [exact I | now symmetry].
Qed.

(** X11.  For every risk tolerance, [get_sustainability_recommendations]
    returns at most 8 scores, all of ids of the profile table, ordered by
    total score from the highest down; for 'Conservative' every entry has a
    total of at least 70 and is bitcoin, ethereum or cardano, for
    'Moderate' every entry has a total of at least 60; and bitcoin, though
    on the conservative whitelist, is recommended for no risk tolerance. *)
Theorem recommendations_shape :
  (forall risk_tolerance : string,
      let result := get_sustainability_recommendations risk_tolerance in
      (List.length result <= 8)%nat /\
      descending result /\
      (forall s, In s result ->
         exists id, In id known_ids /\ s = calculate_sustainability_score id) /\
      ~ In "bitcoin"%string (map crypto_id result)) /\
  (forall s, In s (get_sustainability_recommendations "Conservative") ->
     70 <= total_score s /\
     In (crypto_id s) [ "bitcoin"; "ethereum"; "cardano" ]%string) /\
  (forall s, In s (get_sustainability_recommendations "Moderate") ->
     60 <= total_score s).
Proof.
  split; [| split].
  - intros risk_tolerance result. unfold result.
    split; [apply firstn_le_length |].
    split; [apply recommendations_sorted |].
    split; [apply recommendations_from_table |].
    assert (N : forall l : list string,
               Py.str_in_list "bitcoin" l = false -> ~ In "bitcoin"%string l).
    { intros l E I. apply in_str_in_list in I. congruence. }
    apply N.
    destruct (recommendations_cases risk_tolerance) as [-> | [-> | ->]];
      vm_compute; reflexivity.
  - intros s H.
    assert (F : In s (filter conservative_filter
                        (sort_desc total_score
                           (map calculate_sustainability_score (map fst crypto_profiles))))).
    { rewrite <- (firstn_skipn 8 (filter _ _)). apply in_or_app. left. exact H. }
    destruct (proj1 (filter_In _ _ _) F) as [_ F'].
    clear F H. rename F' into F.
    unfold conservative_filter in F. apply andb_true_iff in F. destruct F as [F1 F2].
    apply Qle_bool_iff in F1. split; [exact F1 |].
    apply str_in_list_In. exact F2.
  - intros s H.
    assert (F : In s (filter moderate_filter
                        (sort_desc total_score
                           (map calculate_sustainability_score (map fst crypto_profiles))))).
    { rewrite <- (firstn_skipn 8 (filter _ _)). apply in_or_app. left. exact H. }
    destruct (proj1 (filter_In _ _ _) F) as [_ F'].
    apply Qle_bool_iff in F'. exact F'.
Qed.

(** X12.  The risk tolerance is matched exactly: any string other than
    'Conservative' and 'Moderate' (a lower-case 'conservative' too) gets
    the unfiltered list, the 8 best of the whole ranking.  The three lists
    are nested: every Conservative recommendation is also a Moderate one,
    and every Moderate one is in the unfiltered list. *)
Theorem recommendations_unrecognised_tier :
  forall risk_tolerance : string,
    risk_tolerance <> "Conservative"%string ->
    risk_tolerance <> "Moderate"%string ->
    get_sustainability_recommendations risk_tolerance
    = firstn 8 (compare_sustainability_scores known_ids) /\
    incl (get_sustainability_recommendations "Conservative")
         (get_sustainability_recommendations "Moderate") /\
    incl (get_sustainability_recommendations "Moderate")
         (get_sustainability_recommendations risk_tolerance).
Proof.
  intros risk_tolerance H1 H2.
  assert (E : get_sustainability_recommendations risk_tolerance
              = firstn 8 (compare_sustainability_scores known_ids)).
  { unfold get_sustainability_recommendations.
    apply String.eqb_neq in H1, H2. rewrite H1, H2. reflexivity. }
  split; [exact E |]. split.
  - intros s H. vm_compute in H.
    repeat (destruct H as [<- | H]; [vm_compute; repeat first [left; reflexivity | right] |]).
    contradiction.
  - rewrite E. intros s H. vm_compute in H.
    repeat (destruct H as [<- | H]; [vm_compute; repeat first [left; reflexivity | right] |]).
    contradiction.
Qed.

Lemma recommendations_unrecognised_tier_witness :
  "conservative"%string <> "Conservative"%string /\
  "conservative"%string <> "Moderate"%string /\
  get_sustainability_recommendations "conservative"
  = firstn 8 (compare_sustainability_scores known_ids).
Proof.
  assert (H1 : "conservative"%string <> "Conservative"%string) by discriminate.
  assert (H2 : "conservative"%string <> "Moderate"%string) by discriminate.
  split; [exact H1 |]. split; [exact H2 |].
  exact (proj1 (recommendations_unrecognised_tier "conservative" H1 H2)).
Defined.

End ScorerViewFacts.

(** ** Score texts *)

Section ScoreTextFacts.

Import SustainabilityScorer ScorerViews.

(** X13.  The dict that [calculate_sustainability_score] returns carries
    the fallback feature text 'Standard cryptocurrency features', and the
    consensus mechanism 'Unknown', exactly for the ids that have no profile
    in the table: every profile of the table yields at least one feature of
    its own. *)
Theorem score_text_fallback :
  forall id : string,
    (key_features (score_text id) = standard_features
     <-> Py.dict_get crypto_profiles (Py.lower id) = None) /\
    (consensus_mechanism (score_text id) = "Unknown"%string
     <-> Py.dict_get crypto_profiles (Py.lower id) = None).
Proof.
  intros id. unfold score_text, Py.dict_get_or. cbn [key_features consensus_mechanism].
  destruct (Py.dict_get crypto_profiles (Py.lower id)) as [profile |] eqn:E.
  - apply dict_get_In in E. remember (Py.lower id) as key eqn:K. clear K.
    assert (A : forallb
                  (fun entry =>
                     negb (String.eqb (_get_key_features (snd entry)) standard_features) &&
                     negb (String.eqb
                             (Py.title (replace_underscores (consensus (snd entry))))
                             "Unknown"))
                  crypto_profiles = true) by (vm_compute; reflexivity).
    rewrite forallb_forall in A. specialize (A _ E). cbn [snd] in A.
    apply andb_true_iff in A. destruct A as [A1 A2].
    apply negb_true_iff, String.eqb_neq in A1, A2.
    split; (split; intros H; [contradiction | discriminate]).
  - split; (split; intros _; [reflexivity | vm_compute; reflexivity]).
Qed.

End ScoreTextFacts.

(** ** Comparison and price-analysis queries *)

Section StringFacts.

Lemma append_nil_r_string (s : string) : (s ++ "")%string = s.
Proof.
  induction s as [| c s IH]; cbn [String.append]; [reflexivity | now rewrite IH].
Qed.

Lemma append_assoc_string (a b c : string) : ((a ++ b) ++ c)%string = (a ++ b ++ c)%string.
Proof.
  induction a as [| x a IH]; cbn [String.append]; [reflexivity | now rewrite IH].
Qed.

Lemma prefix_trans (a : string) :
  forall b c : string,
    String.prefix a b = true -> String.prefix b c = true -> String.prefix a c = true.
Proof.
  induction a as [| x a IH]; intros b c Hab Hbc.
  - destruct c; reflexivity.
  - destruct b as [| y b]; [discriminate |].
    destruct c as [| z c]; [discriminate |].
    cbn [String.prefix] in *.
    destruct (ascii_dec x y) as [-> |]; [| discriminate].
    destruct (ascii_dec y z) as [-> |]; [| discriminate].
    now apply (IH b c).
Qed.

Lemma contains_tail (a : string) (c : ascii) (s : string) :
  Py.contains a s = true -> Py.contains a (String c s) = true.
Proof.
  intros H. cbn [Py.contains]. rewrite H. apply orb_true_r.
Qed.

Lemma contains_of_prefix (a b : string) :
  forall s : string,
    Py.contains a b = true -> String.prefix b s = true -> Py.contains a s = true.
Proof.
  induction b as [| y b IH]; intros s Hab Hbs.
  - cbn [Py.contains] in Hab. rewrite orb_false_r in Hab.
    destruct a as [| x a]; [| discriminate].
    destruct s; reflexivity.
  - cbn [Py.contains] in Hab. apply orb_true_iff in Hab. destruct Hab as [P | C].
    + assert (Q : String.prefix a s = true) by (apply (prefix_trans a (String y b) s); assumption).
      destruct s; cbn [Py.contains]; rewrite Q; reflexivity.
    + destruct s as [| z s]; [discriminate |].
      cbn [String.prefix] in Hbs. destruct (ascii_dec y z); [| discriminate].
      apply contains_tail. now apply IH.
Qed.

Lemma contains_trans (a b : string) :
  forall s : string,
    Py.contains a b = true -> Py.contains b s = true -> Py.contains a s = true.
Proof.
  intros s Hab. induction s as [| z s IH]; intros Hbs.
  - cbn [Py.contains] in Hbs. rewrite orb_false_r in Hbs.
    now apply (contains_of_prefix a b).
  - cbn [Py.contains] in Hbs. apply orb_true_iff in Hbs. destruct Hbs as [P | C].
    + now apply (contains_of_prefix a b).
    + apply contains_tail. now apply IH.
Qed.

Lemma two_members_length {A : Type} (a b : A) (l : list A) :
  In a l -> In b l -> a <> b -> (2 <= List.length l)%nat.
Proof.
  intros Ha Hb N. destruct l as [| x [| y t]]; cbn [List.length]; [contradiction | | lia].
  destruct Ha as [<- | []]. destruct Hb as [E | []]. congruence.
Qed.

End StringFacts.

Section RouterHandlerFacts.

Import RulesEngine PriceQuery.

Variable list_of_set : list string -> list string.
Hypothesis list_of_set_perm :
  forall l : list string, Permutation (list_of_set l) (nodup string_dec l).

Variable _analyze_single_crypto : string -> RiskTier -> string.
Variable _generate_comparison_summary : list string -> RiskTier -> string.
Variable _get_technical_analysis : string -> string.

Local Abbreviation extract := (_extract_crypto_names list_of_set).
Local Abbreviation compare :=
  (_handle_comparison_query list_of_set _analyze_single_crypto _generate_comparison_summary).
Local Abbreviation analyse := (_handle_price_analysis_query list_of_set _get_technical_analysis).

Lemma found_cryptos_NoDup (query : string) : NoDup (found_cryptos query).
Proof.
  unfold found_cryptos.
  rewrite <- (filter_map_swap (fun alias => Py.contains alias (Py.lower query)) fst).
  apply NoDup_filter.
  assert (D : nodup string_dec (map fst crypto_mappings) = map fst crypto_mappings)
    by (vm_compute; reflexivity).
  rewrite <- D. apply NoDup_nodup.
Qed.

Lemma found_cryptos_intro (query alias : string) :
  In alias (map fst crypto_mappings) ->
  Py.contains alias (Py.lower query) = true ->
  In alias (found_cryptos query).
Proof.
  intros I C. unfold found_cryptos.
  apply in_map_iff in I. destruct I as [entry [E I]].
  apply in_map_iff. exists entry. split; [exact E |].
  apply filter_In. split; [exact I | now rewrite E].
Qed.

Lemma extract_length (query : string) :
  List.length (extract query) = List.length (found_cryptos query).
Proof.
  unfold _extract_crypto_names.
  rewrite (Permutation_length (list_of_set_perm (found_cryptos query))).
  rewrite (nodup_fixed_point string_dec (found_cryptos_NoDup query)). reflexivity.
Qed.

Lemma comparison_sections_prefix (tier : RiskTier) (names : list string) :
  forall acc : string,
    exists rest : string,
      fold_left
        (fun comparison_result crypto_name =>
           match _get_crypto_id crypto_name with
           | Some crypto_id =>
               (comparison_result ++ "### " ++ Py.title crypto_name ++ nl
                  ++ _analyze_single_crypto crypto_id tier ++ nl ++ nl)%string
           | None => comparison_result
           end)
        names acc
      = (acc ++ rest)%string.
Proof.
  induction names as [| crypto_name names IH]; intros acc; cbn [fold_left].
  - exists EmptyString. symmetry. apply append_nil_r_string.
  - destruct (_get_crypto_id crypto_name) as [crypto_id |].
    + destruct (IH (acc ++ "### " ++ Py.title crypto_name ++ nl
                      ++ _analyze_single_crypto crypto_id tier ++ nl ++ nl)%string)
        as [rest E].
      rewrite E. eexists. rewrite append_assoc_string. reflexivity.
    + apply IH.
Qed.

Lemma comparison_is_not_hint (query : string) (tier : RiskTier) :
  (2 <= List.length (found_cryptos query))%nat ->
  compare query tier <> msg_two_to_compare.
Proof.
  intros L. unfold _handle_comparison_query. cbv zeta.
  rewrite extract_length.
  destruct (List.length (found_cryptos query) <? 2)%nat eqn:E;
    [apply Nat.ltb_lt in E; lia |].
  destruct (comparison_sections_prefix tier (firstn 3 (extract query)) comparison_heading)
    as [rest ->].
  unfold comparison_heading, msg_two_to_compare. cbn [String.append]. discriminate.
Qed.

(** X14.  A comparison query gets the "specify at least two" hint exactly
    when fewer than two aliases of the table occur in it.  Because the
    aliases are matched as substrings, a query that names only Ethereum
    (or Dogecoin, Chainlink, Polkadot, Solana) never gets the hint: the
    name contains its own short alias (eth, doge, link, dot, sol), so two
    names are found and the coin is compared with itself; a query that
    names only Bitcoin does get the hint. *)
Theorem comparison_usage_hint :
  (forall (query : string) (tier : RiskTier),
      compare query tier = msg_two_to_compare
      <-> (List.length (found_cryptos query) < 2)%nat) /\
  (forall (query : string) (tier : RiskTier) (name : string),
      In name [ "ethereum"; "dogecoin"; "chainlink"; "polkadot"; "solana" ]%string ->
      Py.contains name (Py.lower query) = true ->
      compare query tier <> msg_two_to_compare) /\
  (forall tier : RiskTier, compare "Compare Bitcoin" tier = msg_two_to_compare).
Proof.
  split; [| split].
  - intros query tier. split.
    + intros H.
      destruct (Nat.lt_ge_cases (List.length (found_cryptos query)) 2) as [L | L];
        [exact L |].
      exfalso. exact (comparison_is_not_hint query tier L H).
    + intros L. unfold _handle_comparison_query. cbv zeta.
      rewrite extract_length. apply Nat.ltb_lt in L. rewrite L. reflexivity.
  - intros query tier name I C.
    assert (S : exists short : string,
               short <> name /\ Py.contains short name = true /\
               In short (map fst crypto_mappings) /\ In name (map fst crypto_mappings)).
    { cbn [In] in I.
      destruct I as [<- | [<- | [<- | [<- | [<- | []]]]]];
        [exists "eth"%string | exists "doge"%string | exists "link"%string
         | exists "dot"%string | exists "sol"%string];
        (split; [discriminate |]); (split; [reflexivity |]);
        (split; apply str_in_list_In; reflexivity). }
    destruct S as [short [N [P [Is In_name]]]].
    apply comparison_is_not_hint.
    apply (two_members_length short name); [| | exact N].
    + apply found_cryptos_intro; [exact Is |].
      now apply (contains_trans short name).
    + now apply found_cryptos_intro.
  - intros tier. unfold _handle_comparison_query. cbv zeta.
    rewrite extract_length.
    assert (F : found_cryptos "Compare Bitcoin" = [ "bitcoin"%string ])
      by (vm_compute; reflexivity).
    rewrite F. reflexivity.
Qed.

(** X15.  A price-analysis query in which no alias occurs gets the "specify
    which cryptocurrency you'd like me to analyze" hint; otherwise it gets
    the technical analysis of the id of an alias that occurs in it; the
    "couldn't find price data" message is never returned, because every
    name the extraction can produce is a key of the table with a non-empty
    id. *)
Theorem price_query_resolution :
  (forall query : string,
      (found_cryptos query = [] /\ analyse query = msg_specify_analyze) \/
      (exists crypto_name crypto_id : string,
          In crypto_name (found_cryptos query) /\
          In (crypto_name, crypto_id) crypto_mappings /\
          analyse query
          = (technical_heading crypto_name ++ _get_technical_analysis crypto_id)%string)) /\
  (forall query other : string, analyse query <> msg_no_price_data other).
Proof.
  assert (Cases : forall query : string,
      (found_cryptos query = [] /\ analyse query = msg_specify_analyze) \/
      (exists crypto_name crypto_id : string,
          In crypto_name (found_cryptos query) /\
          In (crypto_name, crypto_id) crypto_mappings /\
          analyse query
          = (technical_heading crypto_name ++ _get_technical_analysis crypto_id)%string)).
  { intros query. unfold _handle_price_analysis_query. cbv zeta.
    destruct (extract query) as [| crypto_name rest] eqn:E.
    - left. split; [| reflexivity].
      apply (extract_nil_iff list_of_set list_of_set_perm). exact E.
    - right.
      assert (I : In crypto_name (found_cryptos query)).
      { apply (extract_found list_of_set list_of_set_perm). rewrite E. now left. }
      destruct (alias_resolves crypto_name (found_cryptos_alias _ _ I)) as [crypto_id [R M]].
      exists crypto_name, crypto_id. rewrite R.
      assert (A : forallb (fun entry => negb (String.eqb (snd entry) EmptyString))
                    crypto_mappings = true) by (vm_compute; reflexivity).
      rewrite forallb_forall in A. specialize (A _ M). cbn [snd] in A.
      apply negb_true_iff in A. rewrite A.
      split; [exact I |]. split; [exact M | reflexivity]. }
  split; [exact Cases |].
  intros query other.
  destruct (Cases query) as [[_ ->] | [crypto_name [crypto_id [_ [_ ->]]]]].
  - unfold msg_specify_analyze, msg_no_price_data. cbn [String.append]. discriminate.
  - unfold technical_heading, msg_no_price_data. cbn [String.append]. discriminate.
Qed.

End RouterHandlerFacts.

Section RouterHandlerExamples.

Import RulesEngine PriceQuery.

Lemma comparison_usage_hint_witness :
  (forall l : list string, Permutation (nodup string_dec l) (nodup string_dec l)) /\
  In "ethereum"%string [ "ethereum"; "dogecoin"; "chainlink"; "polkadot"; "solana" ]%string /\
  Py.contains "ethereum" (Py.lower "Compare Ethereum") = true /\
  _handle_comparison_query (nodup string_dec)
    (fun crypto_id _ => crypto_id) (fun _ _ => "summary"%string)
    "Compare Ethereum"%string Moderate
  <> msg_two_to_compare.
Proof.
  assert (H1 : forall l : list string, Permutation (nodup string_dec l) (nodup string_dec l))
    by (intros l; apply Permutation_refl).
  assert (H2 : In "ethereum"%string
                 [ "ethereum"; "dogecoin"; "chainlink"; "polkadot"; "solana" ]%string)
    by (left; reflexivity).
  assert (H3 : Py.contains "ethereum" (Py.lower "Compare Ethereum") = true) by reflexivity.
  split; [exact H1 |]. split; [exact H2 |]. split; [exact H3 |].
  exact (proj1 (proj2
           (comparison_usage_hint (nodup string_dec) H1
              (fun crypto_id _ => crypto_id) (fun _ _ => "summary"%string)))
           "Compare Ethereum"%string Moderate "ethereum"%string H2 H3).
Defined.

Lemma price_query_resolution_witness :
  (forall l : list string, Permutation (nodup string_dec l) (nodup string_dec l)) /\
  forall other : string,
    _handle_price_analysis_query (nodup string_dec) (fun crypto_id => crypto_id)
      "Analyze Cardanoo price trends"%string
    <> msg_no_price_data other.
Proof.
  assert (H1 : forall l : list string, Permutation (nodup string_dec l) (nodup string_dec l))
    by (intros l; apply Permutation_refl).
  split; [exact H1 |].
  intros other.
  exact (proj2 (price_query_resolution (nodup string_dec) H1 (fun crypto_id => crypto_id))
           "Analyze Cardanoo price trends"%string other).
Defined.

End RouterHandlerExamples.

(** ** Portfolio by risk tier *)

Section PortfolioTierFacts.

Import RulesEngine.

Variable get_top_cryptocurrencies : Z -> list MarketRecord.

Local Abbreviation generate := (generate_portfolio_recommendation get_top_cryptocurrencies).

(** X16.  What the portfolio holds depends on the risk tier and, for the
    core holdings only, on whether BTC and ETH are among the 20 fetched
    records.  Aggressive: always the three growth and two speculative
    holdings (35% in total) and never Bitcoin or Ethereum.  Conservative:
    Bitcoin at 40% and Ethereum at 30% as far as they are listed, nothing
    else, so the portfolio is empty when neither is listed.  Moderate:
    Bitcoin at 30% and Ethereum at 25% as far as they are listed, followed
    by the three growth holdings.  The portfolio size and the time horizon
    play no part. *)
Theorem portfolio_by_tier :
  forall (size : Q) (horizon : string),
    let top := get_top_cryptocurrencies 20 in
    let core (btc eth : Z) : list Holding :=
      match find (has_symbol "btc") top with
      | Some _ =>
          [ {| name := "Bitcoin (BTC)"; allocation := btc;
               reasoning := "Digital gold, most established cryptocurrency with institutional adoption" |} ]
      | None => []
      end ++
      match find (has_symbol "eth") top with
      | Some _ =>
          [ {| name := "Ethereum (ETH)"; allocation := eth;
               reasoning := "Leading smart contract platform with strong developer ecosystem" |} ]
      | None => []
      end in
    generate size Aggressive horizon
    = match top with [] => [] | _ :: _ => growth_cryptos ++ speculative_cryptos end /\
    generate size Conservative horizon
    = match top with [] => [] | _ :: _ => core 40%Z 30%Z end /\
    generate size Moderate horizon
    = match top with [] => [] | _ :: _ => core 30%Z 25%Z ++ growth_cryptos end /\
    (generate size Conservative horizon = [] <->
     top = [] \/
     (find (has_symbol "btc") top = None /\ find (has_symbol "eth") top = None)) /\
    (forall (tier : RiskTier) (size' : Q) (horizon' : string),
        generate size' tier horizon' = generate size tier horizon).
Proof.
  intros size horizon top core.
  assert (A : generate size Aggressive horizon
              = match top with [] => [] | _ :: _ => growth_cryptos ++ speculative_cryptos end).
  { unfold generate_portfolio_recommendation. fold top.
    destruct top as [| r rest]; reflexivity. }
  assert (C : generate size Conservative horizon
              = match top with [] => [] | _ :: _ => core 40%Z 30%Z end).
  { unfold generate_portfolio_recommendation. fold top. subst core. cbv beta.
    destruct top as [| r rest] eqn:T; [reflexivity |]. rewrite <- T. clear T.
    unfold assemble_portfolio. cbn [RiskTier_eqb orb negb].
    destruct (find (has_symbol "btc") top); destruct (find (has_symbol "eth") top);
      reflexivity. }
  assert (M : generate size Moderate horizon
              = match top with [] => [] | _ :: _ => core 30%Z 25%Z ++ growth_cryptos end).
  { unfold generate_portfolio_recommendation. fold top. subst core. cbv beta.
    destruct top as [| r rest] eqn:T; [reflexivity |]. rewrite <- T. clear T.
    unfold assemble_portfolio. cbn [RiskTier_eqb orb negb].
    destruct (find (has_symbol "btc") top); destruct (find (has_symbol "eth") top);
      reflexivity. }
  split; [exact A |]. split; [exact C |]. split; [exact M |]. split.
  - rewrite C. subst core. cbv beta.
    destruct top as [| r rest] eqn:T.
    + split; [intros _; now left | reflexivity].
    + rewrite <- T.
      destruct (find (has_symbol "btc") top); destruct (find (has_symbol "eth") top);
        cbn [app]; split; intros H;
        try discriminate; try reflexivity;
        try (right; split; reflexivity);
        destruct H as [H | [H1 H2]]; try discriminate; try (rewrite T in H; discriminate).
  - intros tier size' horizon'. reflexivity.
Qed.

End PortfolioTierFacts.

(** ** Caches *)

Section DictFacts.

Import PyDict.

Context {V : Type}.

Lemma dict_get_set (d : list (string * V)) (key key' : string) (v : V) :
  Py.dict_get (dict_set d key v) key'
  = if String.eqb key key' then Some v else Py.dict_get d key'.
Proof.
  induction d as [| [k w] rest IH]; cbn [dict_set Py.dict_get].
  - reflexivity.
  - destruct (String.eqb k key) eqn:E; cbn [Py.dict_get].
    + apply String.eqb_eq in E. subst k.
      destruct (String.eqb key key'); reflexivity.
    + rewrite IH. destruct (String.eqb k key') eqn:E'; [| reflexivity].
      apply String.eqb_eq in E'. subst k. rewrite String.eqb_sym, E. reflexivity.
Qed.

Lemma dict_mem_set (d : list (string * V)) (key key' : string) (v : V) :
  dict_mem (dict_set d key v) key' = String.eqb key key' || dict_mem d key'.
Proof.
  unfold dict_mem. rewrite dict_get_set. destruct (String.eqb key key'); reflexivity.
Qed.

Lemma dict_set_keys (d : list (string * V)) (key key' : string) (v : V) :
  In key' (map fst (dict_set d key v)) <-> key' = key \/ In key' (map fst d).
Proof.
  induction d as [| [k w] rest IH]; cbn [dict_set map fst In].
  - split; intros [H | H]; auto.
  - destruct (String.eqb k key) eqn:E; cbn [map fst In].
    + apply String.eqb_eq in E. subst k. intuition congruence.
    + rewrite IH. intuition congruence.
Qed.

Lemma dict_set_NoDup (d : list (string * V)) (key : string) (v : V) :
  NoDup (map fst d) -> NoDup (map fst (dict_set d key v)).
Proof.
  induction d as [| [k w] rest IH]; cbn [dict_set map fst]; intros H.
  - constructor; [intros [] | constructor].
  - inversion H as [| x xs N D]; subst.
    destruct (String.eqb k key) eqn:E; cbn [map fst].
    + constructor; assumption.
    + constructor; [| now apply IH].
      intros I. apply dict_set_keys in I. destruct I as [-> | I]; [| contradiction].
      rewrite String.eqb_refl in E. discriminate.
Qed.

Lemma dict_mem_keys (d : list (string * V)) (key : string) :
  dict_mem d key = true <-> In key (map fst d).
Proof.
  unfold dict_mem. induction d as [| [k w] rest IH]; cbn [Py.dict_get map fst In].
  - split; [discriminate | intros []].
  - destruct (String.eqb k key) eqn:E.
    + apply String.eqb_eq in E. split; [now left | reflexivity].
    + apply String.eqb_neq in E. rewrite IH. split; [now right | intros [H | H]; congruence].
Qed.

End DictFacts.

Section FetcherFacts.

Import PyDict DataFetcher.

Context {Json : Type}.

Local Abbreviation State := (DataFetcher.State Json).

(** The duration that [_store_in_cache] uses. *)
Local Abbreviation effective duration :=
  (match duration with Some d => d | None => default_cache_duration end).

Lemma get_from_cache_after_store
    (self : State) (key : string) (data : option Json) (duration : option Q)
    (now : Q) (key' : string) (now' : Q) :
  _get_from_cache (_store_in_cache self key data duration now) key' now'
  = if String.eqb key key'
    then (if RulesEngine.Qlt_b now' (now + effective duration) then data else None)
    else _get_from_cache self key' now'.
Proof.
  unfold _get_from_cache, _is_cache_valid, _store_in_cache.
  cbn [cache cache_expiry]. rewrite dict_mem_set, !dict_get_set.
  destruct (String.eqb key key'); [| reflexivity].
  cbn [orb negb]. reflexivity.
Qed.

(** X17.  Cache round trip of the fetcher: after [_store_in_cache] at time
    [now], [_get_from_cache] for the same key returns the stored value as
    long as the reading is strictly before [now + duration] (300 seconds
    when no duration is given) and [None] from that instant on, and for
    every other key it returns what it returned before. *)
Theorem fetcher_cache_round_trip :
  forall (self : State) (key : string) (data : option Json) (duration : option Q)
         (now : Q) (key' : string) (now' : Q),
    let stored := _store_in_cache self key data duration now in
    (key' = key ->
     (now' < now + effective duration -> _get_from_cache stored key' now' = data) /\
     (now + effective duration <= now' -> _get_from_cache stored key' now' = None)) /\
    (key' <> key -> _get_from_cache stored key' now' = _get_from_cache self key' now').
Proof.
  intros self key data duration now key' now' stored. unfold stored.
  rewrite get_from_cache_after_store. split.
  - intros ->. rewrite String.eqb_refl. split; intros H.
    + apply Qlt_b_true in H. rewrite H. reflexivity.
    + apply Qlt_b_false in H. rewrite H. reflexivity.
  - intros N. apply not_eq_sym, String.eqb_neq in N. rewrite N. reflexivity.
Qed.

Lemma count_valid_bounds (self : State) (clock : nat -> Q) (keys : list string) :
  forall i : nat,
    (0 <= count_valid self clock i keys <= Z.of_nat (List.length keys))%Z.
Proof.
  induction keys as [| key rest IH]; intros i; cbn [count_valid List.length]; [lia |].
  specialize (IH (S i)).
  destruct (_is_cache_valid self key (clock i)); lia.
Qed.

Lemma count_valid_none (self : State) (clock : nat -> Q) (keys : list string) :
  (forall (i : nat) (key : string), _is_cache_valid self key (clock i) = false) ->
  forall i : nat, count_valid self clock i keys = 0%Z.
Proof.
  intros H. induction keys as [| key rest IH]; intros i; cbn [count_valid]; [reflexivity |].
  rewrite H, IH. reflexivity.
Qed.

Lemma count_valid_all (self : State) (clock : nat -> Q) (keys : list string) :
  (forall (i : nat) (key : string), In key keys -> _is_cache_valid self key (clock i) = true) ->
  forall i : nat, count_valid self clock i keys = Z.of_nat (List.length keys).
Proof.
  induction keys as [| key rest IH]; intros H i; cbn [count_valid List.length];
    [reflexivity |].
  rewrite H by now left. rewrite IH by (intros j k I; apply H; now right). lia.
Qed.

(** X18.  [get_cache_stats] splits the cache into valid and expired
    entries: both counts are non-negative and add up to the total.  When
    every expiry time is at or before the readings, all entries count as
    expired; when every cached key has an expiry time after the readings,
    all count as valid.  After [clear_cache] all three counts are 0 and
    [_get_from_cache] returns [None] for every key. *)
Theorem cache_stats_partition :
  forall (self : State) (clock : nat -> Q),
    let stats := get_cache_stats self clock in
    (total_items stats = valid_items stats + expired_items stats)%Z /\
    (0 <= valid_items stats)%Z /\ (0 <= expired_items stats)%Z /\
    total_items stats = Z.of_nat (List.length (cache self)) /\
    ((forall (i : nat) (key : string) (expiry : Q),
         Py.dict_get (cache_expiry self) key = Some expiry -> expiry <= clock i) ->
     valid_items stats = 0%Z) /\
    ((forall (i : nat) (key : string),
         In key (map fst (cache self)) ->
         exists expiry : Q,
           Py.dict_get (cache_expiry self) key = Some expiry /\ clock i < expiry) ->
     expired_items stats = 0%Z) /\
    get_cache_stats (clear_cache self) clock
    = {| total_items := 0; valid_items := 0; expired_items := 0 |} /\
    (forall (key : string) (now : Q), _get_from_cache (clear_cache self) key now = None).
Proof.
  intros self clock stats. unfold stats, get_cache_stats. cbn [total_items valid_items expired_items].
  pose proof (count_valid_bounds self clock (map fst (cache self)) 0) as B.
  rewrite length_map in B.
  split; [lia |]. split; [lia |]. split; [lia |]. split; [reflexivity |].
  split; [| split; [| split]].
  - intros H. apply count_valid_none. intros i key.
    unfold _is_cache_valid.
    destruct (negb (dict_mem (cache self) key)); [reflexivity |].
    destruct (Py.dict_get (cache_expiry self) key) as [expiry |] eqn:E; [| reflexivity].
    apply Qlt_b_false. exact (H i key expiry E).
  - intros H. rewrite count_valid_all; [rewrite length_map; lia |].
    intros i key I. unfold _is_cache_valid.
    rewrite (proj2 (dict_mem_keys (cache self) key) I). cbn [negb].
    destruct (H i key I) as [expiry [E L]]. rewrite E. apply Qlt_b_true. exact L.
  - reflexivity.
  - intros key now. reflexivity.
Qed.

(** X19.  Rate limit of the fetcher.  [_respect_rate_limit] asks for a
    sleep exactly when less than one second has passed since the last
    request, and then for the positive remainder of that second.  As long
    as the clock does not run backwards and the sleep lasts at least as
    long as asked, the new [last_request_time] is at least one second after
    the old one. *)
Theorem rate_limit_spacing :
  forall (self : State) (current_time resumed : Q),
    match sleep_time self current_time with
    | Some pause => current_time + pause <= resumed
    | None => current_time <= resumed
    end ->
    let result := _respect_rate_limit self current_time resumed in
    last_request_time self + 1 <= last_request_time (snd result) /\
    (fst result = None <-> 1 <= current_time - last_request_time self) /\
    (forall pause : Q,
        fst result = Some pause ->
        0 < pause /\ pause == 1 - (current_time - last_request_time self)).
Proof.
  intros self current_time resumed H result. unfold result, _respect_rate_limit.
  cbn [fst snd last_request_time]. unfold sleep_time, min_request_interval in *.
  destruct (RulesEngine.Qlt_b (current_time - last_request_time self) 1) eqn:E.
  - apply Qlt_b_true in E. split; [lra |]. split.
    + split; [discriminate | intros L; lra].
    + intros pause [= <-]. split; [lra | reflexivity].
  - apply Qlt_b_false in E. split; [lra |]. split.
    + split; [intros _; exact E | reflexivity].
    + intros pause P. discriminate.
Qed.

(** X20.  [_make_request] with a cache key.  A valid cached value other
    than [None] is returned as it is, without touching the state, whatever
    the service would answer.  Otherwise the request is made: after a
    failure the result is [None] and the cache is as before; a decoded body
    is returned and stored, and a later call for the same key whose lookup
    reading is before the expiry gets that body from the cache.  A [null]
    body is stored too, but it is never served: every later call makes the
    request again. *)
Theorem make_request_caching :
  forall (self : State) (key : string) (duration : option Q) (clock : Readings),
    key <> EmptyString ->
    (forall (data : Json) (response : Response Json),
        _get_from_cache self key (at_lookup clock) = Some data ->
        _make_request self (Some key) duration clock response = (Some data, self)) /\
    (_get_from_cache self key (at_lookup clock) = None ->
     (let result := _make_request self (Some key) duration clock Failure in
      fst result = None /\
      cache (snd result) = cache self /\ cache_expiry (snd result) = cache_expiry self) /\
     (forall (body : option Json),
         let result := _make_request self (Some key) duration clock (Body body) in
         fst result = body /\
         last_request_time (snd result) = at_resume clock /\
         forall (duration' : option Q) (clock' : Readings) (response' : Response Json),
           let again := _make_request (snd result) (Some key) duration' clock' response' in
           match body with
           | Some data =>
               at_lookup clock' < at_store clock + effective duration ->
               again = (Some data, snd result)
           | None => last_request_time (snd again) = at_resume clock'
           end)).
Proof.
  intros self key duration clock K.
  assert (U : usable_key (Some key) = Some key).
  { unfold usable_key. apply String.eqb_neq in K. rewrite K. reflexivity. }
  split.
  - intros data response H. unfold _make_request. rewrite U, H. reflexivity.
  - intros H. split.
    + unfold _make_request. rewrite U, H. cbn [fst snd _respect_rate_limit cache cache_expiry].
      repeat split; reflexivity.
    + intros body result. unfold result, _make_request. rewrite U, H.
      cbn [fst snd]. split; [reflexivity |]. split; [reflexivity |].
      intros duration' clock' response'. cbv zeta.
      destruct body as [data |]; rewrite get_from_cache_after_store, String.eqb_refl.
      * intros L. apply Qlt_b_true in L. rewrite L. reflexivity.
      * destruct (RulesEngine.Qlt_b _ _); destruct response'; reflexivity.
Qed.

End FetcherFacts.

Section FetcherExamples.

Import PyDict DataFetcher.

Lemma rate_limit_spacing_witness :
  match sleep_time (@init nat) (1 # 4) with
  | Some pause => (1 # 4) + pause <= 2
  | None => (1 # 4) <= 2
  end /\
  last_request_time (@init nat) + 1
  <= last_request_time (snd (_respect_rate_limit (@init nat) (1 # 4) 2)).
Proof.
  assert (H : match sleep_time (@init nat) (1 # 4) with
              | Some pause => (1 # 4) + pause <= 2
              | None => (1 # 4) <= 2
              end) by (vm_compute; discriminate).
  split; [exact H |].
  exact (proj1 (rate_limit_spacing (@init nat) (1 # 4) 2 H)).
Defined.

Lemma make_request_caching_witness :
  "global_data"%string <> EmptyString /\
  _get_from_cache (@init nat) "global_data" 10 = None /\
  fst (_make_request (@init nat) (Some "global_data"%string) (Some 300)
         {| at_lookup := 10; at_limit := 10; at_resume := 10; at_store := 11 |} Failure)
  = None.
Proof.
  assert (K : "global_data"%string <> EmptyString) by discriminate.
  assert (M : _get_from_cache (@init nat) "global_data" 10 = None) by reflexivity.
  split; [exact K |]. split; [exact M |].
  exact (proj1 (proj1 (proj2 (make_request_caching (@init nat) "global_data" (Some 300)
                                {| at_lookup := 10; at_limit := 10; at_resume := 10;
                                   at_store := 11 |} K) M))).
Defined.

End FetcherExamples.

(** ** The analyzer's cache and getters *)

Section AnalyzerFacts.

Import PyDict AnalyzerCache.

Context {Data : Type} (truthy : Data -> bool).

Local Abbreviation State := (AnalyzerCache.State Data).
Local Abbreviation Step := (AnalyzerCache.Step Data).

Lemma get_cached_after_set
    (self : State) (key : string) (data : option Data) (now : Q) (key' : string) (now' : Q) :
  _get_cached_data (_set_cached_data self key data now) key' now'
  = if String.eqb key key'
    then (if RulesEngine.Qlt_b (now' - now) cache_duration then data else None)
    else _get_cached_data self key' now'.
Proof.
  unfold _get_cached_data, _set_cached_data.
  cbn [cache last_cache_time]. rewrite !dict_mem_set, !dict_get_set.
  destruct (String.eqb key key'); reflexivity.
Qed.

(** X21.  The analyzer's cache and [get_cryptocurrency_data].  A value set
    at time [now] is read back for the same key while less than 300
    seconds have passed, and no longer from 300 seconds on; other keys are
    not affected.  [get_cryptocurrency_data] never returns a falsy value
    other than [None]; a cached truthy value is returned without a request
    and without a change of state; on a miss a truthy answer is returned
    and then served from the cache for the next 300 seconds whatever the
    service would answer, while a falsy answer gives [None] and is not
    cached. *)
Theorem analyzer_cache_behaviour :
  (forall (self : State) (key : string) (data : option Data) (now : Q)
          (key' : string) (now' : Q),
      _get_cached_data (_set_cached_data self key data now) key' now'
      = if String.eqb key key'
        then (if RulesEngine.Qlt_b (now' - now) 300 then data else None)
        else _get_cached_data self key' now') /\
  (forall (self : State) (step : Step) (crypto_id : string),
      let result := get_cryptocurrency_data truthy self step crypto_id in
      let cached := _get_cached_data self (crypto_data_key crypto_id) (t_get step) in
      (fst result = None \/ is_true truthy (fst result) = true) /\
      (is_true truthy cached = true -> result = (cached, self)) /\
      (is_true truthy cached = false -> is_true truthy (response step) = false ->
       result = (None, self)) /\
      (is_true truthy cached = false -> is_true truthy (response step) = true ->
       fst result = response step /\
       forall step' : Step,
         t_get step' - t_set step < 300 ->
         get_cryptocurrency_data truthy (snd result) step' crypto_id
         = (response step, snd result))).
Proof.
  split; [exact get_cached_after_set |].
  intros self step crypto_id result cached.
  unfold result, get_cryptocurrency_data. cbv zeta. fold cached.
  destruct (is_true truthy cached) eqn:C.
  - cbn [fst snd]. split; [right; exact C |]. split; [reflexivity |].
    split; intros H; discriminate.
  - destruct (is_true truthy (response step)) eqn:R.
    + cbn [fst snd]. split; [right; exact R |]. split; [discriminate |].
      split; [intros _ H; discriminate |].
      intros _ _. split; [reflexivity |].
      intros step' L.
      rewrite get_cached_after_set, String.eqb_refl.
      apply Qlt_b_true in L. unfold cache_duration. rewrite L, R. reflexivity.
    + cbn [fst snd]. split; [left; reflexivity |]. split; [discriminate |].
      split; [reflexivity |]. intros _ H. discriminate.
Qed.

Lemma historical_loop_keys (env : nat -> Step) (days : Z) (crypto_ids : list string) :
  forall (i : nat) (self : State) (historical_data : list (string * option Data)),
    let result := fst (historical_loop truthy env days i crypto_ids self historical_data) in
    (NoDup (map fst historical_data) -> NoDup (map fst result)) /\
    (forall id : string,
        In id (map fst result) <-> In id crypto_ids \/ In id (map fst historical_data)) /\
    ((forall (id : string) (v : option Data),
         Py.dict_get historical_data id = Some v -> v = None \/ is_true truthy v = true) ->
     forall (id : string) (v : option Data),
       Py.dict_get result id = Some v -> v = None \/ is_true truthy v = true).
Proof.
  induction crypto_ids as [| crypto_id rest IH]; intros i self historical_data.
  - cbn [historical_loop fst]. split; [intros H; exact H |]. split.
    + intros id. cbn [In]. tauto.
    + intros H. exact H.
  - cbn [historical_loop]. cbv zeta.
    set (cached := _get_cached_data self (historical_key crypto_id days) (t_get (env i))).
    assert (Step_ok : forall (self' : State) (v : option Data),
               (v = None \/ is_true truthy v = true) ->
               let result :=
                 fst (historical_loop truthy env days (S i) rest self'
                        (dict_set historical_data crypto_id v)) in
               (NoDup (map fst historical_data) -> NoDup (map fst result)) /\
               (forall id : string,
                   In id (map fst result)
                   <-> In id (crypto_id :: rest) \/ In id (map fst historical_data)) /\
               ((forall (id : string) (w : option Data),
                    Py.dict_get historical_data id = Some w ->
                    w = None \/ is_true truthy w = true) ->
                forall (id : string) (w : option Data),
                  Py.dict_get result id = Some w -> w = None \/ is_true truthy w = true)).
    { intros self' v Hv result.
      destruct (IH (S i) self' (dict_set historical_data crypto_id v)) as [N [K T]].
      fold result in N, K, T. split; [| split].
      - intros H. apply N. now apply dict_set_NoDup.
      - intros id. rewrite K, dict_set_keys. cbn [In]. intuition congruence.
      - intros H. apply T. intros id w. rewrite dict_get_set.
        destruct (String.eqb crypto_id id); [intros [= <-]; exact Hv | apply H]. }
    destruct (is_true truthy cached) eqn:C.
    + apply Step_ok. right. exact C.
    + destruct (is_true truthy (response (env i))) eqn:R.
      * apply Step_ok. right. exact R.
      * apply Step_ok. left. reflexivity.
Qed.

(** X22.  [get_historical_data] returns a dict whose keys are exactly the
    requested ids, each once: no requested id is ever missing, also when
    its request fails.  Every value is either [None] or a truthy body, so
    a falsy body such as an empty object is reported as [None].  For a
    single id the value is the cached body if one is valid, else the
    answer of the service if it is truthy, else [None]. *)
Theorem historical_data_keys :
  forall (self : State) (env : nat -> Step) (crypto_ids : list string) (days : Z),
    let historical_data := fst (get_historical_data truthy self env crypto_ids days) in
    NoDup (map fst historical_data) /\
    (forall id : string, In id (map fst historical_data) <-> In id crypto_ids) /\
    (forall id : string,
        In id crypto_ids -> exists v, Py.dict_get historical_data id = Some v) /\
    (forall (id : string) (v : option Data),
        Py.dict_get historical_data id = Some v -> v = None \/ is_true truthy v = true) /\
    (forall id : string,
        let cached := _get_cached_data self (historical_key id days) (t_get (env 0%nat)) in
        fst (get_historical_data truthy self env [id] days)
        = [ (id, if is_true truthy cached then cached
                 else if is_true truthy (response (env 0%nat)) then response (env 0%nat)
                 else None) ]).
Proof.
  intros self env crypto_ids days historical_data.
  destruct (historical_loop_keys env days crypto_ids 0 self []) as [N [K T]].
  fold (get_historical_data truthy self env crypto_ids days) in N, K, T.
  fold historical_data in N, K, T.
  assert (K' : forall id : string, In id (map fst historical_data) <-> In id crypto_ids).
  { intros id. rewrite K. cbn [map In]. tauto. }
  split; [apply N; constructor |]. split; [exact K' |]. split.
  - intros id I. apply K', dict_mem_keys in I. unfold dict_mem in I.
    destruct (Py.dict_get historical_data id) as [v |]; [now exists v | discriminate].
  - split; [apply T; intros id v H; discriminate |].
    intros id cached. unfold get_historical_data. cbn [historical_loop]. cbv zeta.
    fold cached.
    destruct (is_true truthy cached); [reflexivity |].
    destruct (is_true truthy (response (env 0%nat))); reflexivity.
Qed.

End AnalyzerFacts.

(** ** Technical analysis *)

Section ExtremumFacts.

Import CryptoAnalyzer TechnicalAnalysis.

Lemma max_loop_bounds (rest : list Q) :
  forall m : Q,
    m <= fold_left (fun m y => if Qgt_b y m then y else m) rest m /\
    (forall x : Q, In x rest -> x <= fold_left (fun m y => if Qgt_b y m then y else m) rest m).
Proof.
  induction rest as [| y rest IH]; intros m; cbn [fold_left].
  - split; [lra | intros x []].
  - destruct (Qgt_b y m) eqn:E.
    + apply Qgt_b_true in E. destruct (IH y) as [B A]. split; [lra |].
      intros x [<- | I]; [exact B | now apply A].
    + apply Qgt_b_false in E. destruct (IH m) as [B A]. split; [exact B |].
      intros x [<- | I]; [lra | now apply A].
Qed.

Lemma min_loop_bounds (rest : list Q) :
  forall m : Q,
    fold_left (fun m y => if Qgt_b m y then y else m) rest m <= m /\
    (forall x : Q, In x rest -> fold_left (fun m y => if Qgt_b m y then y else m) rest m <= x).
Proof.
  induction rest as [| y rest IH]; intros m; cbn [fold_left].
  - split; [lra | intros x []].
  - destruct (Qgt_b m y) eqn:E.
    + apply Qgt_b_true in E. destruct (IH y) as [B A]. split; [lra |].
      intros x [<- | I]; [exact B | now apply A].
    + apply Qgt_b_false in E. destruct (IH m) as [B A]. split; [exact B |].
      intros x [<- | I]; [lra | now apply A].
Qed.

Lemma max_loop_member (rest : list Q) :
  forall m : Q,
    let r := fold_left (fun m y => if Qgt_b y m then y else m) rest m in
    r = m \/ In r rest.
Proof.
  induction rest as [| y rest IH]; intros m; cbn [fold_left]; [now left |].
  destruct (Qgt_b y m).
  - destruct (IH y) as [-> | I]; right; [now left | now right].
  - destruct (IH m) as [-> | I]; [now left | right; now right].
Qed.

Lemma min_loop_member (rest : list Q) :
  forall m : Q,
    let r := fold_left (fun m y => if Qgt_b m y then y else m) rest m in
    r = m \/ In r rest.
Proof.
  induction rest as [| y rest IH]; intros m; cbn [fold_left]; [now left |].
  destruct (Qgt_b m y).
  - destruct (IH y) as [-> | I]; right; [now left | now right].
  - destruct (IH m) as [-> | I]; [now left | right; now right].
Qed.

Lemma py_max_spec (l : list Q) :
  l <> [] -> In (py_max l) l /\ forall x : Q, In x l -> x <= py_max l.
Proof.
  destruct l as [| a rest]; [congruence |]. intros _. cbn [py_max]. split.
  - destruct (max_loop_member rest a) as [-> | I]; [now left | now right].
  - destruct (max_loop_bounds rest a) as [B A].
    intros x [<- | I]; [exact B | now apply A].
Qed.

Lemma py_min_spec (l : list Q) :
  l <> [] -> In (py_min l) l /\ forall x : Q, In x l -> py_min l <= x.
Proof.
  destruct l as [| a rest]; [congruence |]. intros _. cbn [py_min]. split.
  - destruct (min_loop_member rest a) as [-> | I]; [now left | now right].
  - destruct (min_loop_bounds rest a) as [B A].
    intros x [<- | I]; [exact B | now apply A].
Qed.

(** The range of a non-empty list is 0 exactly when all items are equal. *)
Lemma range_zero_iff (l : list Q) :
  l <> [] ->
  (py_max l - py_min l == 0 <-> forall x y : Q, In x l -> In y l -> x == y).
Proof.
  intros N. destruct (py_max_spec l N) as [Imax Hmax].
  destruct (py_min_spec l N) as [Imin Hmin]. split.
  - intros Z x y Ix Iy.
    pose proof (Hmax x Ix). pose proof (Hmin x Ix).
    pose proof (Hmax y Iy). pose proof (Hmin y Iy). lra.
  - intros H. rewrite (H _ _ Imax Imin). ring.
Qed.

End ExtremumFacts.

Section TechnicalAnalysisFacts.

Import CryptoAnalyzer TechnicalAnalysis.

Variable get_historical_data : list string -> Z -> list (string * option MarketChart).
Variable chart_truthy : MarketChart -> bool.
Variable fmt_money : Q -> string.
Variable fmt_signed : Q -> string.
Variable fmt_one : Q -> string.
Variable fmt_one_real : R -> string.
Variable fmt_rsi : option Q -> string.
Variable zero_division_text : string.

Local Abbreviation technical :=
  (_get_technical_analysis get_historical_data chart_truthy fmt_money fmt_signed fmt_one
     fmt_one_real fmt_rsi zero_division_text).

Lemma starts_refl (h : string) : exists rest : string, h = (h ++ rest)%string.
Proof. exists EmptyString. symmetry. apply append_nil_r_string. Qed.

Lemma starts_app (h s t : string) :
  (exists rest : string, s = (h ++ rest)%string) ->
  exists rest : string, (s ++ t)%string = (h ++ rest)%string.
Proof.
  intros [rest ->]. exists (rest ++ t)%string. apply append_assoc_string.
Qed.

Lemma starts_signal_lines (h : string) (signals : list string) :
  forall acc : string,
    (exists rest : string, acc = (h ++ rest)%string) ->
    exists rest : string,
      fold_left (fun analysis signal => analysis ++ "- " ++ signal ++ nl)%string signals acc
      = (h ++ rest)%string.
Proof.
  induction signals as [| signal signals IH]; intros acc H; cbn [fold_left]; [exact H |].
  apply IH. now apply starts_app.
Qed.

(** Drops the last piece appended to a text. *)
Ltac peel :=
  match goal with
  | |- exists rest : string, (?s ++ ?t)%string = _ => apply (starts_app _ s t)
  end.

(** X23.  [_get_technical_analysis] on a fetched, truthy chart with a
    non-empty price series: when all prices of the series are equal (a
    single data point is enough) the 30-day high equals the 30-day low, the
    "% of range" division is a division by zero, and the function returns
    the error text; in every other case it returns a report that starts
    with the price analysis heading. *)
Theorem technical_analysis_flat_series :
  forall (crypto_id : string) (chart : MarketChart) (series : list PricePoint),
    Py.dict_get (get_historical_data [crypto_id] 30) crypto_id = Some (Some chart) ->
    chart_truthy chart = true ->
    prices chart = Some series ->
    series <> [] ->
    ((forall p q : PricePoint, In p series -> In q series -> snd p == snd q) ->
     technical crypto_id = msg_error zero_division_text) /\
    (~ (forall p q : PricePoint, In p series -> In q series -> snd p == snd q) ->
     exists rest : string, technical crypto_id = (price_analysis_heading ++ rest)%string).
Proof.
  intros crypto_id chart series Hfetch Htruthy Hprices Hne.
  assert (Nmap : map snd series <> []).
  { destruct series; [congruence | discriminate]. }
  pose proof (range_zero_iff (map snd series) Nmap) as Z.
  assert (All : (forall x y : Q, In x (map snd series) -> In y (map snd series) -> x == y)
                <-> (forall p q : PricePoint, In p series -> In q series -> snd p == snd q)).
  { split.
    - intros H p q Ip Iq. apply H; now apply in_map.
    - intros H x y Ix Iy. apply in_map_iff in Ix, Iy.
      destruct Ix as [p [<- Ip]]. destruct Iy as [q [<- Iq]]. now apply H. }
  unfold _get_technical_analysis. cbv zeta. rewrite Hfetch, Htruthy, Hprices. cbn [negb].
  destruct series as [| point rest] eqn:S; [congruence |]. rewrite <- S in *.
  destruct (Qeq_bool (py_max (map snd series) - py_min (map snd series)) 0) eqn:E.
  - split; [reflexivity |].
    intros H. exfalso. apply H. apply (proj1 All). apply (proj1 Z).
    now apply Qeq_bool_iff.
  - split.
    + intros H. pose proof (proj2 Z (proj2 All H)) as Z0.
      apply Qeq_bool_iff in Z0. congruence.
    + intros _. apply starts_app.
      destruct (signals_of _ _ _) as [| signal signals];
        [| apply starts_signal_lines; apply starts_app];
        repeat peel;
        (destruct (rsi_below _ 30); [| destruct (rsi_above _ 70)]);
        repeat peel; apply starts_refl.
Qed.

End TechnicalAnalysisFacts.

Section TechnicalAnalysisExample.

Import CryptoAnalyzer TechnicalAnalysis.

Lemma technical_analysis_flat_series_witness :
  let series : list PricePoint := [ (0%Z, 42) ] in
  let chart := {| prices := Some series |} in
  let provider := fun (ids : list string) (_ : Z) => map (fun id => (id, Some chart)) ids in
  Py.dict_get (provider [ "bitcoin"%string ] 30%Z) "bitcoin" = Some (Some chart) /\
  (fun _ : MarketChart => true) chart = true /\
  prices chart = Some series /\
  series <> [] /\
  (forall p q : PricePoint, In p series -> In q series -> snd p == snd q) /\
  _get_technical_analysis provider (fun _ => true)
    (fun _ => EmptyString) (fun _ => EmptyString) (fun _ => EmptyString)
    (fun _ => EmptyString) (fun _ => EmptyString) "float division by zero" "bitcoin"
  = msg_error "float division by zero".
Proof.
  intros series chart provider.
  assert (H1 : Py.dict_get (provider [ "bitcoin"%string ] 30%Z) "bitcoin" = Some (Some chart))
    by reflexivity.
  assert (H2 : (fun _ : MarketChart => true) chart = true) by reflexivity.
  assert (H3 : prices chart = Some series) by reflexivity.
  assert (H4 : series <> []) by discriminate.
  assert (H5 : forall p q : PricePoint, In p series -> In q series -> snd p == snd q).
  { intros p q [<- | []] [<- | []]. reflexivity. }
  split; [exact H1 |]. split; [exact H2 |]. split; [exact H3 |]. split; [exact H4 |].
  split; [exact H5 |].
  exact (proj1 (technical_analysis_flat_series provider (fun _ => true)
                  (fun _ => EmptyString) (fun _ => EmptyString) (fun _ => EmptyString)
                  (fun _ => EmptyString) (fun _ => EmptyString) "float division by zero"
                  "bitcoin" chart series H1 H2 H3 H4) H5).
Defined.

End TechnicalAnalysisExample.
